(** * Friend suggestions of the social network dashboard

    A shallow embedding of the suggestion computation and of the friendship
    mutations of [src/pages/Dashboard.tsx], of the [friendships] table with its
    constraints and row-level policies, and of the [get_network_friendships]
    helper of the SQL migrations.

    [Dashboard.tsx] is modelled in the revision that fetches the edge list
    inside [calculateSuggestions]; the later revision keeps the list in
    component state and traverses it in the same way.  The policies are those
    in force after all migrations: the insert and delete policies of the first
    migration are dropped and recreated by later ones.

    Ids are uuids carried as strings by the TypeScript code; they are compared
    with [===] only, which is [String.eqb] here.  A JavaScript [Map] iterates
    in insertion order, so it is an association list that keeps that order.
    [Array.prototype.sort] is stable; it is a stable insertion sort here.
    Counters are small non-negative integers, kept in [nat]. *)

From Stdlib Require Import List String Bool Arith ZArith Lia Sorted Permutation.
From Stdlib Require Import Decimal DecimalString.
Import ListNotations.
Open Scope string_scope.

Definition uuid := string.

(** ** Rows and records *)

Module Profile.
(** [interface Profile] *)
Record t := mk {
  id : string;
  user_id : uuid;
  name : string;
  email : string;
  bio : option string
}.
End Profile.

Module Friendship.
(** [interface Friendship].  The surrogate key [id] and [created_at] are
    column defaults of the table that no function below reads; a row is its
    ordered pair of user ids. *)
Record t := mk {
  user_id : uuid;
  friend_id : uuid
}.
End Friendship.

(** [interface FriendSuggestion extends Profile]: the object
    [{ ...userProfile, mutualFriends: mutualCount }]. *)
Record FriendSuggestion := mkSuggestion {
  userProfile : Profile.t;
  mutualFriends : nat
}.

Definition suggested_id (s : FriendSuggestion) : uuid :=
  Profile.user_id (userProfile s).

(** ** JavaScript values used by the computation *)

Module JsMap.
(** [Map<string, number>], entries in insertion order. *)
Definition t := list (string * nat).

Definition empty : t := [].

Fixpoint get (m : t) (k : string) : option nat :=
  match m with
  | [] => None
  | (k', v) :: m' => if String.eqb k' k then Some v else get m' k
  end.

(** [set] keeps the position of a key already present and appends a new
    key at the end. *)
Fixpoint set (m : t) (k : string) (v : nat) : t :=
  match m with
  | [] => [(k, v)]
  | (k', v') :: m' =>
      if String.eqb k' k then (k', v) :: m' else (k', v') :: set m' k v
  end.

Definition entries (m : t) : list (string * nat) := m.

Definition keys (m : t) : list string := map fst m.
End JsMap.

(** [x || d] on an optional number: [undefined] and [0] are falsy. *)
Definition or_default (x : option nat) (d : nat) : nat :=
  match x with
  | Some (S n) => S n
  | _ => d
  end.

(** [ids.includes(x)] *)
Definition includes (ids : list uuid) (x : uuid) : bool :=
  existsb (String.eqb x) ids.

Module JsArray.
Section Sort.
Context {A : Type} (compareFn : A -> A -> Z).

(** [x] goes in front of the first element it does not have to follow;
    an element that compares equal stays behind [x], which came first. *)
Fixpoint insert (x : A) (l : list A) : list A :=
  match l with
  | [] => [x]
  | y :: l' =>
      if (compareFn x y <=? 0)%Z then x :: y :: l' else y :: insert x l'
  end.

Definition sort (l : list A) : list A := fold_right insert [] l.
End Sort.

(** [.map(f).filter(s => s !== null)] *)
Definition mapNotNull {A B : Type} (f : A -> option B) (l : list A) : list B :=
  flat_map (fun a => match f a with Some b => [b] | None => [] end) l.
End JsArray.

(** ** The suggestion computation ([calculateSuggestions]) *)

(** [f.user_id === friendId || f.friend_id === friendId] *)
Definition touches (x : uuid) (f : Friendship.t) : bool :=
  String.eqb (Friendship.user_id f) x || String.eqb (Friendship.friend_id f) x.

(** [f.user_id === friendId ? f.friend_id : f.user_id] *)
Definition potentialFriendId (friendId : uuid) (f : Friendship.t) : uuid :=
  if String.eqb (Friendship.user_id f) friendId
  then Friendship.friend_id f else Friendship.user_id f.

Definition friendOfFriendships (allFriendships : list Friendship.t)
    (friendId : uuid) : list Friendship.t :=
  filter (touches friendId) allFriendships.

Section Traversal.
Variable user : uuid.
Variable friendIds : list uuid.
Variable allFriendships : list Friendship.t.

(** Body of the inner [forEach]. *)
Definition visitFriendship (friendId : uuid) (m : JsMap.t)
    (f : Friendship.t) : JsMap.t :=
  let p := potentialFriendId friendId f in
  if negb (String.eqb p user) && negb (includes friendIds p)
  then JsMap.set m p (or_default (JsMap.get m p) 0 + 1)
  else m.

(** Body of the outer [forEach]. *)
Definition visitFriend (m : JsMap.t) (friendId : uuid) : JsMap.t :=
  fold_left (visitFriendship friendId)
            (friendOfFriendships allFriendships friendId) m.

Definition suggestionsMap : JsMap.t :=
  fold_left visitFriend friendIds JsMap.empty.
End Traversal.

(** [allUsers.find(u => u.user_id === userId)] and the object built from it. *)
Definition withProfile (allUsers : list Profile.t) (e : string * nat)
    : option FriendSuggestion :=
  match find (fun u => String.eqb (Profile.user_id u) (fst e)) allUsers with
  | Some p => Some (mkSuggestion p (snd e))
  | None => None
  end.

(** [(a, b) => b.mutualFriends - a.mutualFriends] *)
Definition byMutualFriends (a b : FriendSuggestion) : Z :=
  (Z.of_nat (mutualFriends b) - Z.of_nat (mutualFriends a))%Z.

(** The suggestions in the order of the map, before [.sort]. *)
Definition discovered (user : uuid) (friends allUsers : list Profile.t)
    (allFriendships : list Friendship.t) : list FriendSuggestion :=
  JsArray.mapNotNull (withProfile allUsers)
    (JsMap.entries
       (suggestionsMap user (map Profile.user_id friends) allFriendships)).

Definition suggestionsWithMutual (user : uuid) (friends allUsers : list Profile.t)
    (allFriendships : list Friendship.t) : list FriendSuggestion :=
  JsArray.sort byMutualFriends (discovered user friends allUsers allFriendships).

(** ** Responses of the storage client *)

Inductive PostgrestError :=
  | rls_violation          (* a row-level policy refused the row *)
  | check_violation        (* CHECK (user_id != friend_id) *)
  | unique_violation       (* UNIQUE (user_id, friend_id) *)
  | foreign_key_violation  (* REFERENCES profiles(user_id) *)
  | not_authorized         (* RAISE EXCEPTION 'not authorized' *)
  | no_single_row          (* .single() on zero or several rows *)
  | fetch_failed.          (* the request did not reach the store *)

(** The awaited [{ data, error }]: exactly one of the two is set. *)
Inductive Response (A : Type) :=
  | Data (data : A)
  | Error (error : PostgrestError).
Arguments Data {A} data.
Arguments Error {A} error.

Definition data_of {A : Type} (r : Response A) : option A :=
  match r with Data d => Some d | Error _ => None end.

Inductive Toast :=
  | toast_error (message : string)
  | toast_success (message : string).

(** ** Component state ([useState]) *)

Record State := mkState {
  profile : option Profile.t;
  friends : list Profile.t;
  suggestions : list FriendSuggestion;
  allUsers : list Profile.t;
  loading : bool;
  actionLoading : option uuid
}.

Definition initialState : State := mkState None [] [] [] true None.

Definition setProfile (v : option Profile.t) (st : State) : State :=
  mkState v (friends st) (suggestions st) (allUsers st) (loading st)
          (actionLoading st).
Definition setFriends (v : list Profile.t) (st : State) : State :=
  mkState (profile st) v (suggestions st) (allUsers st) (loading st)
          (actionLoading st).
Definition setSuggestions (v : list FriendSuggestion) (st : State) : State :=
  mkState (profile st) (friends st) v (allUsers st) (loading st)
          (actionLoading st).
Definition setAllUsers (v : list Profile.t) (st : State) : State :=
  mkState (profile st) (friends st) (suggestions st) v (loading st)
          (actionLoading st).
Definition setLoading (v : bool) (st : State) : State :=
  mkState (profile st) (friends st) (suggestions st) (allUsers st) v
          (actionLoading st).
Definition setActionLoading (v : option uuid) (st : State) : State :=
  mkState (profile st) (friends st) (suggestions st) (allUsers st)
          (loading st) v.

(** ** Loaders, as functions of the awaited responses *)

Definition loadProfile (user : option uuid) (resp : Response Profile.t)
    (st : State) : State * list Toast :=
  match user with
  | None => (st, [])
  | Some _ =>
      match resp with
      | Error _ => (st, [toast_error "Failed to load profile"])
      | Data data => (setProfile (Some data) st, [])
      end
  end.

(** [friendshipsData.map(f => f.user_id === user.id ? f.friend_id : f.user_id)] *)
Definition friendIdsOf (user : uuid) (friendshipsData : list Friendship.t)
    : list uuid :=
  map (fun f =>
         if String.eqb (Friendship.user_id f) user
         then Friendship.friend_id f else Friendship.user_id f)
      friendshipsData.

(** The second query depends on the ids computed from the first. *)
Definition loadFriends (user : option uuid)
    (friendshipsResp : Response (list Friendship.t))
    (friendsResp : list uuid -> Response (list Profile.t))
    (st : State) : State * list Toast :=
  match user with
  | None => (st, [])
  | Some u =>
      match friendshipsResp with
      | Error _ => (st, [toast_error "Failed to load friends"])
      | Data friendshipsData =>
          let friendIds := friendIdsOf u friendshipsData in
          if Nat.eqb (List.length friendIds) 0 then (setFriends [] st, [])
          else
            match friendsResp friendIds with
            | Error _ => (st, [toast_error "Failed to load friend profiles"])
            | Data friendsData => (setFriends friendsData st, [])
            end
      end
  end.

Definition loadAllUsers (user : option uuid)
    (resp : Response (list Profile.t)) (st : State) : State * list Toast :=
  match user with
  | None => (st, [])
  | Some _ =>
      match resp with
      | Error _ => (st, [toast_error "Failed to load users"])
      | Data data => (setAllUsers data st, [])
      end
  end.

(** [calculateSuggestions]: the edge list is fetched inside; on a failed fetch
    [data] is [null] and the function returns. *)
Definition calculateSuggestions (user : option uuid)
    (resp : Response (list Friendship.t)) (st : State) : State :=
  match user with
  | None => st
  | Some u =>
      match data_of resp with
      | None => st
      | Some allFriendships =>
          setSuggestions
            (suggestionsWithMutual u (friends st) (allUsers st) allFriendships)
            st
      end
  end.

(** The effect on [[friends, allUsers]]. *)
Definition suggestionsEffect (user : option uuid)
    (resp : Response (list Friendship.t)) (st : State) : State :=
  if Nat.ltb 0 (List.length (friends st)) && Nat.ltb 0 (List.length (allUsers st))
  then calculateSuggestions user resp st
  else setSuggestions [] st.

(** ** Filters of the read queries *)

Module Query.
(** [.eq('user_id', u).single()] *)
Definition profile_single (profiles : list Profile.t) (u : uuid)
    : Response Profile.t :=
  match filter (fun p => String.eqb (Profile.user_id p) u) profiles with
  | [p] => Data p
  | _ => Error no_single_row
  end.

(** [.or(`user_id.eq.${u},friend_id.eq.${u}`)] *)
Definition friendships_of (rows : list Friendship.t) (u : uuid)
    : list Friendship.t :=
  filter (touches u) rows.

(** [.in('user_id', ids)] *)
Definition profiles_in (profiles : list Profile.t) (ids : list uuid)
    : list Profile.t :=
  filter (fun p => includes ids (Profile.user_id p)) profiles.

(** [.neq('user_id', u)] *)
Definition profiles_neq (profiles : list Profile.t) (u : uuid)
    : list Profile.t :=
  filter (fun p => negb (String.eqb (Profile.user_id p) u)) profiles.
End Query.

(** The suggestions shown to [u] once friends and roster are loaded from the
    tables [profiles] and [friendRows] and the effect has run on the fetched
    [edgeList]. *)
Definition dashboardSuggestions (profiles : list Profile.t)
    (friendRows edgeList : list Friendship.t) (u : uuid)
    : list FriendSuggestion :=
  let st1 := fst (loadFriends (Some u)
                    (Data (Query.friendships_of friendRows u))
                    (fun ids => Data (Query.profiles_in profiles ids))
                    initialState) in
  let st2 := fst (loadAllUsers (Some u)
                    (Data (Query.profiles_neq profiles u)) st1) in
  suggestions (suggestionsEffect (Some u) (Data edgeList) st2).

(** ** The store: tables, constraints and row-level policies *)

Record Store := mkStore {
  profiles : list Profile.t;
  friendships : list Friendship.t
}.

Module Policy.
(** [auth.uid() = x]; no row passes for an anonymous caller. *)
Definition uid_is (auth : option uuid) (x : uuid) : bool :=
  match auth with
  | Some a => String.eqb a x
  | None => false
  end.

(** "Users can view their friendships":
    [USING (auth.uid() = user_id OR auth.uid() = friend_id)] *)
Definition friendships_select (auth : option uuid) (f : Friendship.t) : bool :=
  uid_is auth (Friendship.user_id f) || uid_is auth (Friendship.friend_id f).

(** "Users can create friendships", as recreated by a later migration:
    [WITH CHECK (auth.uid() = user_id OR auth.uid() = friend_id)] *)
Definition friendships_insert (auth : option uuid) (f : Friendship.t) : bool :=
  uid_is auth (Friendship.user_id f) || uid_is auth (Friendship.friend_id f).

(** "Users can delete their or their friend's friendships", which replaces
    "Users can delete friendships":
    [USING (auth.uid() = user_id OR auth.uid() = friend_id)] *)
Definition friendships_delete (auth : option uuid) (f : Friendship.t) : bool :=
  uid_is auth (Friendship.user_id f) || uid_is auth (Friendship.friend_id f).
End Policy.

Module Table.
(** UNIQUE (user_id, friend_id) *)
Definition same_key (f g : Friendship.t) : bool :=
  String.eqb (Friendship.user_id f) (Friendship.user_id g)
  && String.eqb (Friendship.friend_id f) (Friendship.friend_id g).

(** Rows of one INSERT statement, in order: policy, CHECK, unique index. *)
Fixpoint insert_each (auth : option uuid) (table rows : list Friendship.t)
    : PostgrestError + list Friendship.t :=
  match rows with
  | [] => inr table
  | f :: rest =>
      if negb (Policy.friendships_insert auth f) then inl rls_violation
      else if String.eqb (Friendship.user_id f) (Friendship.friend_id f)
      then inl check_violation
      else if existsb (same_key f) table then inl unique_violation
      else insert_each auth (table ++ [f])%list rest
  end.

(** REFERENCES profiles(user_id), checked when the statement ends. *)
Definition references (profiles : list Profile.t) (x : uuid) : bool :=
  existsb (fun p => String.eqb (Profile.user_id p) x) profiles.

Definition keys_exist (profiles : list Profile.t) (f : Friendship.t) : bool :=
  references profiles (Friendship.user_id f)
  && references profiles (Friendship.friend_id f).

(** [.from('friendships').insert(rows)]: one statement, all rows or none. *)
Definition insert (auth : option uuid) (db : Store)
    (rows : list Friendship.t) : Store * Response unit :=
  match insert_each auth (friendships db) rows with
  | inl e => (db, Error e)
  | inr table =>
      if forallb (keys_exist (profiles db)) rows
      then (mkStore (profiles db) table, Data tt)
      else (db, Error foreign_key_violation)
  end.

(** [.from('friendships').delete().or(...)]: the rows the caller may see and
    delete and that match the filter go; the others are skipped silently. *)
Definition delete (auth : option uuid) (db : Store)
    (cond : Friendship.t -> bool) : Store * Response unit :=
  (mkStore (profiles db)
     (filter (fun f => negb (Policy.friendships_select auth f
                             && Policy.friendships_delete auth f
                             && cond f))
             (friendships db)),
   Data tt).

(** [.from('friendships').select('*')]: the rows the caller may see; the
    filters of [Query] apply to them. *)
Definition select (auth : option uuid) (db : Store) : list Friendship.t :=
  filter (Policy.friendships_select auth) (friendships db).
End Table.

(** ** [loadData] *)

(** [Promise.all] runs the three loaders interleaved; they set different
    fields, so the state they leave is that of running them in turn. *)
Definition loadDataWith (user : option uuid)
    (profileResp : Response Profile.t)
    (friendshipsResp : Response (list Friendship.t))
    (friendsResp : list uuid -> Response (list Profile.t))
    (usersResp : Response (list Profile.t))
    (st : State) : State * list Toast :=
  let st0 := setLoading true st in
  let '(st1, t1) := loadProfile user profileResp st0 in
  let '(st2, t2) := loadFriends user friendshipsResp friendsResp st1 in
  let '(st3, t3) := loadAllUsers user usersResp st2 in
  (setLoading false st3, (t1 ++ t2 ++ t3)%list).

(** [loadData] for the signed-in user [u] against a store that is reachable.
    Profiles are readable by everyone; friendships go through the select
    policy. *)
Definition loadData (u : uuid) (db : Store) (st : State)
    : State * list Toast :=
  loadDataWith (Some u)
    (Query.profile_single (profiles db) u)
    (Data (Query.friendships_of (Table.select (Some u) db) u))
    (fun ids => Data (Query.profiles_in (profiles db) ids))
    (Data (Query.profiles_neq (profiles db) u))
    st.

(** The direct friends of [u] as [loadFriends] computes them from the store. *)
Definition storedFriendIds (db : Store) (u : uuid) : list uuid :=
  friendIdsOf u (Query.friendships_of (Table.select (Some u) db) u).

(** ** Mutations ([addFriend], [removeFriend]) *)

Inductive Write :=
  | InsertRows (rows : list Friendship.t)
  | DeleteEdge (a b : uuid).

(** What a handler leaves behind: the store, the component state, the write
    requests it sent, and the toasts it showed. *)
Record Run := mkRun {
  db_after : Store;
  st_after : State;
  sent : list Write;
  toasts : list Toast
}.

Definition addFriend (user : option uuid) (friendId : uuid)
    (db : Store) (st : State) : Run :=
  match user with
  | None => mkRun db st [] []
  | Some u =>
      let st1 := setActionLoading (Some friendId) st in
      let rows := [Friendship.mk u friendId; Friendship.mk friendId u] in
      match Table.insert user db rows with
      | (db', Error _) =>
          mkRun db' (setActionLoading None st1) [InsertRows rows]
                [toast_error "Failed to add friend"]
      | (db', Data _) =>
          let '(st2, ts) := loadData u db' st1 in
          mkRun db' (setActionLoading None st2) [InsertRows rows]
                (toast_success "Friend added successfully!" :: ts)
      end
  end.

(** [or(and(user_id.eq.u,friend_id.eq.f),and(user_id.eq.f,friend_id.eq.u))] *)
Definition eitherOrientation (u f : uuid) (r : Friendship.t) : bool :=
  (String.eqb (Friendship.user_id r) u && String.eqb (Friendship.friend_id r) f)
  || (String.eqb (Friendship.user_id r) f && String.eqb (Friendship.friend_id r) u).

Definition removeFriend (user : option uuid) (friendId : uuid)
    (db : Store) (st : State) : Run :=
  match user with
  | None => mkRun db st [] []
  | Some u =>
      let st1 := setActionLoading (Some friendId) st in
      match Table.delete user db (eitherOrientation u friendId) with
      | (db', Error _) =>
          mkRun db' (setActionLoading None st1) [DeleteEdge u friendId]
                [toast_error "Failed to remove friend"]
      | (db', Data _) =>
          let '(st2, ts) := loadData u db' st1 in
          mkRun db' (setActionLoading None st2) [DeleteEdge u friendId]
                (toast_success "Friend removed" :: ts)
      end
  end.

(** The toast a handler shows first tells how its write went. *)
Definition reportsSuccess (r : Run) : bool :=
  match toasts r with
  | toast_success _ :: _ => true
  | _ => false
  end.

Definition reportsFailure (r : Run) : bool :=
  match toasts r with
  | toast_error _ :: _ => true
  | _ => false
  end.

(** A second [addFriend] for the same friend goes as the specification asks:
    if the first call succeeded, the second succeeds too and leaves the store
    of the first. *)
Definition addFriendIdempotent (a b : uuid) (db : Store) (st : State) : Prop :=
  let once := addFriend (Some a) b db st in
  reportsSuccess once = true ->
  let twice := addFriend (Some a) b (db_after once) (st_after once) in
  reportsSuccess twice = true /\ db_after twice = db_after once.

(** Befriending oneself is refused as the specification asks: the handler
    reports a failure, has sent no write to the store, and the store is as it
    was. *)
Definition selfRejectedBeforeWrite (a : uuid) (db : Store) (st : State) : Prop :=
  let run := addFriend (Some a) a db st in
  reportsFailure run = true /\ sent run = [] /\ db_after run = db.

(** ** [get_network_friendships] *)

Module Network.
Section Rows.
Variable table : list Friendship.t.
Variable p_user_id : uuid.

Definition my_friends : list uuid :=
  map (fun f =>
         if String.eqb (Friendship.user_id f) p_user_id
         then Friendship.friend_id f else Friendship.user_id f)
      (filter (fun f =>
                 String.eqb (Friendship.user_id f) p_user_id
                 || String.eqb (Friendship.friend_id f) p_user_id)
              table).

(** [friendships f JOIN my_friends mf ON ...], then DISTINCT. *)
Definition fof : list uuid :=
  nodup string_dec
    (flat_map
       (fun f =>
          flat_map
            (fun mf =>
               if String.eqb (Friendship.user_id f) mf
                  || String.eqb (Friendship.friend_id f) mf
               then [if String.eqb (Friendship.user_id f) mf
                     then Friendship.friend_id f else Friendship.user_id f]
               else [])
            my_friends)
       table).

Definition network : list uuid :=
  nodup string_dec (p_user_id :: (my_friends ++ fof)%list).

Definition rows : list Friendship.t :=
  filter (fun f => includes network (Friendship.user_id f)
                   && includes network (Friendship.friend_id f))
         table.
End Rows.
End Network.

(** The function is SECURITY DEFINER: it reads the whole table, after the
    guard on the caller.  Rows come back in table order here; SQL promises
    no order. *)
Definition get_network_friendships (requester : option uuid)
    (table : list Friendship.t) (p_user_id : uuid)
    : Response (list Friendship.t) :=
  match requester with
  | None => Error not_authorized
  | Some r =>
      if negb (String.eqb r p_user_id) then Error not_authorized
      else Data (Network.rows table p_user_id)
  end.

(** ** The specification's graph view *)

Module Graph.
(** Follows the specification: the graph maps a user to the set of users
    adjacent to it, each edge entering the neighbour set of both ends. *)
Definition neighborsOf (edges : list Friendship.t) (x : uuid) : list uuid :=
  nodup string_dec
    (flat_map
       (fun e =>
          ((if String.eqb (Friendship.user_id e) x
            then [Friendship.friend_id e] else [])
           ++ (if String.eqb (Friendship.friend_id e) x
               then [Friendship.user_id e] else []))%list)
       edges).

(** |neighborsOf(u) ∩ neighborsOf(c)| *)
Definition mutualCount (edges : list Friendship.t) (u c : uuid) : nat :=
  List.length
    (filter (includes (neighborsOf edges c)) (neighborsOf edges u)).
End Graph.

(** ** Shapes of the [friendships] table *)

(** One row per friendship: no row twice, no pair stored both ways round. *)
Definition oneRowPerFriendship (rows : list Friendship.t) : Prop :=
  NoDup rows
  /\ forall a b, In (Friendship.mk a b) rows -> ~ In (Friendship.mk b a) rows.

(** Two rows per friendship, as [addFriend] writes them. *)
Definition mirroredRows (rows : list Friendship.t) : Prop :=
  NoDup rows
  /\ forall a b, In (Friendship.mk a b) rows -> In (Friendship.mk b a) rows.

(** ** Orders on the ranked output *)

(** [a] may stand before [b] under the order the specification asks for:
    more mutual friends first, the smaller id first among equals. *)
Definition rankedBefore (a b : FriendSuggestion) : Prop :=
  mutualFriends b < mutualFriends a
  \/ (mutualFriends a = mutualFriends b
      /\ String.ltb (suggested_id a) (suggested_id b) = true).

(** The order the specification asks of the ranked list. *)
Definition rankedAsSpecified (l : list FriendSuggestion) : Prop :=
  StronglySorted rankedBefore l.

(** Non-increasing mutual counts only. *)
Definition notFewerMutual (a b : FriendSuggestion) : Prop :=
  mutualFriends b <= mutualFriends a.

Definition withCount (k : nat) (l : list FriendSuggestion)
    : list FriendSuggestion :=
  filter (fun s => Nat.eqb (mutualFriends s) k) l.

(** ** The traversal as a tally *)

(** [m.set(k, (m.get(k) || 0) + 1)] *)
Definition bump (m : JsMap.t) (k : string) : JsMap.t :=
  JsMap.set m k (or_default (JsMap.get m k) 0 + 1).

(** The guard of the inner loop. *)
Definition eligible (user : uuid) (friendIds : list uuid) (p : uuid) : bool :=
  negb (String.eqb p user) && negb (includes friendIds p).

(** The ids one friend's rows make the inner loop count, in row order. *)
Definition hitsOf (user : uuid) (friendIds : list uuid)
    (allFriendships : list Friendship.t) (friendId : uuid) : list uuid :=
  filter (eligible user friendIds)
         (map (potentialFriendId friendId)
              (friendOfFriendships allFriendships friendId)).

(** All the increments of a traversal, in the order they happen. *)
Definition hits (user : uuid) (friendIds : list uuid)
    (allFriendships : list Friendship.t) : list uuid :=
  flat_map (hitsOf user friendIds allFriendships) friendIds.

(** The rows that join [friendId] to [c]. *)
Definition rowsJoining (allFriendships : list Friendship.t)
    (friendId c : uuid) : nat :=
  List.length
    (filter (fun p => String.eqb p c)
            (map (potentialFriendId friendId)
                 (friendOfFriendships allFriendships friendId))).

(** The ids of a list in the order of their first occurrence. *)
Definition firstOccurrences (l : list uuid) : list uuid :=
  fold_left (fun seen x => if includes seen x then seen else (seen ++ [x])%list)
            l [].

(** The count a map holds for [k], 0 when it holds none. *)
Definition valueOf (m : JsMap.t) (k : string) : nat :=
  or_default (JsMap.get m k) 0.

(** An entry the traversal may write: not the requester, not a friend,
    counted at least once. *)
Definition admissible (user : uuid) (friendIds : list uuid)
    (e : string * nat) : Prop :=
  fst e <> user /\ ~ In (fst e) friendIds /\ 1 <= snd e.

(** A map the traversal can reach: no key twice, no count below 1. *)
Definition tallied (m : JsMap.t) : Prop :=
  NoDup (JsMap.keys m) /\ Forall (fun e => 1 <= snd e) m.

(** ** Small networks used as examples *)

Module Scenario.
Definition person (x : string) : Profile.t :=
  Profile.mk ("profile-" ++ x) x ("user " ++ x) (x ++ "@example.org") None.

Definition edge : uuid -> uuid -> Friendship.t := Friendship.mk.

Definition roster : list Profile.t :=
  [person "1"; person "2"; person "3"; person "4"].

(** Nobody is friends with anybody yet. *)
Definition strangers : Store := mkStore roster [].

(** 1 - 2, and 2 knows 4 and 3, one row per friendship. *)
Definition fan : list Friendship.t :=
  [edge "1" "2"; edge "2" "4"; edge "2" "3"].

(** 1 - 2 - 3, each friendship stored as its two rows. *)
Definition chain : list Friendship.t :=
  [edge "1" "2"; edge "2" "1"; edge "2" "3"; edge "3" "2"].

(** A dashboard that has loaded something before. *)
Definition loaded : State :=
  mkState (Some (person "1")) [person "2"]
          [mkSuggestion (person "3") 1]
          [person "2"; person "3"; person "4"] false None.
End Scenario.

(** ** Sequences of mutations *)

(** A click on "Add Friend" or "Unfriend" by a signed-in user. *)
Inductive Action :=
  | Add (user friendId : uuid)
  | Remove (user friendId : uuid).

(** The store a handler leaves.  Each user has a component state of their
    own; the store a handler leaves does not depend on it. *)
Definition perform (db : Store) (a : Action) : Store :=
  match a with
  | Add user friendId => db_after (addFriend (Some user) friendId db initialState)
  | Remove user friendId =>
      db_after (removeFriend (Some user) friendId db initialState)
  end.

Definition replay (actions : list Action) (db : Store) : Store :=
  fold_left perform actions db.

(** The constraints of [friendships]: CHECK, UNIQUE and both foreign keys. *)
Definition constraintsHold (db : Store) : Prop :=
  Forall (fun r => Friendship.user_id r <> Friendship.friend_id r)
         (friendships db)
  /\ NoDup (friendships db)
  /\ forallb (Table.keys_exist (profiles db)) (friendships db) = true.

(** The constraints hold and every friendship is stored both ways round. *)
Definition wellKept (db : Store) : Prop :=
  constraintsHold db /\ mirroredRows (friendships db).

(** The same friendship stored the other way round. *)
Definition flip (r : Friendship.t) : Friendship.t :=
  Friendship.mk (Friendship.friend_id r) (Friendship.user_id r).

(** Some rows stored the other way round: the row at a position is flipped
    when the flag at that position is set. *)
Fixpoint reorient (flags : list bool) (rows : list Friendship.t)
    {struct rows} : list Friendship.t :=
  match rows with
  | [] => []
  | r :: rows' =>
      match flags with
      | [] => r :: rows'
      | b :: flags' => (if b then flip r else r) :: reorient flags' rows'
      end
  end.

(** Within two hops of [u] in the graph of the table. *)
Definition withinTwoHops (table : list Friendship.t) (u x : uuid) : Prop :=
  x = u
  \/ In x (Graph.neighborsOf table u)
  \/ exists f, In f (Graph.neighborsOf table u)
               /\ In x (Graph.neighborsOf table f).

(** ** What the dashboard offers to click *)

Module View.
(** The button of a [UserCard]: "Unfriend" for a friend, "Add Friend"
    otherwise; it is disabled while an action on that user is running. *)
Inductive Button :=
  | AddFriendButton (target : uuid) (disabled : bool)
  | UnfriendButton (target : uuid) (disabled : bool).

(** [isFriend] is [undefined] on the suggestion cards, which is falsy. *)
Definition UserCard (id : uuid) (isFriend : bool) (loading : bool) : Button :=
  if isFriend then UnfriendButton id loading else AddFriendButton id loading.

(** [actionLoading === id] *)
Definition isLoading (st : State) (id : uuid) : bool :=
  match actionLoading st with
  | Some x => String.eqb x id
  | None => false
  end.

(** The cards of the three tabs; none while the page shows its spinner. *)
Definition render (st : State) : list Button :=
  if loading st then []
  else
    (map (fun suggestion =>
            UserCard (suggested_id suggestion) false
                     (isLoading st (suggested_id suggestion)))
         (suggestions st)
     ++ map (fun friend =>
               UserCard (Profile.user_id friend) true
                        (isLoading st (Profile.user_id friend)))
            (friends st)
     ++ map (fun otherUser =>
               let isFriend :=
                 existsb (fun f => String.eqb (Profile.user_id f)
                                              (Profile.user_id otherUser))
                         (friends st) in
               UserCard (Profile.user_id otherUser) isFriend
                        (isLoading st (Profile.user_id otherUser)))
            (allUsers st))%list.
End View.

(** The dashboard of [u] once [loadData] has read the store and the effect
    has ranked the fetched [edgeList]. *)
Definition settled (db : Store) (u : uuid) (edgeList : list Friendship.t)
    (st : State) : State :=
  suggestionsEffect (Some u) (Data edgeList) (fst (loadData u db st)).

(** ** The graph view ([GraphVisualization]) *)

Module Node.
Record t := mk {
  id : string;
  name : string;
  color : string;
  size : nat
}.
End Node.

Module Link.
Record t := mk {
  source : string;
  target : string;
  color : string;
  width : nat
}.
End Link.

Record GraphData := mkGraph {
  nodes : list Node.t;
  links : list Link.t
}.

(** [Set<string>.add]: a set keeps the order of first insertion. *)
Definition setAdd (s : list string) (x : string) : list string :=
  if includes s x then s else (s ++ [x])%list.

Module Viz.
Section Build.
Variable currentUserId : uuid.
Variables friends allUsers : list Profile.t.
Variable friendships : list Friendship.t.

Definition friendIds : list uuid := map Profile.user_id friends.

(** The node of the current user, when the roster holds it. *)
Definition currentUserNodes : list Node.t :=
  match find (fun u => String.eqb (Profile.user_id u) currentUserId)
             allUsers with
  | Some currentUser =>
      [Node.mk currentUserId (Profile.name currentUser ++ " (You)")
               "#9b87f5" 12]
  | None => []
  end.

Definition friendNodes : list Node.t :=
  map (fun friend =>
         Node.mk (Profile.user_id friend) (Profile.name friend) "#7E69AB" 10)
      friends.

(** Body of the first [friendships.forEach]. *)
Definition collect (s : list string) (fs : Friendship.t) : list string :=
  let s1 :=
    if includes friendIds (Friendship.user_id fs)
       && negb (String.eqb (Friendship.friend_id fs) currentUserId)
       && negb (includes friendIds (Friendship.friend_id fs))
    then setAdd s (Friendship.friend_id fs) else s in
  if includes friendIds (Friendship.friend_id fs)
     && negb (String.eqb (Friendship.user_id fs) currentUserId)
     && negb (includes friendIds (Friendship.user_id fs))
  then setAdd s1 (Friendship.user_id fs) else s1.

Definition friendsOfFriends : list string :=
  fold_left collect friendships [].

Definition suggestionNodes : list Node.t :=
  JsArray.mapNotNull
    (fun userId =>
       match find (fun u => String.eqb (Profile.user_id u) userId)
                  allUsers with
       | Some user => Some (Node.mk userId (Profile.name user) "#D6BCFA" 8)
       | None => None
       end)
    friendsOfFriends.

Definition allNodes : list Node.t :=
  (currentUserNodes ++ friendNodes ++ suggestionNodes)%list.

(** [nodes.find(n => n.id === x)] is truthy. *)
Definition inGraph (x : string) : bool :=
  existsb (fun n => String.eqb (Node.id n) x) allNodes.

Definition allLinks : list Link.t :=
  JsArray.mapNotNull
    (fun fs =>
       if inGraph (Friendship.user_id fs) && inGraph (Friendship.friend_id fs)
       then Some (Link.mk (Friendship.user_id fs) (Friendship.friend_id fs)
                          "rgba(126, 105, 171, 0.3)" 1)
       else None)
    friendships.

(** The graph the first effect stores with [setGraphData]. *)
Definition buildGraph : GraphData := mkGraph allNodes allLinks.
End Build.
End Viz.

(** ** The later revision of the dashboard, with its traversal log *)

(** [`${n}`] for a count. *)
Definition showNat (n : nat) : string :=
  NilZero.string_of_uint (Nat.to_uint n).

(** [`\n`] *)
Definition newline : string := String (Ascii.ascii_of_nat 10) EmptyString.

(** [p?.name || fallback]: the empty name is falsy. *)
Definition nameOr (p : option Profile.t) (fallback : string) : string :=
  match p with
  | Some q =>
      match Profile.name q with
      | EmptyString => fallback
      | n => n
      end
  | None => fallback
  end.

(** [logs.push(line)] *)
Definition push (logs : list string) (line : string) : list string :=
  (logs ++ [line])%list.

(** [l.forEach((x, index) => ...)] *)
Fixpoint forEachIndexed {A B : Type} (body : B -> A -> nat -> B)
    (l : list A) (index : nat) (acc : B) : B :=
  match l with
  | [] => acc
  | x :: l' => forEachIndexed body l' (S index) (body acc x index)
  end.

Module Revised.
(** The state of the first revision and the four fields added to it. *)
Record Dashboard := mkDashboard {
  core : State;
  showTraversal : bool;
  traversalLogs : list string;
  allFriendships : list Friendship.t;
  isAnimating : bool
}.

Definition initialDashboard : Dashboard :=
  mkDashboard initialState false [] [] false.

Definition withCore (f : State -> State) (d : Dashboard) : Dashboard :=
  mkDashboard (f (core d)) (showTraversal d) (traversalLogs d)
              (allFriendships d) (isAnimating d).
Definition setTraversalLogs (v : list string) (d : Dashboard) : Dashboard :=
  mkDashboard (core d) (showTraversal d) v (allFriendships d) (isAnimating d).
Definition setAllFriendships (v : list Friendship.t) (d : Dashboard)
    : Dashboard :=
  mkDashboard (core d) (showTraversal d) (traversalLogs d) v (isAnimating d).

Definition loadAllFriendships (resp : Response (list Friendship.t))
    (d : Dashboard) : Dashboard * list Toast :=
  match resp with
  | Error _ => (d, [toast_error "Failed to load friendships"])
  | Data data => (setAllFriendships data d, [])
  end.

(** [loadData] with the fourth loader. *)
Definition loadDataWith (user : option uuid)
    (profileResp : Response Profile.t)
    (friendshipsResp : Response (list Friendship.t))
    (friendsResp : list uuid -> Response (list Profile.t))
    (usersResp : Response (list Profile.t))
    (allFriendshipsResp : Response (list Friendship.t))
    (d : Dashboard) : Dashboard * list Toast :=
  let d0 := withCore (setLoading true) d in
  let '(c1, t1) := loadProfile user profileResp (core d0) in
  let '(c2, t2) := loadFriends user friendshipsResp friendsResp c1 in
  let '(c3, t3) := loadAllUsers user usersResp c2 in
  let '(d4, t4) :=
    loadAllFriendships allFriendshipsResp (withCore (fun _ => c3) d0) in
  (withCore (setLoading false) d4, (t1 ++ t2 ++ t3 ++ t4)%list).

Definition loadData (u : uuid) (db : Store) (d : Dashboard)
    : Dashboard * list Toast :=
  loadDataWith (Some u)
    (Query.profile_single (profiles db) u)
    (Data (Query.friendships_of (Table.select (Some u) db) u))
    (fun ids => Data (Query.profiles_in (profiles db) ids))
    (Data (Query.profiles_neq (profiles db) u))
    (Data (Table.select (Some u) db))
    d.

Section Narration.
Variable user : uuid.
Variables friends allUsers : list Profile.t.
Variable edges : list Friendship.t.

Definition friendIds : list uuid := map Profile.user_id friends.

(** Body of the inner [forEach]: the map and the log grow together. *)
Definition visitFriendship (friendId : uuid) (acc : JsMap.t * list string)
    (f : Friendship.t) : JsMap.t * list string :=
  let '(m, logs) := acc in
  let p := potentialFriendId friendId f in
  let potentialFriend :=
    find (fun u => String.eqb (Profile.user_id u) p) allUsers in
  if negb (String.eqb p user) && negb (includes friendIds p)
  then
    let currentCount := or_default (JsMap.get m p) 0 in
    (JsMap.set m p (currentCount + 1),
     push logs ("  ✨ Found mutual connection: " ++ nameOr potentialFriend p
                ++ " (" ++ showNat (currentCount + 1) ++ " mutual)"))
  else (m, logs).

(** Body of the outer [forEach((friendId, index) => ...)]. *)
Definition visitFriend (acc : JsMap.t * list string) (friendId : uuid)
    (index : nat) : JsMap.t * list string :=
  let '(m, logs) := acc in
  let friend :=
    find (fun f => String.eqb (Profile.user_id f) friendId) friends in
  let logs1 :=
    push logs (newline ++ "👤 Visiting node: " ++ nameOr friend friendId
               ++ " (Friend " ++ showNat (index + 1) ++ "/"
               ++ showNat (List.length friendIds) ++ ")") in
  let rows := friendOfFriendships edges friendId in
  let logs2 :=
    push logs1 ("  → Checking " ++ showNat (List.length rows)
                ++ " connections...") in
  fold_left (visitFriendship friendId) rows (m, logs2).

Definition traverse (logs : list string) : JsMap.t * list string :=
  forEachIndexed visitFriend friendIds 0 (JsMap.empty, logs).
End Narration.

(** One line of the top five. *)
Definition topLine (i : nat) (s : FriendSuggestion) : string :=
  "  " ++ showNat (i + 1) ++ ". " ++ Profile.name (userProfile s) ++ " - "
  ++ showNat (mutualFriends s) ++ " mutual friend"
  ++ (if Nat.ltb 1 (mutualFriends s) then "s" else "").

(** [l.slice(0, 5).forEach((s, i) => logs.push(...))] *)
Definition pushTopLines (logs : list string) (l : list FriendSuggestion)
    : list string :=
  forEachIndexed (fun logs s i => push logs (topLine i s)) (firstn 5 l) 0 logs.

(** [calculateSuggestions] reading the edge list from the state. *)
Definition calculateSuggestions (user : option uuid) (d : Dashboard)
    : Dashboard :=
  match user with
  | None => d
  | Some u =>
      let st := core d in
      let logs0 :=
        push (push [] ("🚀 Starting BFS traversal for user: "
                       ++ nameOr (profile st) u))
             ("📊 Current friends: " ++ showNat (List.length (friends st))
              ++ " total") in
      if Nat.eqb (List.length (allFriendships d)) 0 then d
      else
        let logs1 := push logs0 (newline ++ "🔍 Traversing friend network...") in
        let '(suggestionsMap, logs2) :=
          traverse u (friends st) (allUsers st) (allFriendships d) logs1 in
        let logs3 :=
          push (push logs2 (newline ++ "✅ Traversal complete!"))
               ("📈 Found "
                ++ showNat (List.length (JsMap.entries suggestionsMap))
                ++ " potential friends") in
        let suggestionsWithMutual :=
          JsArray.sort byMutualFriends
            (JsArray.mapNotNull (withProfile (allUsers st))
               (JsMap.entries suggestionsMap)) in
        let logs4 :=
          push logs3
               (newline
                ++ "🎯 Top suggestions ranked by mutual connections:") in
        let logs5 := pushTopLines logs4 suggestionsWithMutual in
        setTraversalLogs logs5
          (withCore (setSuggestions suggestionsWithMutual) d)
  end.

(** The effect on [[friends, allUsers]]. *)
Definition suggestionsEffect (user : option uuid) (d : Dashboard)
    : Dashboard :=
  if Nat.ltb 0 (List.length (friends (core d)))
     && Nat.ltb 0 (List.length (allUsers (core d)))
  then calculateSuggestions user d
  else withCore (setSuggestions []) d.

(** The graph drawn from the props the dashboard passes to
    [GraphVisualization]. *)
Definition graph (u : uuid) (d : Dashboard) : GraphData :=
  Viz.buildGraph u (friends (core d)) (allUsers (core d)) (allFriendships d).
End Revised.

(** ** Friends who know each other (the later graph view) *)

Module Marking.
Section Mutual.
Variable friendIds : list uuid.
Variable friendships : list Friendship.t.

(** [friendships.some(fs => ...)] for two friends. *)
Definition areFriends (friendId1 friendId2 : uuid) : bool :=
  existsb
    (fun fs =>
       (String.eqb (Friendship.user_id fs) friendId1
        && String.eqb (Friendship.friend_id fs) friendId2)
       || (String.eqb (Friendship.user_id fs) friendId2
           && String.eqb (Friendship.friend_id fs) friendId1))
    friendships.

(** Body of the inner [forEach]. *)
Definition pair (friendId1 : uuid) (s : list string) (friendId2 : uuid)
    : list string :=
  if negb (String.eqb friendId1 friendId2)
  then if areFriends friendId1 friendId2
       then setAdd (setAdd s friendId1) friendId2
       else s
  else s.

Definition mutualFriendIds : list string :=
  fold_left (fun s friendId1 => fold_left (pair friendId1) friendIds s)
            friendIds [].

(** [isMutual ? 'mutual' : 'friend'] *)
Definition isMutual (friendId : uuid) : bool :=
  includes mutualFriendIds friendId.
End Mutual.
End Marking.

(** * Properties *)

(** ** Folds, maps and the sort *)

Lemma fold_left_preserves {A B : Type} (P : A -> Prop) (f : A -> B -> A)
    (l : list B) :
  (forall a b, P a -> P (f a b)) -> forall a, P a -> P (fold_left f l a).
Proof.
  intros Hstep. induction l as [|b l IH]; intros a Ha; simpl; auto.
Qed.

Lemma fold_left_agree {A B : Type} (f g : A -> B -> A) (l : list B) :
  (forall a b, In b l -> f a b = g a b) ->
  forall a, fold_left f l a = fold_left g l a.
Proof.
  induction l as [|b l IH]; intros Hfg a; simpl; [reflexivity|].
  rewrite Hfg by (left; reflexivity).
  apply IH. intros a' b' Hb'. apply Hfg. right; exact Hb'.
Qed.

Lemma includes_In (ids : list uuid) (x : uuid) :
  includes ids x = true <-> In x ids.
Proof.
  unfold includes. rewrite existsb_exists. split.
  - intros [y [Hy Heq]]. apply String.eqb_eq in Heq. subst. exact Hy.
  - intros H. exists x. split; [exact H | apply String.eqb_refl].
Qed.

Lemma includes_false (ids : list uuid) (x : uuid) :
  includes ids x = false <-> ~ In x ids.
Proof.
  rewrite <- includes_In. destruct (includes ids x); split; intros H;
    try reflexivity; try discriminate; try (intros K; discriminate).
  exfalso. apply H. reflexivity.
Qed.

Lemma set_entry (m : JsMap.t) (k : string) (v : nat) (x : string) (n : nat) :
  In (x, n) (JsMap.set m k v) -> In (x, n) m \/ (x = k /\ n = v).
Proof.
  induction m as [|[k' v'] m IH]; simpl.
  - intros [H|[]]. inversion H. right. split; reflexivity.
  - destruct (String.eqb k' k) eqn:E; simpl.
    + apply String.eqb_eq in E. subst k'.
      intros [H|H]; [inversion H; right; split; reflexivity | left; right; exact H].
    + intros [H|H]; [left; left; exact H|].
      destruct (IH H) as [H'|H']; [left; right; exact H' | right; exact H'].
Qed.

Lemma mapNotNull_In {A B : Type} (f : A -> option B) (l : list A) (b : B) :
  In b (JsArray.mapNotNull f l) <-> exists a, In a l /\ f a = Some b.
Proof.
  unfold JsArray.mapNotNull. rewrite in_flat_map. split.
  - intros [a [Ha Hb]]. exists a. split; [exact Ha|].
    destruct (f a); simpl in Hb; [destruct Hb as [<-|[]]; reflexivity | destruct Hb].
  - intros [a [Ha Hb]]. exists a. split; [exact Ha|].
    rewrite Hb. left. reflexivity.
Qed.

Section SortFacts.
Context {A : Type} (cmp : A -> A -> Z).

Lemma insert_Permutation (x : A) (l : list A) :
  Permutation (x :: l) (JsArray.insert cmp x l).
Proof.
  induction l as [|y l IH]; simpl; [apply Permutation_refl|].
  destruct (cmp x y <=? 0)%Z; [apply Permutation_refl|].
  eapply perm_trans; [apply perm_swap|]. apply perm_skip. exact IH.
Qed.

Lemma sort_Permutation (l : list A) : Permutation l (JsArray.sort cmp l).
Proof.
  induction l as [|x l IH]; simpl; [apply perm_nil|].
  eapply perm_trans; [apply perm_skip; exact IH | apply insert_Permutation].
Qed.

Lemma sort_In (l : list A) (x : A) : In x (JsArray.sort cmp l) <-> In x l.
Proof.
  split; intros H.
  - eapply Permutation_in; [apply Permutation_sym, sort_Permutation | exact H].
  - eapply Permutation_in; [apply sort_Permutation | exact H].
Qed.
End SortFacts.

Lemma byMutualFriends_le (a b : FriendSuggestion) :
  (byMutualFriends a b <=? 0)%Z = true <-> mutualFriends b <= mutualFriends a.
Proof. unfold byMutualFriends. rewrite Z.leb_le. lia. Qed.

Lemma insert_sorted (x : FriendSuggestion) (l : list FriendSuggestion) :
  StronglySorted notFewerMutual l ->
  StronglySorted notFewerMutual (JsArray.insert byMutualFriends x l).
Proof.
  induction 1 as [|y l Hl IH Hy]; simpl.
  - constructor; constructor.
  - destruct (byMutualFriends x y <=? 0)%Z eqn:E.
    + apply byMutualFriends_le in E.
      constructor; [constructor; assumption|].
      constructor; [exact E|].
      eapply Forall_impl; [|exact Hy].
      unfold notFewerMutual. intros z Hz. lia.
    + assert (Hlt : mutualFriends x < mutualFriends y).
      { destruct (Nat.le_gt_cases (mutualFriends y) (mutualFriends x)) as [Hle|Hgt];
          [|exact Hgt].
        apply byMutualFriends_le in Hle. congruence. }
      constructor; [exact IH|].
      rewrite Forall_forall. intros z Hz.
      apply (Permutation_in z (Permutation_sym (insert_Permutation byMutualFriends x l)))
        in Hz.
      destruct Hz as [<-|Hz].
      * unfold notFewerMutual. lia.
      * rewrite Forall_forall in Hy. apply Hy. exact Hz.
Qed.

Lemma sort_sorted (l : list FriendSuggestion) :
  StronglySorted notFewerMutual (JsArray.sort byMutualFriends l).
Proof.
  induction l as [|x l IH]; simpl; [constructor | apply insert_sorted, IH].
Qed.

Lemma insert_withCount (k : nat) (x : FriendSuggestion)
    (l : list FriendSuggestion) :
  withCount k (JsArray.insert byMutualFriends x l) = withCount k (x :: l).
Proof.
  induction l as [|y l IH]; [reflexivity|].
  simpl JsArray.insert.
  destruct (byMutualFriends x y <=? 0)%Z eqn:E; [reflexivity|].
  assert (Hlt : mutualFriends x < mutualFriends y).
  { destruct (Nat.le_gt_cases (mutualFriends y) (mutualFriends x)) as [Hle|Hgt];
      [|exact Hgt].
    apply byMutualFriends_le in Hle. congruence. }
  unfold withCount in *. simpl in *. rewrite IH.
  destruct (Nat.eqb (mutualFriends y) k) eqn:Ey;
    destruct (Nat.eqb (mutualFriends x) k) eqn:Ex; try reflexivity.
  apply Nat.eqb_eq in Ey, Ex. lia.
Qed.

Lemma sort_withCount (k : nat) (l : list FriendSuggestion) :
  withCount k (JsArray.sort byMutualFriends l) = withCount k l.
Proof.
  induction l as [|x l IH]; [reflexivity|].
  simpl JsArray.sort. rewrite insert_withCount.
  unfold withCount in *. simpl. rewrite IH. reflexivity.
Qed.

(** ** What the traversal puts in the map *)

Section Entries.
Variable user : uuid.
Variable friendIds : list uuid.
Variable allFriendships : list Friendship.t.

Lemma visitFriendship_admissible (friendId : uuid) (m : JsMap.t)
    (f : Friendship.t) :
  Forall (admissible user friendIds) m ->
  Forall (admissible user friendIds)
         (visitFriendship user friendIds friendId m f).
Proof.
  intros Hm. unfold visitFriendship.
  destruct (String.eqb (potentialFriendId friendId f) user) eqn:Eu;
    simpl; [exact Hm|].
  destruct (includes friendIds (potentialFriendId friendId f)) eqn:Ei;
    simpl; [exact Hm|].
  rewrite Forall_forall in *. intros [x n] Hx.
  apply set_entry in Hx. destruct Hx as [Hx|[-> ->]]; [apply Hm; exact Hx|].
  repeat split; simpl.
  - apply String.eqb_neq. exact Eu.
  - apply includes_false. exact Ei.
  - lia.
Qed.

Lemma suggestionsMap_admissible :
  Forall (admissible user friendIds)
         (suggestionsMap user friendIds allFriendships).
Proof.
  unfold suggestionsMap.
  apply fold_left_preserves; [|constructor].
  intros m friendId Hm. unfold visitFriend.
  apply fold_left_preserves; [|exact Hm].
  intros m' f Hm'. apply visitFriendship_admissible. exact Hm'.
Qed.
End Entries.

Lemma withProfile_Some (allUsers : list Profile.t) (e : string * nat)
    (s : FriendSuggestion) :
  withProfile allUsers e = Some s ->
  In (userProfile s) allUsers /\ suggested_id s = fst e
  /\ mutualFriends s = snd e.
Proof.
  unfold withProfile.
  destruct (find _ allUsers) as [p|] eqn:F; [|discriminate].
  intros H. inversion H; subst s; clear H. simpl.
  apply find_some in F. destruct F as [Hin Heq].
  apply String.eqb_eq in Heq. unfold suggested_id. simpl. auto.
Qed.

(** Every ranked suggestion comes from one entry of the map. *)
Lemma suggestion_origin (user : uuid) (friends allUsers : list Profile.t)
    (allFriendships : list Friendship.t) (s : FriendSuggestion) :
  In s (suggestionsWithMutual user friends allUsers allFriendships) ->
  exists e,
    In e (JsMap.entries
            (suggestionsMap user (map Profile.user_id friends) allFriendships))
    /\ withProfile allUsers e = Some s.
Proof.
  unfold suggestionsWithMutual, discovered. rewrite sort_In.
  rewrite mapNotNull_In. auto.
Qed.

(** ** The map as a tally of the traversal's increments *)

Lemma visitFriendship_bump (user : uuid) (friendIds : list uuid)
    (friendId : uuid) (m : JsMap.t) (f : Friendship.t) :
  visitFriendship user friendIds friendId m f
  = if eligible user friendIds (potentialFriendId friendId f)
    then bump m (potentialFriendId friendId f) else m.
Proof. reflexivity. Qed.

Lemma fold_left_filter_map {A B C : Type} (step : A -> C -> A)
    (g : B -> C) (keep : C -> bool) (l : list B) (a : A) :
  fold_left (fun a b => if keep (g b) then step a (g b) else a) l a
  = fold_left step (filter keep (map g l)) a.
Proof.
  revert a. induction l as [|b l IH]; intros a; simpl; [reflexivity|].
  rewrite IH. destruct (keep (g b)); reflexivity.
Qed.

Lemma fold_left_flat_map {A B C : Type} (step : A -> C -> A)
    (g : B -> list C) (l : list B) (a : A) :
  fold_left (fun a b => fold_left step (g b) a) l a
  = fold_left step (flat_map g l) a.
Proof.
  revert a. induction l as [|b l IH]; intros a; simpl; [reflexivity|].
  rewrite fold_left_app. apply IH.
Qed.

Lemma visitFriend_bump (user : uuid) (friendIds : list uuid)
    (allFriendships : list Friendship.t) (m : JsMap.t) (friendId : uuid) :
  visitFriend user friendIds allFriendships m friendId
  = fold_left bump (hitsOf user friendIds allFriendships friendId) m.
Proof.
  unfold visitFriend, hitsOf.
  rewrite <- (fold_left_filter_map bump (potentialFriendId friendId)
                (eligible user friendIds)).
  reflexivity.
Qed.

Lemma suggestionsMap_tally (user : uuid) (friendIds : list uuid)
    (allFriendships : list Friendship.t) :
  suggestionsMap user friendIds allFriendships
  = fold_left bump (hits user friendIds allFriendships) JsMap.empty.
Proof.
  unfold suggestionsMap, hits.
  rewrite <- fold_left_flat_map.
  apply fold_left_agree. intros m f _. apply visitFriend_bump.
Qed.

Lemma get_set (m : JsMap.t) (k k' : string) (v : nat) :
  JsMap.get (JsMap.set m k v) k'
  = if String.eqb k k' then Some v else JsMap.get m k'.
Proof.
  induction m as [|[k0 v0] m IH]; simpl.
  - destruct (String.eqb k k'); reflexivity.
  - destruct (String.eqb k0 k) eqn:E; simpl.
    + apply String.eqb_eq in E. subst k0.
      destruct (String.eqb k k'); reflexivity.
    + destruct (String.eqb k0 k') eqn:E'; [|exact IH].
      apply String.eqb_eq in E'. subst k0.
      rewrite String.eqb_sym in E. rewrite E. reflexivity.
Qed.

Lemma keys_set (m : JsMap.t) (k : string) (v : nat) :
  JsMap.keys (JsMap.set m k v)
  = match JsMap.get m k with
    | Some _ => JsMap.keys m
    | None => (JsMap.keys m ++ [k])%list
    end.
Proof.
  unfold JsMap.keys.
  induction m as [|[k0 v0] m IH]; simpl; [reflexivity|].
  destruct (String.eqb k0 k) eqn:E; simpl; [reflexivity|].
  rewrite IH. destruct (JsMap.get m k); reflexivity.
Qed.

Lemma get_None_keys (m : JsMap.t) (k : string) :
  JsMap.get m k = None <-> ~ In k (JsMap.keys m).
Proof.
  induction m as [|[k0 v0] m IH]; simpl; [tauto|].
  destruct (String.eqb k0 k) eqn:E.
  - apply String.eqb_eq in E. split; [discriminate|]. intros H. exfalso. auto.
  - apply String.eqb_neq in E. unfold JsMap.keys in IH. rewrite IH. tauto.
Qed.

Lemma get_Some_In (m : JsMap.t) (k : string) (n : nat) :
  JsMap.get m k = Some n -> In (k, n) m.
Proof.
  induction m as [|[k0 v0] m IH]; simpl; [discriminate|].
  destruct (String.eqb k0 k) eqn:E.
  - apply String.eqb_eq in E. intros H. inversion H. subst. left. reflexivity.
  - intros H. right. apply IH. exact H.
Qed.

Lemma In_get_Some (m : JsMap.t) (k : string) (n : nat) :
  NoDup (JsMap.keys m) -> In (k, n) m -> JsMap.get m k = Some n.
Proof.
  induction m as [|[k0 v0] m IH]; simpl; [intros _ []|].
  intros Hnd [H|H].
  - inversion H. subst. rewrite String.eqb_refl. reflexivity.
  - inversion Hnd as [|? ? Hk0 Hnd']; subst.
    destruct (String.eqb k0 k) eqn:E; [|apply IH; assumption].
    apply String.eqb_eq in E. subst k0. exfalso. apply Hk0.
    apply in_map_iff. exists (k, n). split; [reflexivity | exact H].
Qed.

Lemma bump_tallied (m : JsMap.t) (k : string) :
  tallied m -> tallied (bump m k).
Proof.
  intros [Hnd Hpos]. unfold bump. split.
  - rewrite keys_set. destruct (JsMap.get m k) eqn:G; [exact Hnd|].
    apply get_None_keys in G.
    apply NoDup_app; [exact Hnd | constructor; [intros []|constructor] |].
    intros x Hx [<-|[]]. exact (G Hx).
  - rewrite Forall_forall in *. intros [x n] Hx.
    apply set_entry in Hx. destruct Hx as [Hx|[_ ->]]; [apply Hpos; exact Hx|].
    simpl. lia.
Qed.

Lemma tally_tallied (l : list string) (m : JsMap.t) :
  tallied m -> tallied (fold_left bump l m).
Proof.
  apply fold_left_preserves. intros a b. apply bump_tallied.
Qed.

Lemma valueOf_bump (m : JsMap.t) (k k' : string) :
  valueOf (bump m k) k'
  = valueOf m k' + (if String.eqb k k' then 1 else 0).
Proof.
  unfold valueOf, bump. rewrite get_set.
  destruct (String.eqb k k') eqn:E; [|lia].
  apply String.eqb_eq in E. subst k'.
  rewrite Nat.add_1_r. reflexivity.
Qed.

Lemma valueOf_tally (l : list string) (m : JsMap.t) (k : string) :
  valueOf (fold_left bump l m) k = valueOf m k + count_occ string_dec l k.
Proof.
  revert m. induction l as [|x l IH]; intros m; simpl; [lia|].
  rewrite IH, valueOf_bump.
  destruct (string_dec x k) as [->|Hne].
  - rewrite String.eqb_refl. lia.
  - apply String.eqb_neq in Hne. rewrite Hne. lia.
Qed.

Lemma keys_tally (l : list string) (m : JsMap.t) (k : string) :
  In k (JsMap.keys (fold_left bump l m)) <-> In k (JsMap.keys m) \/ In k l.
Proof.
  revert m. induction l as [|x l IH]; intros m; simpl; [tauto|].
  rewrite IH. unfold bump at 1. rewrite keys_set.
  destruct (JsMap.get m x) eqn:G.
  - apply get_Some_In in G.
    assert (Hx : In x (JsMap.keys m)).
    { apply in_map_iff. exists (x, n). split; [reflexivity | exact G]. }
    split; [tauto|]. intros [H|[<-|H]]; auto.
  - rewrite in_app_iff. simpl. tauto.
Qed.

(** The entries of the map: every id that was counted, with the number of
    times it was. *)
Lemma tally_entries (l : list string) (k : string) (n : nat) :
  In (k, n) (fold_left bump l JsMap.empty)
  <-> In k l /\ n = count_occ string_dec l k.
Proof.
  assert (Ht : tallied (fold_left bump l JsMap.empty)).
  { apply tally_tallied. split; [constructor | constructor]. }
  destruct Ht as [Hnd Hpos].
  assert (Hval : forall n', In (k, n') (fold_left bump l JsMap.empty) ->
                            n' = count_occ string_dec l k).
  { intros n' Hin.
    pose proof (valueOf_tally l JsMap.empty k) as Hv.
    unfold valueOf in Hv. rewrite (In_get_Some _ _ _ Hnd Hin) in Hv.
    rewrite Forall_forall in Hpos. specialize (Hpos _ Hin). simpl in *.
    destruct n'; [lia|]. simpl in Hv. exact Hv. }
  split.
  - intros Hin. split; [|apply Hval; exact Hin].
    assert (Hk : In k (JsMap.keys (fold_left bump l JsMap.empty))).
    { apply in_map_iff. exists (k, n). split; [reflexivity | exact Hin]. }
    apply keys_tally in Hk. destruct Hk as [[]|Hk]. exact Hk.
  - intros [Hk ->].
    assert (Hk' : In k (JsMap.keys (fold_left bump l JsMap.empty))).
    { apply keys_tally. right. exact Hk. }
    apply in_map_iff in Hk'. destruct Hk' as [[k' n'] [Heq Hin]].
    simpl in Heq. subst k'. rewrite <- (Hval n' Hin). exact Hin.
Qed.

Lemma keys_bump (m : JsMap.t) (k : string) :
  JsMap.keys (bump m k)
  = if includes (JsMap.keys m) k then JsMap.keys m
    else (JsMap.keys m ++ [k])%list.
Proof.
  unfold bump. rewrite keys_set.
  destruct (JsMap.get m k) eqn:G.
  - apply get_Some_In in G.
    assert (Hk : includes (JsMap.keys m) k = true).
    { apply includes_In. apply in_map_iff. exists (k, n).
      split; [reflexivity | exact G]. }
    rewrite Hk. reflexivity.
  - apply get_None_keys, includes_false in G. rewrite G. reflexivity.
Qed.

(** The map lists its ids in the order the traversal first met them. *)
Lemma keys_first_met (l : list string) (m : JsMap.t) :
  JsMap.keys (fold_left bump l m)
  = fold_left (fun seen x => if includes seen x then seen
                             else (seen ++ [x])%list)
              l (JsMap.keys m).
Proof.
  revert m. induction l as [|x l IH]; intros m; simpl; [reflexivity|].
  rewrite IH, keys_bump. reflexivity.
Qed.

(** ** Loading friends and roster from the tables *)

Lemma loaded_friends (profiles : list Profile.t) (rows : list Friendship.t)
    (u : uuid) (st : State) :
  friends (fst (loadFriends (Some u)
                  (Data (Query.friendships_of rows u))
                  (fun ids => Data (Query.profiles_in profiles ids)) st))
  = Query.profiles_in profiles (friendIdsOf u (Query.friendships_of rows u)).
Proof.
  unfold loadFriends.
  destruct (friendIdsOf u (Query.friendships_of rows u)) as [|i ids] eqn:E; simpl.
  - unfold Query.profiles_in. induction profiles as [|p ps IH]; simpl; auto.
  - reflexivity.
Qed.

Lemma loaded_friends_allUsers (profiles : list Profile.t)
    (rows : list Friendship.t) (u : uuid) (st : State) :
  allUsers (fst (loadFriends (Some u)
                  (Data (Query.friendships_of rows u))
                  (fun ids => Data (Query.profiles_in profiles ids)) st))
  = allUsers st.
Proof.
  unfold loadFriends.
  destruct (friendIdsOf u (Query.friendships_of rows u)); reflexivity.
Qed.

(** The suggestions on the dashboard, without the component state. *)
Lemma dashboardSuggestions_eq (profiles : list Profile.t)
    (friendRows edgeList : list Friendship.t) (u : uuid) :
  let fs := Query.profiles_in profiles
              (friendIdsOf u (Query.friendships_of friendRows u)) in
  let us := Query.profiles_neq profiles u in
  dashboardSuggestions profiles friendRows edgeList u
  = if Nat.ltb 0 (List.length fs) && Nat.ltb 0 (List.length us)
    then suggestionsWithMutual u fs us edgeList else [].
Proof.
  intros fs us. unfold dashboardSuggestions, suggestionsEffect.
  set (st1 := fst (loadFriends _ _ _ _)).
  assert (Hf : friends st1 = fs) by apply loaded_friends.
  assert (Ha : allUsers st1 = []).
  { unfold st1. rewrite loaded_friends_allUsers. reflexivity. }
  simpl. rewrite Hf. fold us.
  destruct (Nat.ltb 0 (List.length fs) && Nat.ltb 0 (List.length us));
    reflexivity.
Qed.

Lemma dashboardSuggestions_In (profiles : list Profile.t)
    (friendRows edgeList : list Friendship.t) (u : uuid) (s : FriendSuggestion) :
  In s (dashboardSuggestions profiles friendRows edgeList u) ->
  In s (suggestionsWithMutual u
          (Query.profiles_in profiles
             (friendIdsOf u (Query.friendships_of friendRows u)))
          (Query.profiles_neq profiles u) edgeList).
Proof.
  rewrite dashboardSuggestions_eq.
  destruct (_ && _); [auto | intros []].
Qed.

(** The neighbours of the specification's graph are the ids [loadFriends]
    computes. *)
Lemma neighborsOf_friendIdsOf (rows : list Friendship.t) (u x : uuid) :
  In x (Graph.neighborsOf rows u)
  <-> In x (friendIdsOf u (Query.friendships_of rows u)).
Proof.
  unfold Graph.neighborsOf, friendIdsOf, Query.friendships_of, touches.
  rewrite nodup_In, in_flat_map, in_map_iff. split.
  - intros [e [He Hx]]. exists e.
    rewrite filter_In.
    destruct (String.eqb (Friendship.user_id e) u) eqn:E1;
      destruct (String.eqb (Friendship.friend_id e) u) eqn:E2;
      simpl in Hx |- *; intuition (subst; auto).
    apply String.eqb_eq in E1, E2. congruence.
  - intros [e [Hx He]]. apply filter_In in He. destruct He as [He Ht].
    exists e. split; [exact He|].
    destruct (String.eqb (Friendship.user_id e) u) eqn:E1;
      destruct (String.eqb (Friendship.friend_id e) u) eqn:E2;
      simpl in Ht |- *; subst; auto; discriminate.
Qed.

(** ** The ranked suggestions *)

Lemma suggestionsWithMutual_admissible (user : uuid)
    (friends allUsers : list Profile.t) (allFriendships : list Friendship.t) :
  Forall (fun s =>
            In (userProfile s) allUsers
            /\ admissible user (map Profile.user_id friends)
                 (suggested_id s, mutualFriends s))
         (suggestionsWithMutual user friends allUsers allFriendships).
Proof.
  rewrite Forall_forall. intros s Hs.
  apply suggestion_origin in Hs. destruct Hs as [e [He Hs]].
  apply withProfile_Some in Hs. destruct Hs as [Hin [Hid Hn]].
  split; [exact Hin|].
  pose proof (suggestionsMap_admissible user (map Profile.user_id friends)
                allFriendships) as Hadm.
  rewrite Forall_forall in Hadm. specialize (Hadm e He).
  rewrite Hid, Hn. destruct e; exact Hadm.
Qed.

(** C2: for every profile table, edge list and requester [u], no suggestion
    on the dashboard is [u] itself, and none is a neighbour of [u] in the
    graph of the edge list. *)
Theorem suggestions_exclude_self_and_friends (profiles : list Profile.t)
    (rows : list Friendship.t) (u : uuid) :
  Forall (fun s =>
            suggested_id s <> u
            /\ ~ In (suggested_id s) (Graph.neighborsOf rows u))
         (dashboardSuggestions profiles rows rows u).
Proof.
  rewrite Forall_forall. intros s Hs.
  apply dashboardSuggestions_In in Hs.
  pose proof (suggestionsWithMutual_admissible u
                (Query.profiles_in profiles
                   (friendIdsOf u (Query.friendships_of rows u)))
                (Query.profiles_neq profiles u) rows) as Hadm.
  rewrite Forall_forall in Hadm.
  destruct (Hadm s Hs) as [Hroster [Hself [Hfriend _]]]. simpl in *.
  split; [exact Hself|].
  intros Hadj. apply Hfriend.
  apply neighborsOf_friendIdsOf in Hadj.
  unfold Query.profiles_neq in Hroster. apply filter_In in Hroster.
  destruct Hroster as [Hp _].
  apply in_map_iff. exists (userProfile s). split; [reflexivity|].
  unfold Query.profiles_in. apply filter_In. split; [exact Hp|].
  apply includes_In. exact Hadj.
Qed.

(** The traversal on rows that the select policy would not hand to the
    requester: run for 1 on the rows 1-2, 2-4, 2-3, the candidates 4 and 3
    tie at one mutual friend and come out as 4, 3. *)
Lemma tie_not_broken_by_id :
  ~ rankedAsSpecified
      (dashboardSuggestions Scenario.roster Scenario.fan Scenario.fan "1").
Proof.
  unfold rankedAsSpecified. intros H.
  assert (E : dashboardSuggestions Scenario.roster Scenario.fan Scenario.fan "1"
              = [mkSuggestion (Scenario.person "4") 1;
                 mkSuggestion (Scenario.person "3") 1]) by reflexivity.
  rewrite E in H. inversion H as [|a l Hl Ha]; subst.
  inversion Ha as [|b l' Hb _]; subst.
  destruct Hb as [Hb|[_ Hb]]; simpl in Hb; [lia|].
  vm_compute in Hb. discriminate.
Qed.

(** On any edge list: the ranked list is non-increasing in [mutualFriends],
    it is a rearrangement of the suggestions in the order the map holds
    them, which is the order in which the traversal first met their ids, and
    suggestions with the same count keep that order. *)
Theorem ranked_by_count_ties_in_discovery_order (user : uuid)
    (friends allUsers : list Profile.t) (allFriendships : list Friendship.t) :
  let friendIds := map Profile.user_id friends in
  let ranked := suggestionsWithMutual user friends allUsers allFriendships in
  let found := discovered user friends allUsers allFriendships in
  StronglySorted notFewerMutual ranked
  /\ Permutation found ranked
  /\ (forall k, withCount k ranked = withCount k found)
  /\ found = JsArray.mapNotNull (withProfile allUsers)
               (JsMap.entries (suggestionsMap user friendIds allFriendships))
  /\ JsMap.keys (suggestionsMap user friendIds allFriendships)
     = firstOccurrences (hits user friendIds allFriendships).
Proof.
  unfold suggestionsWithMutual. repeat split.
  - apply sort_sorted.
  - apply sort_Permutation.
  - intros k. apply sort_withCount.
  - rewrite suggestionsMap_tally. apply keys_first_met.
Qed.

(** C10: every ranked suggestion carries a profile of the roster ([allUsers]),
    found under the id of an entry of the map, with that entry's count, which
    is at least 1; an entry whose id has a profile in the roster is ranked;
    an entry whose id has none yields no suggestion; and the roster
    [loadAllUsers] stores never holds the requester. *)
Theorem suggestions_come_from_roster (user : uuid)
    (friends roster : list Profile.t) (allFriendships : list Friendship.t) :
  let entries :=
    JsMap.entries
      (suggestionsMap user (map Profile.user_id friends) allFriendships) in
  let ranked := suggestionsWithMutual user friends roster allFriendships in
  Forall (fun s =>
            In (userProfile s) roster
            /\ In (suggested_id s, mutualFriends s) entries
            /\ 1 <= mutualFriends s) ranked
  /\ Forall (fun e =>
               match find (fun p => String.eqb (Profile.user_id p) (fst e))
                          roster with
               | Some p => In (mkSuggestion p (snd e)) ranked
               | None => Forall (fun s => suggested_id s <> fst e) ranked
               end) entries
  /\ (forall (profiles : list Profile.t) (st : State),
        Forall (fun p => Profile.user_id p <> user)
               (allUsers
                  (fst (loadAllUsers (Some user)
                          (Data (Query.profiles_neq profiles user)) st)))).
Proof.
  intros entries ranked. split; [|split].
  - rewrite Forall_forall. intros s Hs.
    pose proof (suggestionsWithMutual_admissible user friends roster
                  allFriendships) as Hadm.
    rewrite Forall_forall in Hadm. destruct (Hadm s Hs) as [Hin [_ [_ Hn]]].
    apply suggestion_origin in Hs. destruct Hs as [e [He Hs]].
    apply withProfile_Some in Hs. destruct Hs as [_ [Hid Hc]].
    repeat split; [exact Hin | | exact Hn].
    rewrite Hid, Hc. destruct e; exact He.
  - rewrite Forall_forall. intros e He.
    destruct (find _ roster) as [p|] eqn:F.
    + unfold ranked, suggestionsWithMutual, discovered.
      apply sort_In. apply mapNotNull_In. exists e. split; [exact He|].
      unfold withProfile. rewrite F. reflexivity.
    + rewrite Forall_forall. intros s Hs Hid.
      apply suggestion_origin in Hs. destruct Hs as [e' [He' Hs]].
      apply withProfile_Some in Hs. destruct Hs as [Hin [Hid' _]].
      apply (find_none _ _ F) in Hin.
      unfold suggested_id in Hid. rewrite Hid in Hin.
      rewrite String.eqb_refl in Hin. discriminate.
  - intros profiles st. simpl. rewrite Forall_forall. intros p Hp.
    unfold Query.profiles_neq in Hp. apply filter_In in Hp.
    destruct Hp as [_ Hp]. apply String.eqb_neq.
    destruct (String.eqb (Profile.user_id p) user); [discriminate|reflexivity].
Qed.

(** ** One increment per stored row *)

Lemma count_occ_flat_map {A : Type} (g : A -> list string) (l : list A)
    (c : string) :
  count_occ string_dec (flat_map g l) c
  = list_sum (map (fun x => count_occ string_dec (g x) c) l).
Proof.
  induction l as [|x l IH]; simpl; [reflexivity|].
  rewrite count_occ_app, IH. reflexivity.
Qed.

Lemma count_occ_filter_kept (keep : string -> bool) (l : list string)
    (c : string) :
  keep c = true ->
  count_occ string_dec (filter keep l) c = count_occ string_dec l c.
Proof.
  intros Hc. induction l as [|x l IH]; simpl; [reflexivity|].
  destruct (string_dec x c) as [->|Hne].
  - rewrite Hc. simpl. destruct (string_dec c c); [|contradiction].
    rewrite IH. reflexivity.
  - destruct (keep x); simpl; [|exact IH].
    destruct (string_dec x c); [contradiction | exact IH].
Qed.

Lemma count_occ_length_filter (l : list string) (c : string) :
  count_occ string_dec l c
  = List.length (filter (fun p => String.eqb p c) l).
Proof.
  induction l as [|x l IH]; simpl; [reflexivity|].
  destruct (string_dec x c) as [->|Hne].
  - rewrite String.eqb_refl. simpl. rewrite IH. reflexivity.
  - apply String.eqb_neq in Hne. rewrite Hne. exact IH.
Qed.

(** What the code counts: a ranked suggestion's [mutualFriends] is the number
    of stored rows that join one of the requester's friends to it, summed
    over the friends. *)
Lemma mutualFriends_counts_rows (user : uuid)
    (friends allUsers : list Profile.t) (allFriendships : list Friendship.t) :
  Forall (fun s =>
            mutualFriends s
            = list_sum (map (fun f => rowsJoining allFriendships f
                                        (suggested_id s))
                            (map Profile.user_id friends)))
         (suggestionsWithMutual user friends allUsers allFriendships).
Proof.
  rewrite Forall_forall. intros s Hs.
  pose proof (suggestionsWithMutual_admissible user friends allUsers
                allFriendships) as Hadm.
  rewrite Forall_forall in Hadm.
  destruct (Hadm s Hs) as [_ [Hself [Hfriend _]]]. simpl in Hself, Hfriend.
  apply suggestion_origin in Hs. destruct Hs as [[k n] [He Hs]].
  apply withProfile_Some in Hs. destruct Hs as [_ [Hid Hn]]. simpl in Hid, Hn.
  unfold JsMap.entries in He. rewrite suggestionsMap_tally in He.
  apply tally_entries in He. destruct He as [_ Hc].
  rewrite Hn, Hc, Hid. unfold hits. rewrite count_occ_flat_map.
  f_equal. apply map_ext. intros f. unfold hitsOf, rowsJoining.
  rewrite count_occ_filter_kept; [apply count_occ_length_filter|].
  unfold eligible. rewrite <- Hid.
  apply String.eqb_neq in Hself. rewrite Hself.
  apply includes_false in Hfriend. rewrite Hfriend. reflexivity.
Qed.

(** ** The order of the fetched rows *)

Lemma filter_Permutation {A : Type} (p : A -> bool) (l l' : list A) :
  Permutation l l' -> Permutation (filter p l) (filter p l').
Proof.
  induction 1 as [|x l l' H IH|x y l|l l' l'' H1 IH1 H2 IH2]; simpl.
  - constructor.
  - destruct (p x); [constructor|]; exact IH.
  - destruct (p x), (p y); try apply Permutation_refl.
    apply perm_swap.
  - eapply perm_trans; eassumption.
Qed.

Lemma flat_map_pointwise_Permutation {A B : Type} (g g' : A -> list B)
    (l : list A) :
  (forall x, Permutation (g x) (g' x)) ->
  Permutation (flat_map g l) (flat_map g' l).
Proof.
  intros H. induction l as [|x l IH]; simpl; [constructor|].
  apply Permutation_app; [apply H | exact IH].
Qed.

Lemma hits_Permutation (user : uuid) (friendIds : list uuid)
    (rows rows' : list Friendship.t) :
  Permutation rows rows' ->
  Permutation (hits user friendIds rows) (hits user friendIds rows').
Proof.
  intros H. unfold hits. apply flat_map_pointwise_Permutation. intros f.
  unfold hitsOf, friendOfFriendships.
  apply filter_Permutation, Permutation_map, filter_Permutation. exact H.
Qed.

Lemma tally_Permutation (l l' : list string) :
  Permutation l l' ->
  Permutation (fold_left bump l JsMap.empty) (fold_left bump l' JsMap.empty).
Proof.
  intros H.
  assert (Hnd : forall l0, NoDup (fold_left bump l0 JsMap.empty)).
  { intros l0. apply (NoDup_map_inv fst).
    apply (tally_tallied l0 JsMap.empty). split; constructor. }
  apply NoDup_Permutation; [apply Hnd | apply Hnd |].
  intros [k n]. rewrite !tally_entries.
  rewrite (proj1 (Permutation_count_occ string_dec l l') H k).
  split; intros [Hk Hn]; split; try exact Hn.
  - eapply Permutation_in; eassumption.
  - eapply Permutation_in; [apply Permutation_sym|]; eassumption.
Qed.

(** The ranked suggestions, as a collection of profiles with counts, do not
    depend on the order in which the store returned the rows. *)
Lemma suggestionsWithMutual_Permutation (user : uuid)
    (friends allUsers : list Profile.t) (rows rows' : list Friendship.t) :
  Permutation rows rows' ->
  Permutation (suggestionsWithMutual user friends allUsers rows)
              (suggestionsWithMutual user friends allUsers rows').
Proof.
  intros H. unfold suggestionsWithMutual.
  eapply perm_trans; [apply Permutation_sym, sort_Permutation|].
  eapply perm_trans; [|apply sort_Permutation].
  unfold discovered, JsArray.mapNotNull, JsMap.entries.
  apply Permutation_flat_map. rewrite !suggestionsMap_tally.
  apply tally_Permutation, hits_Permutation. exact H.
Qed.

Lemma dashboardSuggestions_Permutation (profiles : list Profile.t)
    (friendRows rows rows' : list Friendship.t) (u : uuid) :
  Permutation rows rows' ->
  Permutation (dashboardSuggestions profiles friendRows rows u)
              (dashboardSuggestions profiles friendRows rows' u).
Proof.
  intros H. rewrite !dashboardSuggestions_eq.
  destruct (_ && _); [|apply Permutation_refl].
  apply suggestionsWithMutual_Permutation. exact H.
Qed.

(** ** Rows and mutual friends *)

Lemma eitherOrientation_rows (u f : uuid) (r : Friendship.t) :
  eitherOrientation u f r = true ->
  r = Friendship.mk u f \/ r = Friendship.mk f u.
Proof.
  unfold eitherOrientation. destruct r as [x y]. simpl. intros H.
  apply orb_true_iff in H. destruct H as [H|H];
    apply andb_true_iff in H; destruct H as [H1 H2];
    apply String.eqb_eq in H1, H2; subst; auto.
Qed.

Lemma joins_eitherOrientation (f c : uuid) (r : Friendship.t) :
  f <> c ->
  touches f r && String.eqb (potentialFriendId f r) c
  = eitherOrientation f c r.
Proof.
  intros Hfc. destruct r as [x y].
  unfold touches, potentialFriendId, eitherOrientation. simpl.
  destruct (String.eqb_spec x f), (String.eqb_spec y f),
    (String.eqb_spec y c), (String.eqb_spec x c);
    subst; simpl; try reflexivity; congruence.
Qed.

Lemma length_filter_map_filter {A : Type} (t : A -> bool) (g : A -> string)
    (c : string) (l : list A) :
  List.length (filter (fun p => String.eqb p c) (map g (filter t l)))
  = List.length (filter (fun a => t a && String.eqb (g a) c) l).
Proof.
  induction l as [|a l IH]; simpl; [reflexivity|].
  destruct (t a); simpl; [|exact IH].
  destruct (String.eqb (g a) c); simpl; rewrite IH; reflexivity.
Qed.

Lemma rowsJoining_eitherOrientation (rows : list Friendship.t) (f c : uuid) :
  f <> c ->
  rowsJoining rows f c = List.length (filter (eitherOrientation f c) rows).
Proof.
  intros Hfc. unfold rowsJoining, friendOfFriendships.
  rewrite length_filter_map_filter. f_equal.
  apply filter_ext. intros r. apply joins_eitherOrientation. exact Hfc.
Qed.

Lemma eitherOrientation_In (rows : list Friendship.t) (f c : uuid)
    (r : Friendship.t) :
  In r (filter (eitherOrientation f c) rows)
  <-> In r rows /\ (r = Friendship.mk f c \/ r = Friendship.mk c f).
Proof.
  rewrite filter_In. split; intros [Hr H]; split; try exact Hr.
  - apply eitherOrientation_rows. exact H.
  - unfold eitherOrientation.
    destruct H as [->| ->]; simpl; rewrite !String.eqb_refl; simpl;
      [reflexivity | apply orb_true_r].
Qed.

Lemma neighborsOf_rows (rows : list Friendship.t) (c f : uuid) :
  In f (Graph.neighborsOf rows c)
  <-> In (Friendship.mk c f) rows \/ In (Friendship.mk f c) rows.
Proof.
  unfold Graph.neighborsOf. rewrite nodup_In, in_flat_map. split.
  - intros [[x y] [He Hf]]. simpl in Hf. apply in_app_or in Hf.
    destruct Hf as [Hf|Hf].
    + destruct (String.eqb_spec x c); [|destruct Hf].
      destruct Hf as [<-|[]]. subst. left. exact He.
    + destruct (String.eqb_spec y c); [|destruct Hf].
      destruct Hf as [<-|[]]. subst. right. exact He.
  - intros [H|H].
    + exists (Friendship.mk c f). split; [exact H|]. simpl.
      rewrite String.eqb_refl. left. reflexivity.
    + exists (Friendship.mk f c). split; [exact H|]. simpl.
      rewrite String.eqb_refl. apply in_or_app. right. left. reflexivity.
Qed.

Lemma same_members_length {A : Type} (l m : list A) :
  NoDup l -> NoDup m -> (forall x, In x l <-> In x m) ->
  List.length l = List.length m.
Proof.
  intros Hl Hm H. apply Permutation_length.
  apply NoDup_Permutation; assumption.
Qed.

Lemma list_sum_indicator (k : nat) (p : string -> bool) (g : string -> nat)
    (l : list string) :
  (forall x, In x l -> g x = if p x then k else 0) ->
  list_sum (map g l) = k * List.length (filter p l).
Proof.
  induction l as [|x l IH]; intros H; simpl; [lia|].
  rewrite (H x (or_introl eq_refl)), IH
    by (intros y Hy; apply H; right; exact Hy).
  destruct (p x); simpl; lia.
Qed.

Lemma NoDup_map_filter {A B : Type} (g : A -> B) (p : A -> bool)
    (l : list A) :
  NoDup (map g l) -> NoDup (map g (filter p l)).
Proof.
  induction l as [|a l IH]; simpl; intros H; [constructor|].
  inversion H as [|? ? Ha Hl]; subst.
  destruct (p a); simpl; [|apply IH; exact Hl].
  constructor; [|apply IH; exact Hl].
  intros Hin. apply Ha. apply in_map_iff in Hin.
  destruct Hin as [b [Hb Hin]]. apply filter_In in Hin.
  apply in_map_iff. exists b. tauto.
Qed.

Section CountingRows.
Variable profiles : list Profile.t.
Variable rows : list Friendship.t.
Variable u : uuid.

(** [user_id ... UNIQUE] on [profiles]. *)
Hypothesis unique_profiles : NoDup (map Profile.user_id profiles).

(** [REFERENCES public.profiles(user_id)] on both columns of [friendships]. *)
Hypothesis foreign_keys : forallb (Table.keys_exist profiles) rows = true.

Let friendIds : list uuid :=
  map Profile.user_id
      (Query.profiles_in profiles
         (friendIdsOf u (Query.friendships_of rows u))).

Lemma neighbours_have_profiles (x : uuid) :
  In x (Graph.neighborsOf rows u) -> Table.references profiles x = true.
Proof.
  intros H. apply neighborsOf_rows in H.
  rewrite forallb_forall in foreign_keys.
  destruct H as [H|H]; apply foreign_keys in H;
    unfold Table.keys_exist in H; simpl in H;
    apply andb_true_iff in H; tauto.
Qed.

Lemma friendIds_neighbours (x : uuid) :
  In x friendIds <-> In x (Graph.neighborsOf rows u).
Proof.
  unfold friendIds, Query.profiles_in. rewrite in_map_iff. split.
  - intros [p [<- Hp]]. apply filter_In in Hp. destruct Hp as [_ Hp].
    apply includes_In in Hp. apply neighborsOf_friendIdsOf. exact Hp.
  - intros Hx. pose proof (neighbours_have_profiles x Hx) as Hr.
    unfold Table.references in Hr. apply existsb_exists in Hr.
    destruct Hr as [p [Hp Heq]]. apply String.eqb_eq in Heq.
    exists p. split; [exact Heq|]. apply filter_In. split; [exact Hp|].
    apply includes_In. rewrite Heq. apply neighborsOf_friendIdsOf. exact Hx.
Qed.

Lemma friendIds_NoDup : NoDup friendIds.
Proof. apply NoDup_map_filter. exact unique_profiles. Qed.

(** When every pair of users is joined by [k] rows or by none, each
    suggestion counts [k] for each mutual friend. *)
Lemma mutualFriends_scaled (k : nat) :
  (forall f c, f <> c ->
     List.length (filter (eitherOrientation f c) rows)
     = if includes (Graph.neighborsOf rows c) f then k else 0) ->
  Forall (fun s =>
            mutualFriends s = k * Graph.mutualCount rows u (suggested_id s))
         (dashboardSuggestions profiles rows rows u).
Proof.
  intros Hk. rewrite Forall_forall. intros s Hs.
  apply dashboardSuggestions_In in Hs.
  pose proof (proj1 (Forall_forall _ _)
                (suggestionsWithMutual_admissible u _ _ _) s Hs) as Hadm.
  destruct Hadm as [_ [_ [Hfriend _]]]. simpl in Hfriend.
  rewrite (proj1 (Forall_forall _ _)
             (mutualFriends_counts_rows u _ _ _) s Hs).
  fold friendIds in Hfriend |- *.
  rewrite (list_sum_indicator k
             (includes (Graph.neighborsOf rows (suggested_id s)))).
  - f_equal. unfold Graph.mutualCount. apply Permutation_length.
    apply filter_Permutation. apply NoDup_Permutation.
    + exact friendIds_NoDup.
    + apply NoDup_nodup.
    + exact friendIds_neighbours.
  - intros f Hf.
    assert (Hne : f <> suggested_id s) by (intros ->; exact (Hfriend Hf)).
    rewrite rowsJoining_eitherOrientation by exact Hne.
    apply Hk. exact Hne.
Qed.
End CountingRows.

Lemma friendship_neq (f c : uuid) :
  f <> c -> Friendship.mk f c <> Friendship.mk c f.
Proof. intros H E. inversion E. contradiction. Qed.

Lemma oneRow_joined_once (rows : list Friendship.t) (f c : uuid) :
  oneRowPerFriendship rows -> f <> c ->
  List.length (filter (eitherOrientation f c) rows)
  = if includes (Graph.neighborsOf rows c) f then 1 else 0.
Proof.
  intros [Hnd Hone] Hfc.
  pose proof (NoDup_filter (eitherOrientation f c) Hnd) as Hfil.
  destruct (includes (Graph.neighborsOf rows c) f) eqn:E.
  - apply includes_In, neighborsOf_rows in E. destruct E as [E|E].
    + apply (same_members_length _ [Friendship.mk c f]); [exact Hfil| |].
      { constructor; [intros []|constructor]. }
      intros r. rewrite eitherOrientation_In. simpl. split.
      * intros [Hr [->| ->]]; [|auto]. exfalso. exact (Hone _ _ E Hr).
      * intros [<-|[]]. auto.
    + apply (same_members_length _ [Friendship.mk f c]); [exact Hfil| |].
      { constructor; [intros []|constructor]. }
      intros r. rewrite eitherOrientation_In. simpl. split.
      * intros [Hr [->| ->]]; [auto|]. exfalso. exact (Hone _ _ E Hr).
      * intros [<-|[]]. auto.
  - apply includes_false in E. rewrite neighborsOf_rows in E.
    apply (same_members_length _ []); [exact Hfil | constructor |].
    intros r. rewrite eitherOrientation_In. simpl. split; [|intros []].
    intros [Hr [->| ->]]; apply E; auto.
Qed.

Lemma mirrored_joined_twice (rows : list Friendship.t) (f c : uuid) :
  mirroredRows rows -> f <> c ->
  List.length (filter (eitherOrientation f c) rows)
  = if includes (Graph.neighborsOf rows c) f then 2 else 0.
Proof.
  intros [Hnd Hboth] Hfc.
  pose proof (NoDup_filter (eitherOrientation f c) Hnd) as Hfil.
  destruct (includes (Graph.neighborsOf rows c) f) eqn:E.
  - apply includes_In, neighborsOf_rows in E.
    assert (Hcf : In (Friendship.mk c f) rows).
    { destruct E as [E|E]; [exact E | apply Hboth; exact E]. }
    assert (Hfc' : In (Friendship.mk f c) rows) by (apply Hboth; exact Hcf).
    apply (same_members_length _ [Friendship.mk f c; Friendship.mk c f]);
      [exact Hfil| |].
    { constructor; [|constructor; [intros []|constructor]].
      intros [H|[]]. symmetry in H. exact (friendship_neq f c Hfc H). }
    intros r. rewrite eitherOrientation_In. simpl. split.
    + intros [_ [->| ->]]; auto.
    + intros [<-|[<-|[]]]; auto.
  - apply includes_false in E. rewrite neighborsOf_rows in E.
    apply (same_members_length _ []); [exact Hfil | constructor |].
    intros r. rewrite eitherOrientation_In. simpl. split; [|intros []].
    intros [Hr [->| ->]]; apply E; auto.
Qed.

(** With one row per friendship the dashboard shows the number of mutual
    friends. *)
Lemma oneRow_counts_mutual_friends (profiles : list Profile.t)
    (rows : list Friendship.t) (u : uuid) :
  NoDup (map Profile.user_id profiles) ->
  forallb (Table.keys_exist profiles) rows = true ->
  oneRowPerFriendship rows ->
  Forall (fun s =>
            mutualFriends s = Graph.mutualCount rows u (suggested_id s))
         (dashboardSuggestions profiles rows rows u).
Proof.
  intros Hp Hfk Hrows.
  eapply Forall_impl;
    [|apply (mutualFriends_scaled profiles rows u Hp Hfk 1);
      intros f c Hfc; apply oneRow_joined_once; assumption].
  simpl. intros s Hs. lia.
Qed.

(** With both rows of every friendship stored it shows twice that number. *)
Lemma mirrored_counts_twice (profiles : list Profile.t)
    (rows : list Friendship.t) (u : uuid) :
  NoDup (map Profile.user_id profiles) ->
  forallb (Table.keys_exist profiles) rows = true ->
  mirroredRows rows ->
  Forall (fun s =>
            mutualFriends s = 2 * Graph.mutualCount rows u (suggested_id s))
         (dashboardSuggestions profiles rows rows u).
Proof.
  intros Hp Hfk Hrows.
  apply (mutualFriends_scaled profiles rows u Hp Hfk 2).
  intros f c Hfc. apply mirrored_joined_twice; assumption.
Qed.

Lemma roster_unique : NoDup (map Profile.user_id Scenario.roster).
Proof.
  repeat constructor; simpl; intuition discriminate.
Qed.

Lemma chain_mirrored : mirroredRows Scenario.chain.
Proof.
  split.
  - repeat constructor; simpl; intuition discriminate.
  - intros a b H. simpl in H.
    repeat (destruct H as [H|H]; [inversion H; subst; simpl; tauto|]).
    destruct H.
Qed.

Lemma fan_oneRow : oneRowPerFriendship Scenario.fan.
Proof.
  split.
  - repeat constructor; simpl; intuition discriminate.
  - intros a b H. simpl in H.
    repeat (destruct H as [H|H];
            [inversion H; subst; simpl; intuition discriminate|]).
    destruct H.
Qed.

(** Both regimes on the example networks. *)
Lemma counting_examples :
  Forall (fun s =>
            mutualFriends s
            = 2 * Graph.mutualCount Scenario.chain "1" (suggested_id s))
         (dashboardSuggestions Scenario.roster Scenario.chain
            Scenario.chain "1")
  /\ Forall (fun s =>
               mutualFriends s
               = Graph.mutualCount Scenario.fan "1" (suggested_id s))
            (dashboardSuggestions Scenario.roster Scenario.fan
               Scenario.fan "1").
Proof.
  split.
  - apply mirrored_counts_twice;
      [exact roster_unique | reflexivity | exact chain_mirrored].
  - apply oneRow_counts_mutual_friends;
      [exact roster_unique | reflexivity | exact fan_oneRow].
Qed.

(** ** Counting over mirrored rows *)

(** The traversal on a whole table written by [addFriend], which is more than
    the select policy hands to a requester: after 1 befriends 2 and 2
    befriends 3 the table holds four rows; 1 and 3 have the single mutual
    friend 2, and the traversal run for 1 on all four rows suggests 3 with
    [mutualFriends] 2, one for each of the two rows that join 2 and 3. *)
Theorem mirrored_rows_counted_twice :
  let first := addFriend (Some "1") "2" Scenario.strangers initialState in
  let second := addFriend (Some "2") "3" (db_after first) initialState in
  let stored := friendships (db_after second) in
  stored = Scenario.chain
  /\ Graph.neighborsOf stored "1" = ["2"]
  /\ Graph.neighborsOf stored "3" = ["2"]
  /\ Graph.mutualCount stored "1" "3" = 1
  /\ dashboardSuggestions Scenario.roster stored stored "1"
     = [mkSuggestion (Scenario.person "3") 2].
Proof.
  vm_compute. repeat split.
Qed.

(** ** The network rows of [get_network_friendships] *)

Lemma filter_absorb {A : Type} (p q : A -> bool) (l : list A) :
  (forall x, In x l -> p x = true -> q x = true) ->
  filter p (filter q l) = filter p l.
Proof.
  induction l as [|x l IH]; intros H; simpl; [reflexivity|].
  assert (IH' : filter p (filter q l) = filter p l).
  { apply IH. intros y Hy. apply H. right; exact Hy. }
  destruct (q x) eqn:Q; simpl.
  - rewrite IH'. reflexivity.
  - destruct (p x) eqn:P; [|exact IH'].
    rewrite (H x (or_introl eq_refl) P) in Q. discriminate.
Qed.

Section NetworkFacts.
Variable table : list Friendship.t.
Variable u : uuid.

Lemma my_friends_friendIdsOf :
  Network.my_friends table u = friendIdsOf u (Query.friendships_of table u).
Proof. reflexivity. Qed.

Lemma network_self : In u (Network.network table u).
Proof. unfold Network.network. apply nodup_In. left. reflexivity. Qed.

Lemma network_my_friends (f : uuid) :
  In f (Network.my_friends table u) -> In f (Network.network table u).
Proof.
  intros H. unfold Network.network. apply nodup_In. right.
  apply in_or_app. left. exact H.
Qed.

Lemma network_fof (f : uuid) (r : Friendship.t) :
  In f (Network.my_friends table u) -> In r table -> touches f r = true ->
  In (potentialFriendId f r) (Network.network table u).
Proof.
  intros Hf Hr Ht. unfold Network.network. apply nodup_In. right.
  apply in_or_app. right. unfold Network.fof. apply nodup_In.
  apply in_flat_map. exists r. split; [exact Hr|].
  apply in_flat_map. exists f. split; [exact Hf|].
  unfold touches in Ht. rewrite Ht. left. reflexivity.
Qed.

(** A row at a direct friend has both ends in the network. *)
Lemma friend_rows_in_network (f : uuid) (r : Friendship.t) :
  In f (Network.my_friends table u) -> In r table -> touches f r = true ->
  includes (Network.network table u) (Friendship.user_id r)
  && includes (Network.network table u) (Friendship.friend_id r) = true.
Proof.
  intros Hf Hr Ht.
  pose proof (network_fof f r Hf Hr Ht) as Hp.
  pose proof (network_my_friends f Hf) as Hn.
  unfold potentialFriendId in Hp. unfold touches in Ht.
  apply andb_true_iff. rewrite !includes_In.
  destruct (String.eqb (Friendship.user_id r) f) eqn:E1.
  - apply String.eqb_eq in E1. rewrite E1. split; assumption.
  - simpl in Ht. apply String.eqb_eq in Ht. rewrite Ht. split; assumption.
Qed.

(** So has a row at the requester. *)
Lemma own_rows_in_network (r : Friendship.t) :
  In r table -> touches u r = true ->
  includes (Network.network table u) (Friendship.user_id r)
  && includes (Network.network table u) (Friendship.friend_id r) = true.
Proof.
  intros Hr Ht.
  assert (Hp : In (if String.eqb (Friendship.user_id r) u
                   then Friendship.friend_id r else Friendship.user_id r)
                  (Network.network table u)).
  { apply network_my_friends. unfold Network.my_friends.
    apply in_map_iff. exists r. split; [reflexivity|].
    apply filter_In. split; [exact Hr | exact Ht]. }
  pose proof network_self as Hn. unfold touches in Ht.
  apply andb_true_iff. rewrite !includes_In.
  destruct (String.eqb (Friendship.user_id r) u) eqn:E1.
  - apply String.eqb_eq in E1. rewrite E1. split; assumption.
  - simpl in Ht. apply String.eqb_eq in Ht. rewrite Ht. split; assumption.
Qed.

Lemma network_friendOfFriendships (f : uuid) :
  In f (Network.my_friends table u) ->
  friendOfFriendships (Network.rows table u) f = friendOfFriendships table f.
Proof.
  intros Hf. unfold friendOfFriendships, Network.rows.
  apply filter_absorb. intros r Hr Ht.
  apply (friend_rows_in_network f r Hf Hr Ht).
Qed.

Lemma network_friendships_of :
  Query.friendships_of (Network.rows table u) u = Query.friendships_of table u.
Proof.
  unfold Query.friendships_of, Network.rows.
  apply filter_absorb. intros r Hr Ht. apply (own_rows_in_network r Hr Ht).
Qed.

(** The traversal from direct friends reads the same rows in both lists. *)
Lemma network_suggestionsMap (friendIds : list uuid) :
  (forall f, In f friendIds -> In f (Network.my_friends table u)) ->
  suggestionsMap u friendIds (Network.rows table u)
  = suggestionsMap u friendIds table.
Proof.
  intros Hsub. unfold suggestionsMap.
  apply fold_left_agree. intros m f Hf. unfold visitFriend.
  rewrite network_friendOfFriendships by (apply Hsub; exact Hf).
  reflexivity.
Qed.

Lemma network_suggestionsWithMutual (friends allUsers : list Profile.t) :
  (forall p, In p friends ->
             In (Profile.user_id p) (Network.my_friends table u)) ->
  suggestionsWithMutual u friends allUsers (Network.rows table u)
  = suggestionsWithMutual u friends allUsers table.
Proof.
  intros Hsub. unfold suggestionsWithMutual, discovered.
  rewrite network_suggestionsMap; [reflexivity|].
  intros f Hf. apply in_map_iff in Hf. destruct Hf as [p [<- Hp]].
  apply Hsub. exact Hp.
Qed.
End NetworkFacts.

(** C8: the requester's call of [get_network_friendships] succeeds, and the
    dashboard ranks the same suggestions, with the same counts and in the same
    order, from the rows it returns as from the whole table, whether the
    direct friends are loaded from the whole table or from those rows too.
    In whatever order the rows come back, the ranked suggestions are the same
    profiles with the same counts. *)
Theorem network_rows_rank_alike (profiles : list Profile.t)
    (table : list Friendship.t) (u : uuid) :
  get_network_friendships (Some u) table u = Data (Network.rows table u)
  /\ dashboardSuggestions profiles table (Network.rows table u) u
     = dashboardSuggestions profiles table table u
  /\ dashboardSuggestions profiles (Network.rows table u)
       (Network.rows table u) u
     = dashboardSuggestions profiles table table u
  /\ (forall fetched whole,
        Permutation (Network.rows table u) fetched ->
        Permutation table whole ->
        Permutation (dashboardSuggestions profiles table fetched u)
                    (dashboardSuggestions profiles table whole u)).
Proof.
  assert (Hmixed : dashboardSuggestions profiles table (Network.rows table u) u
                   = dashboardSuggestions profiles table table u).
  { rewrite !dashboardSuggestions_eq.
    destruct (_ && _); [|reflexivity].
    apply network_suggestionsWithMutual. intros p Hp.
    unfold Query.profiles_in in Hp. apply filter_In in Hp.
    destruct Hp as [_ Hp]. apply includes_In in Hp.
    rewrite my_friends_friendIdsOf. exact Hp. }
  split; [|split; [|split]].
  - unfold get_network_friendships. rewrite String.eqb_refl. reflexivity.
  - exact Hmixed.
  - rewrite <- Hmixed.
    rewrite (dashboardSuggestions_eq profiles (Network.rows table u)).
    rewrite (dashboardSuggestions_eq profiles table).
    rewrite network_friendships_of. reflexivity.
  - intros fetched whole Hf Hw.
    eapply perm_trans; [|eapply perm_trans].
    + apply Permutation_sym.
      apply (dashboardSuggestions_Permutation profiles table _ _ u Hf).
    + rewrite Hmixed. apply Permutation_refl.
    + apply (dashboardSuggestions_Permutation profiles table _ _ u Hw).
Qed.

(** ** Read failures *)

(** C9: when a read fails, the loader that awaited it returns the state it
    was given: a failed profile fetch in [loadProfile], a failed friendship
    fetch or a failed friend-profile fetch in [loadFriends], a failed roster
    fetch in [loadAllUsers], a failed edge-list fetch in
    [calculateSuggestions]; and a [loadData] whose reads all fail changes
    nothing but [loading]. *)
Theorem failed_reads_keep_state (user : option uuid) (err : PostgrestError)
    (st : State) :
  fst (loadProfile user (Error err) st) = st
  /\ (forall friendsResp,
        fst (loadFriends user (Error err) friendsResp st) = st)
  /\ (forall u friendshipsData,
        user = Some u -> friendIdsOf u friendshipsData <> [] ->
        fst (loadFriends user (Data friendshipsData) (fun _ => Error err) st)
        = st)
  /\ fst (loadAllUsers user (Error err) st) = st
  /\ calculateSuggestions user (Error err) st = st
  /\ (forall friendsResp,
        fst (loadDataWith user (Error err) (Error err) friendsResp
               (Error err) st)
        = setLoading false st).
Proof.
  repeat split.
  - destruct user; reflexivity.
  - intros friendsResp. destruct user; reflexivity.
  - intros u friendshipsData -> Hne. unfold loadFriends.
    destruct (friendIdsOf u friendshipsData) as [|i ids]; [congruence|].
    reflexivity.
  - destruct user; reflexivity.
  - destruct user; reflexivity.
  - intros friendsResp. destruct user; reflexivity.
Qed.

(** ** Writes to the [friendships] table *)

Lemma insert_each_appends (auth : option uuid) (rows table table' : list Friendship.t) :
  Table.insert_each auth table rows = inr table' -> table' = (table ++ rows)%list.
Proof.
  revert table. induction rows as [|f rows IH]; intros table; simpl.
  - intros H. inversion H. rewrite app_nil_r. reflexivity.
  - destruct (negb (Policy.friendships_insert auth f)); [discriminate|].
    destruct (String.eqb (Friendship.user_id f) (Friendship.friend_id f));
      [discriminate|].
    destruct (existsb (Table.same_key f) table); [discriminate|].
    intros H. apply IH in H. rewrite <- app_assoc in H. exact H.
Qed.

(** A refused INSERT leaves the store as it was. *)
Lemma insert_error_unchanged (auth : option uuid) (db db' : Store)
    (rows : list Friendship.t) (e : PostgrestError) :
  Table.insert auth db rows = (db', Error e) -> db' = db.
Proof.
  unfold Table.insert.
  destruct (Table.insert_each auth (friendships db) rows).
  - intros H. inversion H. reflexivity.
  - destruct (forallb _ rows); intros H; inversion H. reflexivity.
Qed.

Lemma insert_data_appends (auth : option uuid) (db db' : Store)
    (rows : list Friendship.t) (d : unit) :
  Table.insert auth db rows = (db', Data d) ->
  db' = mkStore (profiles db) (friendships db ++ rows)%list.
Proof.
  unfold Table.insert.
  destruct (Table.insert_each auth (friendships db) rows) as [e|t] eqn:E.
  - intros H. inversion H.
  - apply insert_each_appends in E. subst t.
    destruct (forallb _ rows); intros H; inversion H. reflexivity.
Qed.

Lemma insert_data_keys (auth : option uuid) (db db' : Store)
    (rows : list Friendship.t) (d : unit) :
  Table.insert auth db rows = (db', Data d) ->
  forallb (Table.keys_exist (profiles db)) rows = true.
Proof.
  unfold Table.insert.
  destruct (Table.insert_each auth (friendships db) rows) as [e|t].
  - intros H. inversion H.
  - destruct (forallb _ rows); intros H; [reflexivity | inversion H].
Qed.

(** After [loadData] the friends are the profiles of the stored friend ids. *)
Lemma loadData_friends (u : uuid) (db : Store) (st : State) :
  friends (fst (loadData u db st))
  = Query.profiles_in (profiles db) (storedFriendIds db u).
Proof.
  unfold loadData, loadDataWith, storedFriendIds.
  destruct (loadProfile _ _ _) as [st1 t1].
  pose proof (loaded_friends (profiles db) (Table.select (Some u) db) u st1)
    as Hf.
  destruct (loadFriends _ _ _ st1) as [st2 t2]. simpl in Hf.
  unfold loadAllUsers. simpl. exact Hf.
Qed.

Lemma same_key_refl (f : Friendship.t) : Table.same_key f f = true.
Proof. unfold Table.same_key. rewrite !String.eqb_refl. reflexivity. Qed.

Lemma existsb_app_l {A : Type} (p : A -> bool) (l l' : list A) :
  existsb p l = true -> existsb p (l ++ l')%list = true.
Proof. intros H. rewrite existsb_app, H. reflexivity. Qed.

(** The two rows of [addFriend] are refused when either is already stored. *)
Lemma insert_existing_refused (a b : uuid) (db : Store) :
  In (Friendship.mk a b) (friendships db)
  \/ In (Friendship.mk b a) (friendships db) ->
  exists e,
    Table.insert (Some a) db [Friendship.mk a b; Friendship.mk b a]
    = (db, Error e).
Proof.
  intros Hin. unfold Table.insert. simpl.
  unfold Policy.friendships_insert, Policy.uid_is. simpl.
  rewrite String.eqb_refl, orb_true_r. simpl.
  destruct (String.eqb a b) eqn:Eab; [eexists; reflexivity|].
  rewrite (String.eqb_sym b a), Eab.
  destruct (existsb (Table.same_key (Friendship.mk a b)) (friendships db))
    eqn:E1; [eexists; reflexivity|].
  assert (E2 : existsb (Table.same_key (Friendship.mk b a))
                 (friendships db ++ [Friendship.mk a b])%list = true).
  { destruct Hin as [Hin|Hin].
    - assert (K : existsb (Table.same_key (Friendship.mk a b)) (friendships db)
                  = true).
      { apply existsb_exists. eexists. split; [exact Hin|apply same_key_refl]. }
      congruence.
    - apply existsb_app_l. apply existsb_exists.
      eexists. split; [exact Hin|apply same_key_refl]. }
  rewrite E2. eexists; reflexivity.
Qed.

(** When the first of the two rows is stored, it is the unique index that
    refuses the statement. *)
Lemma insert_stored_unique (a b : uuid) (db : Store) :
  a <> b ->
  In (Friendship.mk a b) (friendships db) ->
  Table.insert (Some a) db [Friendship.mk a b; Friendship.mk b a]
  = (db, Error unique_violation).
Proof.
  intros Hab Hin. unfold Table.insert. simpl.
  unfold Policy.friendships_insert, Policy.uid_is. simpl.
  rewrite String.eqb_refl. simpl.
  apply String.eqb_neq in Hab. rewrite Hab.
  assert (K : existsb (Table.same_key (Friendship.mk a b)) (friendships db)
              = true).
  { apply existsb_exists. eexists. split; [exact Hin|apply same_key_refl]. }
  rewrite K. reflexivity.
Qed.

(** An insert of the two rows that goes through joins two different users. *)
Lemma insert_pair_distinct (a b : uuid) (db db' : Store) :
  Table.insert (Some a) db [Friendship.mk a b; Friendship.mk b a]
  = (db', Data tt) ->
  a <> b.
Proof.
  intros Hins Hab. subst b. unfold Table.insert in Hins. simpl in Hins.
  unfold Policy.friendships_insert, Policy.uid_is in Hins. simpl in Hins.
  rewrite String.eqb_refl in Hins. simpl in Hins. discriminate.
Qed.

Lemma addFriend_cases (a b : uuid) (db : Store) (st : State) :
  let run := addFriend (Some a) b db st in
  let rows := [Friendship.mk a b; Friendship.mk b a] in
  sent run = [InsertRows rows]
  /\ ((exists e, Table.insert (Some a) db rows = (db, Error e)
                 /\ toasts run = [toast_error "Failed to add friend"]
                 /\ db_after run = db)
      \/ (Table.insert (Some a) db rows
          = (mkStore (profiles db) (friendships db ++ rows)%list, Data tt)
          /\ reportsSuccess run = true
          /\ db_after run
             = mkStore (profiles db) (friendships db ++ rows)%list)).
Proof.
  intros run rows. unfold run, addFriend. fold rows.
  destruct (Table.insert (Some a) db rows) as [db' [d|e]] eqn:E.
  - pose proof (insert_data_appends _ _ _ _ _ E) as ->. destruct d.
    destruct (loadData a _ _) as [st2 ts]. simpl.
    split; [reflexivity|]. right. auto.
  - pose proof (insert_error_unchanged _ _ _ _ _ E) as ->. simpl.
    split; [reflexivity|]. left. exists e. auto.
Qed.

(** C4, as stated, fails: after 1 has befriended 2 among strangers, the same
    call again is refused by the unique index. *)
Lemma second_addFriend_not_a_success :
  ~ addFriendIdempotent "1" "2" Scenario.strangers initialState.
Proof.
  unfold addFriendIdempotent. intros H.
  destruct (H eq_refl) as [H2 _]. vm_compute in H2. discriminate.
Qed.

(** C4, amended: when [addFriend] has succeeded for a pair, it has appended
    the two rows of the friendship, and the same call again, from any
    component state, sends its insert, which the store refuses by its
    UNIQUE (user_id, friend_id) constraint; the handler reports a failure and
    the store is left as the first call left it, so no row is stored
    twice. *)
Theorem second_addFriend_refused (a b : uuid) (db : Store) (st st' : State) :
  let once := addFriend (Some a) b db st in
  reportsSuccess once = true ->
  let twice := addFriend (Some a) b (db_after once) st' in
  friendships (db_after once)
  = (friendships db ++ [Friendship.mk a b; Friendship.mk b a])%list
  /\ sent twice = [InsertRows [Friendship.mk a b; Friendship.mk b a]]
  /\ Table.insert (Some a) (db_after once)
       [Friendship.mk a b; Friendship.mk b a]
     = (db_after once, Error unique_violation)
  /\ toasts twice = [toast_error "Failed to add friend"]
  /\ db_after twice = db_after once.
Proof.
  intros once Hok twice.
  destruct (addFriend_cases a b db st)
    as [_ [[e [_ [Ht _]]]|[Hfirst [_ Hdb]]]].
  - unfold once, reportsSuccess in Hok. rewrite Ht in Hok. discriminate.
  - fold once in Hdb.
    assert (Hrows : friendships (db_after once)
                    = (friendships db
                       ++ [Friendship.mk a b; Friendship.mk b a])%list).
    { rewrite Hdb. reflexivity. }
    split; [exact Hrows|].
    assert (Hunique : Table.insert (Some a) (db_after once)
                        [Friendship.mk a b; Friendship.mk b a]
                      = (db_after once, Error unique_violation)).
    { apply insert_stored_unique.
      - exact (insert_pair_distinct a b db _ Hfirst).
      - rewrite Hrows. apply in_or_app. right. left. reflexivity. }
    destruct (addFriend_cases a b (db_after once) st')
      as [Hsent [[e [_ [Ht Hd]]]|[Hins _]]].
    + fold twice in Hsent, Ht, Hd. auto.
    + exfalso. rewrite Hunique in Hins. inversion Hins.
Qed.

Lemma second_addFriend_refused_witness :
  let once := addFriend (Some "1") "2" Scenario.strangers initialState in
  let twice :=
    addFriend (Some "1") "2" (db_after once) Scenario.loaded in
  reportsSuccess once = true
  /\ friendships (db_after once)
     = [Friendship.mk "1" "2"; Friendship.mk "2" "1"]
  /\ Table.insert (Some "1") (db_after once)
       [Friendship.mk "1" "2"; Friendship.mk "2" "1"]
     = (db_after once, Error unique_violation)
  /\ toasts twice = [toast_error "Failed to add friend"]
  /\ db_after twice = db_after once.
Proof.
  intros once twice.
  destruct (second_addFriend_refused "1" "2" Scenario.strangers initialState
              Scenario.loaded eq_refl) as [H1 [_ [H3 [H4 H5]]]].
  split; [reflexivity|]. split; [exact H1|]. split; [exact H3|].
  split; [exact H4 | exact H5].
Defined.

(** C5, as stated, fails: [addFriend] on the user's own id does send its
    insert to the store. *)
Lemma self_friend_insert_is_sent :
  ~ selfRejectedBeforeWrite "1" Scenario.strangers initialState.
Proof.
  unfold selfRejectedBeforeWrite. intros [_ [H _]].
  vm_compute in H. discriminate.
Qed.

(** C5, amended: for every user [a], [addFriend] on [a]'s own id sends the
    insert of the two rows, the table's CHECK constraint refuses it, the
    handler shows its failure toast, and the store is unchanged. *)
Theorem self_friend_refused_by_check (a : uuid) (db : Store) (st : State) :
  let run := addFriend (Some a) a db st in
  let rows := [Friendship.mk a a; Friendship.mk a a] in
  Table.insert (Some a) db rows = (db, Error check_violation)
  /\ sent run = [InsertRows rows]
  /\ toasts run = [toast_error "Failed to add friend"]
  /\ reportsFailure run = true
  /\ db_after run = db.
Proof.
  intros run rows.
  assert (E : Table.insert (Some a) db rows = (db, Error check_violation)).
  { unfold Table.insert, rows. simpl.
    unfold Policy.friendships_insert, Policy.uid_is. simpl.
    rewrite String.eqb_refl. reflexivity. }
  split; [exact E|].
  unfold run, addFriend. fold rows. rewrite E. simpl. auto.
Qed.

(** ** Removing a friendship *)

Lemma eitherOrientation_policies (u f : uuid) (r : Friendship.t) :
  eitherOrientation u f r = true ->
  Policy.friendships_select (Some u) r && Policy.friendships_delete (Some u) r
  = true.
Proof.
  unfold eitherOrientation, Policy.friendships_select,
    Policy.friendships_delete, Policy.uid_is.
  rewrite !(String.eqb_sym u).
  destruct (String.eqb (Friendship.user_id r) u);
    destruct (String.eqb (Friendship.friend_id r) u); simpl;
    try reflexivity.
  rewrite !andb_false_r. discriminate.
Qed.

Lemma filter_all {A : Type} (p : A -> bool) (l : list A) :
  forallb p l = true -> filter p l = l.
Proof.
  induction l as [|x l IH]; simpl; [reflexivity|].
  intros H. apply andb_true_iff in H. destruct H as [Hx Hl].
  rewrite Hx, (IH Hl). reflexivity.
Qed.

(** Runs [removeFriend] up to the reload, whose result is named. *)
Ltac run_removeFriend :=
  match goal with
  | run := removeFriend (Some ?u) _ _ _ |- _ =>
      unfold run, removeFriend, Table.delete;
      destruct (loadData u _ _) as [?st2 ?ts]
  end.

(** C6: [removeFriend] reports success whatever the store holds; afterwards
    the store holds the rows it held before except those joining the two
    users, in either orientation; profiles are untouched; and when no row
    joins the two users the store is unchanged. *)
Theorem removeFriend_either_orientation (u f : uuid) (db : Store)
    (st : State) :
  let run := removeFriend (Some u) f db st in
  reportsSuccess run = true
  /\ sent run = [DeleteEdge u f]
  /\ friendships (db_after run)
     = filter (fun r => negb (eitherOrientation u f r)) (friendships db)
  /\ (forall r, In r (friendships (db_after run)) <->
                In r (friendships db) /\ eitherOrientation u f r = false)
  /\ ~ In (Friendship.mk u f) (friendships (db_after run))
  /\ ~ In (Friendship.mk f u) (friendships (db_after run))
  /\ profiles (db_after run) = profiles db
  /\ (~ In (Friendship.mk u f) (friendships db) ->
      ~ In (Friendship.mk f u) (friendships db) ->
      db_after run = db).
Proof.
  intros run.
  assert (Hrows : friendships (db_after run)
                  = filter (fun r => negb (eitherOrientation u f r))
                           (friendships db)).
  { run_removeFriend. simpl.
    apply filter_ext. intros r.
    destruct (eitherOrientation u f r) eqn:E.
    - rewrite (eitherOrientation_policies u f r E). reflexivity.
    - rewrite andb_false_r. reflexivity. }
  assert (Hprof : profiles (db_after run) = profiles db).
  { run_removeFriend. reflexivity. }
  assert (Hin : forall r, In r (friendships (db_after run)) <->
                          In r (friendships db)
                          /\ eitherOrientation u f r = false).
  { intros r. rewrite Hrows, filter_In, negb_true_iff. reflexivity. }
  split; [|split; [|split; [exact Hrows|split; [exact Hin|]]]].
  - run_removeFriend. reflexivity.
  - run_removeFriend. reflexivity.
  - split; [|split; [|split; [exact Hprof|]]].
    + intros H. apply Hin in H. destruct H as [_ H].
      unfold eitherOrientation in H. simpl in H.
      rewrite !String.eqb_refl in H. discriminate.
    + intros H. apply Hin in H. destruct H as [_ H].
      unfold eitherOrientation in H. simpl in H.
      rewrite !String.eqb_refl in H. simpl in H.
      rewrite orb_true_r in H. discriminate.
    + intros Huf Hfu.
      assert (Hfr : friendships (db_after run) = friendships db).
      { rewrite Hrows. apply filter_all. apply forallb_forall. intros r Hr.
        destruct (eitherOrientation u f r) eqn:E; [|reflexivity].
        apply eitherOrientation_rows in E.
        destruct E as [->| ->]; contradiction. }
      destruct (db_after run) as [ps fs], db as [ps0 fs0]. simpl in *.
      congruence.
Qed.

(** ** Symmetry of a new friendship *)

(** C7: when [addFriend] has succeeded for [a] and [b], the friend ids
    [loadFriends] computes for [a] from the store hold [b], those it computes
    for [b] hold [a], the same is true of the neighbour sets of the graph
    built from the stored rows, and the friends the handler has reloaded for
    [a] hold a profile of [b]. *)
Theorem addFriend_symmetric (a b : uuid) (db : Store) (st : State) :
  let run := addFriend (Some a) b db st in
  reportsSuccess run = true ->
  In b (storedFriendIds (db_after run) a)
  /\ In a (storedFriendIds (db_after run) b)
  /\ In b (Graph.neighborsOf (friendships (db_after run)) a)
  /\ In a (Graph.neighborsOf (friendships (db_after run)) b)
  /\ In b (map Profile.user_id (friends (st_after run))).
Proof.
  intros run Hok.
  destruct (addFriend_cases a b db st) as [_ [[e [_ [Ht _]]]|[Hins [_ Hdb]]]].
  { unfold run, reportsSuccess in Hok. rewrite Ht in Hok. discriminate. }
  fold run in Hdb.
  assert (Hab : In (Friendship.mk a b) (friendships (db_after run))).
  { rewrite Hdb. simpl. apply in_or_app. right. left. reflexivity. }
  assert (Hba : In (Friendship.mk b a) (friendships (db_after run))).
  { rewrite Hdb. simpl. apply in_or_app. right. right. left. reflexivity. }
  assert (Hstored : forall x y,
            In (Friendship.mk x y) (friendships (db_after run)) ->
            In y (storedFriendIds (db_after run) x)).
  { intros x y Hxy. unfold storedFriendIds, friendIdsOf.
    apply in_map_iff. exists (Friendship.mk x y). simpl.
    rewrite String.eqb_refl. split; [reflexivity|].
    unfold Query.friendships_of, Table.select.
    apply filter_In. split.
    - apply filter_In. split; [exact Hxy|].
      unfold Policy.friendships_select, Policy.uid_is. simpl.
      rewrite String.eqb_refl. reflexivity.
    - unfold touches. simpl. rewrite String.eqb_refl. reflexivity. }
  assert (Hgraph : forall x y,
            In (Friendship.mk x y) (friendships (db_after run)) ->
            In y (Graph.neighborsOf (friendships (db_after run)) x)).
  { intros x y Hxy. unfold Graph.neighborsOf. apply nodup_In.
    apply in_flat_map. exists (Friendship.mk x y). split; [exact Hxy|].
    simpl. rewrite String.eqb_refl. left. reflexivity. }
  repeat split; auto.
  assert (Hst : friends (st_after run)
                = Query.profiles_in (profiles (db_after run))
                    (storedFriendIds (db_after run) a)).
  { unfold run, addFriend. rewrite Hins.
    pose proof (loadData_friends a
                  (mkStore (profiles db)
                     (friendships db
                      ++ [Friendship.mk a b; Friendship.mk b a])%list)
                  (setActionLoading (Some b) st)) as Hl.
    destruct (loadData a _ _) as [st2 ts]. simpl in *. exact Hl. }
  rewrite Hst.
  apply insert_data_keys in Hins. simpl in Hins.
  apply andb_true_iff in Hins. destruct Hins as [Hk _].
  unfold Table.keys_exist in Hk. apply andb_true_iff in Hk.
  destruct Hk as [_ Hb]. unfold Table.references in Hb.
  apply existsb_exists in Hb. destruct Hb as [p [Hp Hpb]].
  apply String.eqb_eq in Hpb.
  apply in_map_iff. exists p. split; [exact Hpb|].
  unfold Query.profiles_in. apply filter_In. split.
  - rewrite Hdb. exact Hp.
  - apply includes_In. rewrite Hpb. apply Hstored. exact Hab.
Qed.

Lemma addFriend_symmetric_witness :
  let run := addFriend (Some "1") "2" Scenario.strangers initialState in
  reportsSuccess run = true
  /\ In "2" (storedFriendIds (db_after run) "1")
  /\ In "1" (storedFriendIds (db_after run) "2")
  /\ In "2" (Graph.neighborsOf (friendships (db_after run)) "1")
  /\ In "1" (Graph.neighborsOf (friendships (db_after run)) "2")
  /\ In "2" (map Profile.user_id (friends (st_after run))).
Proof.
  intros run. split; [reflexivity|].
  exact (addFriend_symmetric "1" "2" Scenario.strangers initialState eq_refl).
Defined.

(** * Further properties of the handlers, the table and the ranking *)

(** ** When [addFriend] succeeds *)

Lemma same_key_In (f : Friendship.t) (l : list Friendship.t) :
  existsb (Table.same_key f) l = true <-> In f l.
Proof.
  rewrite existsb_exists. split.
  - intros [g [Hg Hk]]. unfold Table.same_key in Hk.
    apply andb_true_iff in Hk. destruct Hk as [H1 H2].
    apply String.eqb_eq in H1, H2. destruct f, g. simpl in *. subst. exact Hg.
  - intros H. exists f. split; [exact H | apply same_key_refl].
Qed.

Lemma same_key_not_In (f : Friendship.t) (l : list Friendship.t) :
  existsb (Table.same_key f) l = false <-> ~ In f l.
Proof.
  rewrite <- same_key_In. rewrite not_true_iff_false. reflexivity.
Qed.

(** The INSERT of [addFriend] goes through exactly when the two users differ,
    both have a profile and neither row is stored. *)
Lemma insert_pair_iff (a b : uuid) (db : Store) :
  Table.insert (Some a) db [Friendship.mk a b; Friendship.mk b a]
  = (mkStore (profiles db)
       (friendships db ++ [Friendship.mk a b; Friendship.mk b a])%list,
     Data tt)
  <-> a <> b
      /\ Table.references (profiles db) a = true
      /\ Table.references (profiles db) b = true
      /\ ~ In (Friendship.mk a b) (friendships db)
      /\ ~ In (Friendship.mk b a) (friendships db).
Proof.
  unfold Table.insert. simpl.
  unfold Policy.friendships_insert, Policy.uid_is, Table.keys_exist. simpl.
  rewrite String.eqb_refl, orb_true_r. simpl.
  destruct (String.eqb_spec a b) as [Eab|Nab].
  { split; [discriminate | intros [H _]; contradiction]. }
  destruct (existsb (Table.same_key (Friendship.mk a b)) (friendships db))
    eqn:E1.
  { apply same_key_In in E1. split; [discriminate | tauto]. }
  apply same_key_not_In in E1.
  destruct (String.eqb_spec b a) as [Eba|_]; [congruence|].
  rewrite existsb_app. simpl.
  assert (Hk : Table.same_key (Friendship.mk b a) (Friendship.mk a b) = false).
  { unfold Table.same_key. simpl.
    destruct (String.eqb_spec b a); [congruence | reflexivity]. }
  rewrite Hk, !orb_false_r.
  destruct (existsb (Table.same_key (Friendship.mk b a)) (friendships db))
    eqn:E2.
  { apply same_key_In in E2. split; [discriminate | tauto]. }
  apply same_key_not_In in E2.
  destruct (Table.references (profiles db) a),
    (Table.references (profiles db) b); simpl.
  - rewrite <- app_assoc. simpl.
    split; [intros _; repeat split; assumption | reflexivity].
  - split; [discriminate | intros [_ [_ [H _]]]; discriminate].
  - split; [discriminate | intros [_ [H _]]; discriminate].
  - split; [discriminate | intros [_ [H _]]; discriminate].
Qed.

(** X1: [addFriend] reports success exactly when the two users are
    different, both have a profile, and the table holds neither the row
    (a, b) nor the row (b, a); it then appends exactly these two rows. *)
Theorem addFriend_success_iff (a b : uuid) (db : Store) (st : State) :
  let run := addFriend (Some a) b db st in
  (reportsSuccess run = true
   <-> a <> b
       /\ Table.references (profiles db) a = true
       /\ Table.references (profiles db) b = true
       /\ ~ In (Friendship.mk a b) (friendships db)
       /\ ~ In (Friendship.mk b a) (friendships db))
  /\ (reportsSuccess run = true \/ reportsFailure run = true)
  /\ db_after run
     = if reportsSuccess run
       then mkStore (profiles db)
              (friendships db ++ [Friendship.mk a b; Friendship.mk b a])%list
       else db.
Proof.
  intros run.
  destruct (addFriend_cases a b db st) as [_ [[e [He [Ht Hd]]]|[Hins [Hok Hd]]]];
    fold run in Ht || fold run in Hok; fold run in Hd.
  - assert (Hno : reportsSuccess run = false).
    { unfold reportsSuccess. rewrite Ht. reflexivity. }
    rewrite Hno. split; [|split; [|exact Hd]].
    + split; [discriminate|]. intros H. apply insert_pair_iff in H.
      rewrite H in He. inversion He.
    + right. unfold reportsFailure. rewrite Ht. reflexivity.
  - rewrite Hok. split; [|split; [left; reflexivity | exact Hd]].
    split; [|reflexivity]. intros _. apply insert_pair_iff. exact Hins.
Qed.

(** ** Adding and removing again *)

Lemma eitherOrientation_sym (a b : uuid) (r : Friendship.t) :
  eitherOrientation b a r = eitherOrientation a b r.
Proof. unfold eitherOrientation. apply orb_comm. Qed.

Lemma eitherOrientation_same (a b : uuid) :
  eitherOrientation a b (Friendship.mk a b) = true.
Proof.
  unfold eitherOrientation. simpl. rewrite !String.eqb_refl. reflexivity.
Qed.

Lemma eitherOrientation_flipped (a b : uuid) :
  eitherOrientation a b (Friendship.mk b a) = true.
Proof.
  unfold eitherOrientation. simpl. rewrite !String.eqb_refl.
  apply orb_true_r.
Qed.

Lemma removeFriend_rows (u f : uuid) (db : Store) (st : State) :
  db_after (removeFriend (Some u) f db st)
  = mkStore (profiles db)
      (filter (fun r => negb (eitherOrientation u f r)) (friendships db)).
Proof.
  unfold removeFriend, Table.delete.
  destruct (loadData u _ _) as [st2 ts]. simpl. f_equal.
  apply filter_ext. intros r.
  destruct (eitherOrientation u f r) eqn:E.
  - rewrite (eitherOrientation_policies u f r E). reflexivity.
  - rewrite andb_false_r. reflexivity.
Qed.

Lemma addFriend_rows (a b : uuid) (db : Store) (st : State) :
  reportsSuccess (addFriend (Some a) b db st) = true ->
  db_after (addFriend (Some a) b db st)
  = mkStore (profiles db)
      (friendships db ++ [Friendship.mk a b; Friendship.mk b a])%list
  /\ a <> b
  /\ Table.references (profiles db) a = true
  /\ Table.references (profiles db) b = true
  /\ ~ In (Friendship.mk a b) (friendships db)
  /\ ~ In (Friendship.mk b a) (friendships db).
Proof.
  intros Hok.
  destruct (addFriend_cases a b db st) as [_ [[e [_ [Ht _]]]|[Hins [_ Hd]]]].
  - unfold reportsSuccess in Hok. rewrite Ht in Hok. discriminate.
  - split; [exact Hd|]. apply insert_pair_iff. exact Hins.
Qed.

Lemma filter_none {A : Type} (p : A -> bool) (l : list A) :
  (forall x, In x l -> p x = false) -> filter p l = [].
Proof.
  induction l as [|x l IH]; simpl; intros H; [reflexivity|].
  rewrite (H x (or_introl eq_refl)). apply IH.
  intros y Hy. apply H. right. exact Hy.
Qed.

Lemma store_eta (db : Store) : mkStore (profiles db) (friendships db) = db.
Proof. destruct db. reflexivity. Qed.

(** X2: a friendship that [addFriend] has just created is undone by
    [removeFriend], called by either of the two users: the store is again
    the store before the add. *)
Theorem add_then_remove_restores (a b : uuid) (db : Store) (st st' : State) :
  let added := addFriend (Some a) b db st in
  reportsSuccess added = true ->
  db_after (removeFriend (Some a) b (db_after added) st') = db
  /\ db_after (removeFriend (Some b) a (db_after added) st') = db.
Proof.
  intros added Hok.
  destruct (addFriend_rows a b db st Hok) as [Hd [Hab [_ [_ [Hn1 Hn2]]]]].
  fold added in Hd.
  assert (Hback : filter (fun r => negb (eitherOrientation a b r))
                    (friendships (db_after added)) = friendships db).
  { rewrite Hd. simpl. rewrite filter_app. simpl.
    rewrite eitherOrientation_same, eitherOrientation_flipped. simpl.
    rewrite app_nil_r. apply filter_all. apply forallb_forall.
    intros r Hr. destruct (eitherOrientation a b r) eqn:E; [|reflexivity].
    apply eitherOrientation_rows in E. destruct E as [->| ->]; contradiction. }
  assert (Hp : profiles (db_after added) = profiles db).
  { rewrite Hd. reflexivity. }
  split.
  - rewrite removeFriend_rows, Hback, Hp. apply store_eta.
  - rewrite removeFriend_rows.
    rewrite (filter_ext _ (fun r => negb (eitherOrientation a b r)))
      by (intros r; rewrite eitherOrientation_sym; reflexivity).
    rewrite Hback, Hp. apply store_eta.
Qed.

Lemma add_then_remove_restores_witness :
  let added := addFriend (Some "1") "2" Scenario.strangers initialState in
  reportsSuccess added = true
  /\ db_after (removeFriend (Some "1") "2" (db_after added) Scenario.loaded)
     = Scenario.strangers
  /\ db_after (removeFriend (Some "2") "1" (db_after added) Scenario.loaded)
     = Scenario.strangers.
Proof.
  intros added. split; [reflexivity|].
  exact (add_then_remove_restores "1" "2" Scenario.strangers initialState
           Scenario.loaded eq_refl).
Defined.

(** ** Removing twice *)

Lemma storedFriendIds_rows (db : Store) (u x : uuid) :
  In x (storedFriendIds db u)
  <-> In (Friendship.mk u x) (friendships db)
      \/ In (Friendship.mk x u) (friendships db).
Proof.
  unfold storedFriendIds.
  assert (Hsel : Query.friendships_of (Table.select (Some u) db) u
                 = Query.friendships_of (friendships db) u).
  { unfold Query.friendships_of, Table.select. apply filter_absorb.
    intros r _ Ht. unfold touches in Ht.
    unfold Policy.friendships_select, Policy.uid_is.
    rewrite !(String.eqb_sym u). exact Ht. }
  rewrite Hsel, <- neighborsOf_friendIdsOf. apply neighborsOf_rows.
Qed.

(** X3: [removeFriend] twice leaves the store of removing once; after it the
    friend is neither among the friend ids [loadFriends] computes from the
    store, for either user, nor in the friends list the handler has reloaded;
    and the friendships with everybody else are all still there. *)
Theorem removeFriend_settles (u f : uuid) (db : Store) (st st' : State) :
  let once := removeFriend (Some u) f db st in
  db_after (removeFriend (Some u) f (db_after once) st') = db_after once
  /\ ~ In f (storedFriendIds (db_after once) u)
  /\ ~ In u (storedFriendIds (db_after once) f)
  /\ ~ In f (map Profile.user_id (friends (st_after once)))
  /\ (forall x, x <> f ->
        (In x (storedFriendIds (db_after once) u)
         <-> In x (storedFriendIds db u))).
Proof.
  intros once.
  assert (Hd : db_after once
               = mkStore (profiles db)
                   (filter (fun r => negb (eitherOrientation u f r))
                           (friendships db)))
    by apply removeFriend_rows.
  assert (Hgone : forall r, In r (friendships (db_after once)) ->
                            eitherOrientation u f r = false).
  { intros r Hr. rewrite Hd in Hr. simpl in Hr. apply filter_In in Hr.
    destruct Hr as [_ Hr]. apply negb_true_iff. exact Hr. }
  assert (Huf : ~ In (Friendship.mk u f) (friendships (db_after once))).
  { intros H. apply Hgone in H. rewrite eitherOrientation_same in H.
    discriminate. }
  assert (Hfu : ~ In (Friendship.mk f u) (friendships (db_after once))).
  { intros H. apply Hgone in H. rewrite eitherOrientation_flipped in H.
    discriminate. }
  assert (Hids : ~ In f (storedFriendIds (db_after once) u)).
  { rewrite storedFriendIds_rows. tauto. }
  split; [|split; [exact Hids|split; [|split]]].
  - rewrite removeFriend_rows.
    rewrite filter_all.
    + apply store_eta.
    + apply forallb_forall. intros r Hr. rewrite (Hgone r Hr). reflexivity.
  - rewrite storedFriendIds_rows. tauto.
  - assert (Hst : friends (st_after once)
                  = Query.profiles_in (profiles (db_after once))
                      (storedFriendIds (db_after once) u)).
    { unfold once, removeFriend.
      destruct (Table.delete (Some u) db (eitherOrientation u f))
        as [db' [d|e]] eqn:E; [|unfold Table.delete in E; inversion E].
      pose proof (loadData_friends u db' (setActionLoading (Some f) st)) as Hl.
      destruct (loadData u db' _) as [st2 ts]. simpl in *. exact Hl. }
    rewrite Hst. intros Hin. apply in_map_iff in Hin.
    destruct Hin as [p [Hp Hin]]. unfold Query.profiles_in in Hin.
    apply filter_In in Hin. destruct Hin as [_ Hin].
    apply includes_In in Hin. rewrite Hp in Hin. exact (Hids Hin).
  - intros x Hx. rewrite !storedFriendIds_rows. rewrite Hd. simpl.
    rewrite !filter_In.
    assert (E1 : eitherOrientation u f (Friendship.mk u x) = false).
    { unfold eitherOrientation. simpl.
      destruct (String.eqb_spec x f); [contradiction|].
      rewrite !andb_false_r. simpl.
      destruct (String.eqb_spec u f); [|reflexivity]. simpl.
      destruct (String.eqb_spec x u); [congruence | reflexivity]. }
    assert (E2 : eitherOrientation u f (Friendship.mk x u) = false).
    { unfold eitherOrientation. simpl.
      destruct (String.eqb_spec x f); [contradiction|]. simpl.
      rewrite orb_false_r.
      destruct (String.eqb_spec x u); [|reflexivity]. simpl.
      destruct (String.eqb_spec u f); [congruence | reflexivity]. }
    rewrite E1, E2. simpl. tauto.
Qed.

(** ** What every reachable store looks like *)

Lemma eitherOrientation_flip (u f : uuid) (r : Friendship.t) :
  eitherOrientation u f (flip r) = eitherOrientation u f r.
Proof.
  unfold eitherOrientation, flip. simpl.
  destruct (String.eqb (Friendship.user_id r) u),
    (String.eqb (Friendship.friend_id r) f),
    (String.eqb (Friendship.user_id r) f),
    (String.eqb (Friendship.friend_id r) u); reflexivity.
Qed.

Lemma perform_add_cases (a b : uuid) (db : Store) :
  perform db (Add a b) = db
  \/ (perform db (Add a b)
      = mkStore (profiles db)
          (friendships db ++ [Friendship.mk a b; Friendship.mk b a])%list
      /\ a <> b
      /\ Table.references (profiles db) a = true
      /\ Table.references (profiles db) b = true
      /\ ~ In (Friendship.mk a b) (friendships db)
      /\ ~ In (Friendship.mk b a) (friendships db)).
Proof.
  unfold perform.
  destruct (addFriend_cases a b db initialState)
    as [_ [[e [_ [_ Hd]]]|[Hins [_ Hd]]]].
  - left. exact Hd.
  - right. split; [exact Hd|]. apply insert_pair_iff. exact Hins.
Qed.

Lemma perform_wellKept (db : Store) (act : Action) :
  wellKept db -> wellKept (perform db act).
Proof.
  intros [[Hne [Hnd Hfk]] [_ Hmir]]. destruct act as [a b|u f].
  - destruct (perform_add_cases a b db)
      as [->|[-> [Hab [Ha [Hb [Hn1 Hn2]]]]]].
    { repeat split; assumption. }
    assert (Hnd' : NoDup (friendships db
                          ++ [Friendship.mk a b; Friendship.mk b a])%list).
    { apply NoDup_app; [exact Hnd| |].
      - constructor; [|constructor; [intros []|constructor]].
        intros [H|[]]. inversion H. congruence.
      - intros r Hr [<-|[<-|[]]]; contradiction. }
    repeat split; simpl.
    + apply Forall_app. split; [exact Hne|].
      constructor; [exact Hab|]. constructor; [|constructor].
      simpl. congruence.
    + exact Hnd'.
    + rewrite forallb_app, Hfk. simpl. unfold Table.keys_exist. simpl.
      rewrite Ha, Hb. reflexivity.
    + exact Hnd'.
    + intros x y H. apply in_app_or in H. apply in_or_app.
      destruct H as [H|[H|[H|[]]]].
      * left. apply Hmir. exact H.
      * inversion H; subst. right. right. left. reflexivity.
      * inversion H; subst. right. left. reflexivity.
  - unfold perform. rewrite removeFriend_rows.
    assert (Hnd' : NoDup (filter (fun r => negb (eitherOrientation u f r))
                                 (friendships db))).
    { apply NoDup_filter. exact Hnd. }
    repeat split; simpl.
    + rewrite Forall_forall in *. intros r Hr. apply filter_In in Hr.
      apply Hne. tauto.
    + exact Hnd'.
    + rewrite forallb_forall in *. intros r Hr. apply filter_In in Hr.
      apply Hfk. tauto.
    + exact Hnd'.
    + intros x y H. apply filter_In in H. destruct H as [H Hk].
      apply filter_In. split; [apply Hmir; exact H|].
      change (Friendship.mk y x) with (flip (Friendship.mk x y)).
      rewrite eitherOrientation_flip. exact Hk.
Qed.

Lemma perform_profiles (db : Store) (act : Action) :
  profiles (perform db act) = profiles db.
Proof.
  destruct act as [a b|u f].
  - destruct (perform_add_cases a b db) as [->|[-> _]]; reflexivity.
  - unfold perform. rewrite removeFriend_rows. reflexivity.
Qed.

Lemma replay_wellKept (actions : list Action) (db : Store) :
  wellKept db ->
  wellKept (replay actions db) /\ profiles (replay actions db) = profiles db.
Proof.
  unfold replay. revert db.
  induction actions as [|act actions IH]; intros db H; simpl; [auto|].
  destruct (IH (perform db act) (perform_wellKept db act H)) as [H1 H2].
  split; [exact H1|]. rewrite H2. apply perform_profiles.
Qed.

Lemma empty_wellKept (ps : list Profile.t) : wellKept (mkStore ps []).
Proof.
  repeat split; simpl; try constructor. intros a b [].
Qed.

(** X4: whatever sequence of "Add Friend" and "Unfriend" clicks any users
    make, starting from a table with no friendship, the table satisfies its
    CHECK, UNIQUE and foreign-key constraints, every friendship in it is
    stored both ways round, and the profiles are untouched; and each single
    click keeps all of this. *)
Theorem handlers_keep_table_mirrored (ps : list Profile.t)
    (actions : list Action) :
  let db := replay actions (mkStore ps []) in
  constraintsHold db
  /\ mirroredRows (friendships db)
  /\ profiles db = ps
  /\ (forall act, constraintsHold (perform db act)
                  /\ mirroredRows (friendships (perform db act))).
Proof.
  intros db.
  destruct (replay_wellKept actions (mkStore ps []) (empty_wellKept ps))
    as [Hw Hp].
  fold db in Hw, Hp. destruct Hw as [Hc Hm].
  split; [exact Hc|]. split; [exact Hm|]. split; [exact Hp|].
  intros act. exact (perform_wellKept db act (conj Hc Hm)).
Qed.

(** X5: on every store the handlers can produce from an empty table, with
    one profile per user, the dashboard of every user [u], computed from the
    whole table, shows for each suggestion twice the number of friends it
    has in common with [u]. *)
Theorem reachable_stores_count_twice (ps : list Profile.t)
    (actions : list Action) (u : uuid) :
  NoDup (map Profile.user_id ps) ->
  let rows := friendships (replay actions (mkStore ps [])) in
  Forall (fun s =>
            mutualFriends s = 2 * Graph.mutualCount rows u (suggested_id s))
         (dashboardSuggestions ps rows rows u).
Proof.
  intros Hps rows.
  destruct (replay_wellKept actions (mkStore ps []) (empty_wellKept ps))
    as [[[_ [_ Hfk]] Hm] Hp].
  simpl in Hp. rewrite Hp in Hfk.
  apply mirrored_counts_twice; assumption.
Qed.

Lemma reachable_stores_count_twice_witness :
  let rows :=
    friendships (replay [Add "1" "2"; Add "2" "3"; Add "4" "2"; Remove "2" "4"]
                        Scenario.strangers) in
  rows = Scenario.chain
  /\ dashboardSuggestions Scenario.roster rows rows "1"
     = [mkSuggestion (Scenario.person "3") 2]
  /\ Forall (fun s =>
               mutualFriends s
               = 2 * Graph.mutualCount rows "1" (suggested_id s))
            (dashboardSuggestions Scenario.roster rows rows "1").
Proof.
  intros rows. split; [reflexivity|]. split; [reflexivity|].
  exact (reachable_stores_count_twice Scenario.roster
           [Add "1" "2"; Add "2" "3"; Add "4" "2"; Remove "2" "4"] "1"
           roster_unique).
Defined.

(** ** What the select policy lets the dashboard see *)

Lemma select_touches (u : uuid) (db : Store) (r : Friendship.t) :
  In r (Table.select (Some u) db) <->
  In r (friendships db) /\ touches u r = true.
Proof.
  unfold Table.select, Policy.friendships_select, Policy.uid_is, touches.
  rewrite filter_In, !(String.eqb_sym u). reflexivity.
Qed.

Lemma hits_In (user : uuid) (friendIds : list uuid)
    (rows : list Friendship.t) (k : uuid) :
  In k (hits user friendIds rows) <->
  exists f r, In f friendIds /\ In r rows /\ touches f r = true
              /\ potentialFriendId f r = k
              /\ k <> user /\ ~ In k friendIds.
Proof.
  unfold hits, hitsOf, friendOfFriendships, eligible.
  rewrite in_flat_map. split.
  - intros [f [Hf Hk]]. apply filter_In in Hk. destruct Hk as [Hk He].
    apply in_map_iff in Hk. destruct Hk as [r [Hr Hin]].
    apply filter_In in Hin. destruct Hin as [Hin Ht].
    apply andb_true_iff in He. destruct He as [He1 He2].
    apply negb_true_iff in He1, He2.
    exists f, r. repeat split; try assumption.
    + apply String.eqb_neq. exact He1.
    + apply includes_false. exact He2.
  - intros [f [r [Hf [Hr [Ht [Hp [Hu Hn]]]]]]]. exists f.
    split; [exact Hf|]. apply filter_In. split.
    + apply in_map_iff. exists r. split; [exact Hp|].
      apply filter_In. split; assumption.
    + apply String.eqb_neq in Hu. apply includes_false in Hn.
      rewrite Hu, Hn. reflexivity.
Qed.

Lemma suggestion_key (user : uuid) (friends allUsers : list Profile.t)
    (rows : list Friendship.t) (s : FriendSuggestion) :
  In s (suggestionsWithMutual user friends allUsers rows) ->
  In (userProfile s) allUsers
  /\ In (suggested_id s) (hits user (map Profile.user_id friends) rows).
Proof.
  intros Hs. apply suggestion_origin in Hs. destruct Hs as [[k n] [He Hs]].
  apply withProfile_Some in Hs. destruct Hs as [Hin [Hid _]]. simpl in Hid.
  split; [exact Hin|].
  unfold JsMap.entries in He. rewrite suggestionsMap_tally in He.
  apply tally_entries in He. rewrite Hid. tauto.
Qed.

(** Through the select policy no row leads from a friend to a candidate. *)
Lemma visible_rows_suggest_nobody (db : Store) (u : uuid) :
  suggestionsWithMutual u
    (Query.profiles_in (profiles db) (storedFriendIds db u))
    (Query.profiles_neq (profiles db) u)
    (Table.select (Some u) db)
  = [].
Proof.
  destruct (suggestionsWithMutual _ _ _ _) as [|s l] eqn:E; [reflexivity|].
  exfalso.
  assert (Hs : In s (suggestionsWithMutual u
                       (Query.profiles_in (profiles db) (storedFriendIds db u))
                       (Query.profiles_neq (profiles db) u)
                       (Table.select (Some u) db))).
  { rewrite E. left. reflexivity. }
  apply suggestion_key in Hs. destruct Hs as [Hroster Hk].
  apply hits_In in Hk.
  destruct Hk as [f [r [Hf [Hr [Htf [Hp [Hne Hnf]]]]]]].
  apply select_touches in Hr. destruct Hr as [Hr Htu].
  unfold Query.profiles_neq in Hroster. apply filter_In in Hroster.
  destruct Hroster as [Hprof _].
  assert (Hfriend : In (suggested_id s) (storedFriendIds db u) -> False).
  { intros Hin. apply Hnf. apply in_map_iff. exists (userProfile s).
    split; [reflexivity|]. unfold Query.profiles_in. apply filter_In.
    split; [exact Hprof | apply includes_In; exact Hin]. }
  apply Hfriend. apply storedFriendIds_rows.
  destruct r as [x y]. unfold touches, potentialFriendId in *. simpl in *.
  destruct (String.eqb_spec x f) as [Exf|Nxf].
  - destruct (String.eqb_spec x u) as [Exu|Nxu].
    + left. subst. exact Hr.
    + simpl in Htu. apply String.eqb_eq in Htu. congruence.
  - simpl in Htf. apply String.eqb_eq in Htf.
    destruct (String.eqb_spec x u) as [Exu|Nxu]; [congruence|].
    simpl in Htu. apply String.eqb_eq in Htu. right. subst. exact Hr.
Qed.




(** X6: with the policy "Users can view their friendships" in force, the
    edge list that [calculateSuggestions] fetches with [select('*')] holds
    only the requester's own rows, and the dashboard then shows no
    suggestion at all, whatever the store holds. *)
Theorem select_policy_leaves_no_suggestion (db : Store) (u : uuid)
    (st : State) :
  let fetched := Table.select (Some u) db in
  Forall (fun r => touches u r = true) fetched
  /\ suggestions
       (suggestionsEffect (Some u) (Data fetched) (fst (loadData u db st)))
     = []
  /\ dashboardSuggestions (profiles db) (friendships db) fetched u = [].
Proof.
  intros fetched. split; [|split].
  - rewrite Forall_forall. intros r Hr. apply select_touches in Hr. tauto.
  - pose proof (loadData_friends u db st) as Hf.
    assert (Ha : allUsers (fst (loadData u db st))
                 = Query.profiles_neq (profiles db) u).
    { unfold loadData, loadDataWith.
      destruct (loadProfile _ _ _) as [st1 t1].
      destruct (loadFriends _ _ _ st1) as [st2 t2]. reflexivity. }
    unfold suggestionsEffect, calculateSuggestions. simpl.
    rewrite Hf, Ha.
    destruct (_ && _); simpl; [|reflexivity].
    apply visible_rows_suggest_nobody.
  - rewrite dashboardSuggestions_eq.
    destruct (_ && _); [|reflexivity].
    pose proof (visible_rows_suggest_nobody db u) as H.
    unfold storedFriendIds in H.
    assert (Hsel : Query.friendships_of (Table.select (Some u) db) u
                   = Query.friendships_of (friendships db) u).
    { unfold Query.friendships_of, Table.select. apply filter_absorb.
      intros r _ Ht. unfold touches in Ht.
      unfold Policy.friendships_select, Policy.uid_is.
      rewrite !(String.eqb_sym u). exact Ht. }
    rewrite Hsel in H. exact H.
Qed.

(** ** What the policies refuse *)

Lemma policy_touches (u : uuid) (r : Friendship.t) :
  Policy.friendships_insert (Some u) r = touches u r
  /\ Policy.friendships_delete (Some u) r = touches u r
  /\ Policy.friendships_select (Some u) r = touches u r.
Proof.
  unfold Policy.friendships_insert, Policy.friendships_delete,
    Policy.friendships_select, Policy.uid_is, touches.
  rewrite !(String.eqb_sym u). auto.
Qed.

Lemma insert_each_refused (auth : option uuid) (rows : list Friendship.t) :
  existsb (fun r => negb (Policy.friendships_insert auth r)) rows = true ->
  forall table, exists e, Table.insert_each auth table rows = inl e.
Proof.
  induction rows as [|r rows IH]; simpl; [discriminate|].
  intros H table.
  destruct (negb (Policy.friendships_insert auth r)); [eexists; reflexivity|].
  destruct (String.eqb _ _); [eexists; reflexivity|].
  destruct (existsb _ table); [eexists; reflexivity|].
  simpl in H. apply IH. exact H.
Qed.

(** X7: the policies confine a signed-in user to their own friendships: a
    delete, whatever its filter, keeps every row the user is not a party of;
    an insert that holds a row the user is not a party of is refused as a
    whole and changes nothing.  An anonymous caller reads no row, deletes no
    row and cannot insert one. *)
Theorem policies_confine_to_own_rows (db : Store) :
  (forall u cond r,
     In r (friendships db) -> touches u r = false ->
     In r (friendships (fst (Table.delete (Some u) db cond))))
  /\ (forall u rows,
        existsb (fun r => negb (touches u r)) rows = true ->
        exists e, Table.insert (Some u) db rows = (db, Error e))
  /\ Table.select None db = []
  /\ (forall cond, fst (Table.delete None db cond) = db)
  /\ (forall r rows,
        Table.insert None db (r :: rows) = (db, Error rls_violation)).
Proof.
  split; [|split; [|split; [|split]]].
  - intros u cond r Hr Ht. unfold Table.delete. simpl.
    apply filter_In. split; [exact Hr|].
    destruct (policy_touches u r) as [_ [-> _]]. rewrite Ht.
    rewrite andb_false_r. reflexivity.
  - intros u rows H. unfold Table.insert.
    destruct (insert_each_refused (Some u) rows) with (table := friendships db)
      as [e He].
    + apply existsb_exists in H. destruct H as [r [Hr Ht]].
      apply existsb_exists. exists r. split; [exact Hr|].
      destruct (policy_touches u r) as [-> _]. exact Ht.
    + rewrite He. exists e. reflexivity.
  - unfold Table.select. apply filter_none. intros r _. reflexivity.
  - intros cond. unfold Table.delete. simpl.
    rewrite filter_all; [apply store_eta|].
    apply forallb_forall. intros r _. reflexivity.
  - intros r rows. reflexivity.
Qed.

(** ** The network of [get_network_friendships] in graph terms *)

Lemma includes_ext (l l' : list uuid) (x : uuid) :
  (In x l <-> In x l') -> includes l x = includes l' x.
Proof.
  intros H. destruct (includes l x) eqn:E1, (includes l' x) eqn:E2;
    try reflexivity.
  - apply includes_In in E1. apply includes_false in E2. tauto.
  - apply includes_false in E1. apply includes_In in E2. tauto.
Qed.

Lemma fof_In (table : list Friendship.t) (u x : uuid) :
  In x (Network.fof table u) <->
  exists r mf, In r table /\ In mf (Network.my_friends table u)
               /\ touches mf r = true /\ potentialFriendId mf r = x.
Proof.
  unfold Network.fof. rewrite nodup_In, in_flat_map. split.
  - intros [r [Hr Hx]]. apply in_flat_map in Hx.
    destruct Hx as [mf [Hmf Hx]]. exists r, mf.
    unfold touches, potentialFriendId.
    destruct (_ || _); [|destruct Hx].
    destruct Hx as [Hx|[]]. auto.
  - intros [r [mf [Hr [Hmf [Ht Hp]]]]]. exists r. split; [exact Hr|].
    apply in_flat_map. exists mf. split; [exact Hmf|].
    unfold touches in Ht. rewrite Ht. left. exact Hp.
Qed.

Lemma my_friends_neighborsOf (table : list Friendship.t) (u x : uuid) :
  In x (Network.my_friends table u) <-> In x (Graph.neighborsOf table u).
Proof.
  rewrite my_friends_friendIdsOf. symmetry. apply neighborsOf_friendIdsOf.
Qed.

Lemma potential_neighbour (table : list Friendship.t) (f x : uuid) :
  (exists r, In r table /\ touches f r = true /\ potentialFriendId f r = x)
  <-> In x (Graph.neighborsOf table f).
Proof.
  rewrite neighborsOf_rows. split.
  - intros [[a b] [Hr [Ht Hp]]].
    unfold touches, potentialFriendId in *. simpl in *.
    destruct (String.eqb_spec a f) as [->|Na].
    + left. subst. exact Hr.
    + simpl in Ht. apply String.eqb_eq in Ht. right. subst. exact Hr.
  - intros [H|H].
    + exists (Friendship.mk f x). split; [exact H|].
      unfold touches, potentialFriendId. simpl.
      rewrite String.eqb_refl. auto.
    + exists (Friendship.mk x f). split; [exact H|].
      unfold touches, potentialFriendId. simpl.
      rewrite String.eqb_refl, orb_true_r.
      destruct (String.eqb_spec x f); auto.
Qed.

Lemma network_withinTwoHops (table : list Friendship.t) (u x : uuid) :
  In x (Network.network table u) <-> withinTwoHops table u x.
Proof.
  unfold Network.network, withinTwoHops.
  rewrite nodup_In. simpl. rewrite in_app_iff, fof_In, my_friends_neighborsOf.
  split.
  - intros [H|[H|[r [mf [Hr [Hmf [Ht Hp]]]]]]]; auto.
    right. right. exists mf. split.
    + apply my_friends_neighborsOf. exact Hmf.
    + apply potential_neighbour. exists r. auto.
  - intros [H|[H|[f [Hf Hx]]]]; auto.
    right. right. apply potential_neighbour in Hx.
    destruct Hx as [r [Hr [Ht Hp]]]. exists r, f.
    rewrite my_friends_neighborsOf. auto.
Qed.

(** X8: the rows [get_network_friendships] returns to its caller [u] are
    exactly the rows of the table whose two ends are both [u], a neighbour
    of [u] or a neighbour of a neighbour of [u] in the graph of the table;
    every row the caller could read directly is among them; any other
    caller, signed in or not, gets 'not authorized'. *)
Theorem network_rows_within_two_hops (table : list Friendship.t) (u : uuid) :
  (forall r,
     In r (Network.rows table u) <->
     In r table
     /\ withinTwoHops table u (Friendship.user_id r)
     /\ withinTwoHops table u (Friendship.friend_id r))
  /\ (forall ps r, In r (Table.select (Some u) (mkStore ps table)) ->
                   In r (Network.rows table u))
  /\ (forall requester,
        requester <> Some u ->
        get_network_friendships requester table u = Error not_authorized).
Proof.
  split; [|split].
  - intros r. unfold Network.rows.
    rewrite filter_In, andb_true_iff, !includes_In, !network_withinTwoHops.
    reflexivity.
  - intros ps r Hr. apply select_touches in Hr. simpl in Hr.
    destruct Hr as [Hr Ht]. unfold Network.rows. apply filter_In.
    split; [exact Hr|]. apply own_rows_in_network; assumption.
  - intros requester Hne. unfold get_network_friendships.
    destruct requester as [r|]; [|reflexivity].
    destruct (String.eqb_spec r u) as [->|_]; [congruence | reflexivity].
Qed.

(** X9: the network is closed: asked again on the rows it returned,
    [get_network_friendships] returns the same rows. *)
Theorem network_rows_closed (table : list Friendship.t) (u : uuid) :
  Network.rows (Network.rows table u) u = Network.rows table u
  /\ get_network_friendships (Some u) (Network.rows table u) u
     = get_network_friendships (Some u) table u.
Proof.
  assert (Hmf : Network.my_friends (Network.rows table u) u
                = Network.my_friends table u).
  { rewrite !my_friends_friendIdsOf, network_friendships_of. reflexivity. }
  assert (Hnet : forall x, In x (Network.network (Network.rows table u) u)
                           <-> In x (Network.network table u)).
  { intros x. unfold Network.network. rewrite !nodup_In. simpl.
    rewrite !in_app_iff, Hmf, !fof_In, Hmf.
    assert (Hfof : (exists r mf,
                      In r (Network.rows table u)
                      /\ In mf (Network.my_friends table u)
                      /\ touches mf r = true /\ potentialFriendId mf r = x)
                   <-> (exists r mf,
                          In r table /\ In mf (Network.my_friends table u)
                          /\ touches mf r = true
                          /\ potentialFriendId mf r = x)).
    { split; intros [r [mf [Hr [Hm [Ht Hp]]]]]; exists r, mf;
        repeat split; try assumption.
      - unfold Network.rows in Hr. apply filter_In in Hr. tauto.
      - unfold Network.rows. apply filter_In. split; [exact Hr|].
        apply (friend_rows_in_network table u mf r Hm Hr Ht). }
    rewrite Hfof. reflexivity. }
  assert (Hrows : Network.rows (Network.rows table u) u
                  = Network.rows table u).
  { unfold Network.rows at 1.
    rewrite (filter_ext _
               (fun f => includes (Network.network table u)
                           (Friendship.user_id f)
                         && includes (Network.network table u)
                              (Friendship.friend_id f))).
    - unfold Network.rows. apply filter_absorb. auto.
    - intros r. f_equal; apply includes_ext; apply Hnet. }
  split; [exact Hrows|].
  unfold get_network_friendships. rewrite String.eqb_refl. simpl.
  rewrite Hrows. reflexivity.
Qed.

(** ** More on the ranked list *)

Lemma mapNotNull_ids (allUsers : list Profile.t) (m : JsMap.t) :
  NoDup (JsMap.keys m) ->
  NoDup (map suggested_id (JsArray.mapNotNull (withProfile allUsers) m))
  /\ (forall x,
        In x (map suggested_id (JsArray.mapNotNull (withProfile allUsers) m))
        -> In x (JsMap.keys m)).
Proof.
  unfold JsMap.keys, JsArray.mapNotNull.
  induction m as [|e m IH]; simpl; intros Hnd.
  - split; [constructor | intros x []].
  - inversion Hnd as [|? ? He Hm]; subst.
    destruct (IH Hm) as [IH1 IH2].
    destruct (withProfile allUsers e) as [s|] eqn:W; simpl.
    + apply withProfile_Some in W. destruct W as [_ [Hid _]].
      split.
      * constructor; [|exact IH1]. rewrite Hid. intros H. apply He.
        apply IH2. exact H.
      * intros x [Hx|Hx]; [left; congruence | right; apply IH2; exact Hx].
    + split; [exact IH1|]. intros x Hx. right. apply IH2. exact Hx.
Qed.

Lemma suggestionsMap_keys_NoDup (user : uuid) (friendIds : list uuid)
    (rows : list Friendship.t) :
  NoDup (JsMap.keys (suggestionsMap user friendIds rows)).
Proof.
  rewrite suggestionsMap_tally.
  apply (tally_tallied _ JsMap.empty). split; constructor.
Qed.

(** X10: no user is suggested twice: the ids of the ranked suggestions are
    pairwise different, whatever the friends, the roster and the edge list
    (duplicate rows and duplicate profiles included). *)
Theorem suggestions_have_distinct_ids (user : uuid)
    (friends allUsers : list Profile.t) (allFriendships : list Friendship.t) :
  NoDup (map suggested_id
             (suggestionsWithMutual user friends allUsers allFriendships)).
Proof.
  unfold suggestionsWithMutual.
  eapply Permutation_NoDup.
  - apply Permutation_map. apply sort_Permutation.
  - unfold discovered, JsMap.entries.
    apply mapNotNull_ids. apply suggestionsMap_keys_NoDup.
Qed.

Lemma suggestionsWithMutual_no_hits (user : uuid)
    (friends allUsers : list Profile.t) (rows : list Friendship.t) :
  hits user (map Profile.user_id friends) rows = [] ->
  suggestionsWithMutual user friends allUsers rows = [].
Proof.
  intros H. unfold suggestionsWithMutual, discovered.
  rewrite suggestionsMap_tally, H. reflexivity.
Qed.

(** X11: empty inputs give no suggestion: a requester whom no row touches,
    an empty profile table, or an empty edge list; and so does an edge list
    in which no row touches a friend of the requester. *)
Theorem nothing_to_suggest (profiles : list Profile.t)
    (rows : list Friendship.t) (u : uuid) :
  (forall friendRows,
     forallb (fun r => negb (touches u r)) friendRows = true ->
     dashboardSuggestions profiles friendRows rows u = [])
  /\ dashboardSuggestions [] rows rows u = []
  /\ dashboardSuggestions profiles rows [] u = []
  /\ (forall edgeList,
        (forall r f, In r edgeList ->
                     In f (Graph.neighborsOf rows u) -> touches f r = false) ->
        dashboardSuggestions profiles rows edgeList u = []).
Proof.
  split; [|split; [|split]].
  - intros friendRows H. rewrite dashboardSuggestions_eq.
    assert (E : Query.friendships_of friendRows u = []).
    { unfold Query.friendships_of. apply filter_none. intros r Hr.
      rewrite forallb_forall in H. apply negb_true_iff. apply H. exact Hr. }
    rewrite E. simpl.
    assert (E' : Query.profiles_in profiles [] = []).
    { unfold Query.profiles_in. apply filter_none. reflexivity. }
    rewrite E'. reflexivity.
  - rewrite dashboardSuggestions_eq. reflexivity.
  - rewrite dashboardSuggestions_eq.
    destruct (_ && _); [|reflexivity].
    apply suggestionsWithMutual_no_hits.
    unfold hits. induction (map Profile.user_id _); [reflexivity|exact IHl].
  - intros edgeList H. rewrite dashboardSuggestions_eq.
    destruct (_ && _); [|reflexivity].
    apply suggestionsWithMutual_no_hits.
    destruct (hits _ _ _) as [|k l] eqn:E; [reflexivity|]. exfalso.
    assert (Hk : In k (hits u
                         (map Profile.user_id
                            (Query.profiles_in profiles
                               (friendIdsOf u (Query.friendships_of rows u))))
                         edgeList)) by (rewrite E; left; reflexivity).
    apply hits_In in Hk. destruct Hk as [f [r [Hf [Hr [Ht _]]]]].
    apply in_map_iff in Hf. destruct Hf as [p [<- Hp]].
    unfold Query.profiles_in in Hp. apply filter_In in Hp.
    destruct Hp as [_ Hp]. apply includes_In in Hp.
    apply neighborsOf_friendIdsOf in Hp.
    rewrite (H r _ Hr Hp) in Ht. discriminate.
Qed.

(** ** Rows stored either way round *)

Lemma touches_flip (f : uuid) (r : Friendship.t) :
  touches f (flip r) = touches f r.
Proof. unfold touches, flip. simpl. apply orb_comm. Qed.

Lemma potentialFriendId_flip (f : uuid) (r : Friendship.t) :
  touches f r = true ->
  potentialFriendId f (flip r) = potentialFriendId f r.
Proof.
  unfold touches, potentialFriendId, flip. destruct r as [x y]. simpl.
  destruct (String.eqb_spec x f), (String.eqb_spec y f); subst; simpl;
    try reflexivity; discriminate.
Qed.

Lemma reorient_candidates (f : uuid) (flags : list bool)
    (rows : list Friendship.t) :
  map (potentialFriendId f) (friendOfFriendships (reorient flags rows) f)
  = map (potentialFriendId f) (friendOfFriendships rows f).
Proof.
  unfold friendOfFriendships. revert flags.
  induction rows as [|r rows IH]; intros flags; [reflexivity|].
  destruct flags as [|b flags]; [reflexivity|].
  simpl. destruct b.
  - rewrite touches_flip. destruct (touches f r) eqn:E; simpl.
    + rewrite (potentialFriendId_flip f r E), IH. reflexivity.
    + apply IH.
  - destruct (touches f r); simpl; rewrite IH; reflexivity.
Qed.

Lemma reorient_neighborsOf (flags : list bool) (rows : list Friendship.t)
    (u x : uuid) :
  In x (Graph.neighborsOf (reorient flags rows) u)
  <-> In x (Graph.neighborsOf rows u).
Proof.
  rewrite <- !potential_neighbour.
  assert (H : forall l, (exists r, In r l /\ touches u r = true
                                   /\ potentialFriendId u r = x)
                        <-> In x (map (potentialFriendId u)
                                      (friendOfFriendships l u))).
  { intros l. unfold friendOfFriendships. rewrite in_map_iff. split.
    - intros [r [Hr [Ht Hp]]]. exists r. rewrite filter_In. auto.
    - intros [r [Hp Hr]]. apply filter_In in Hr. exists r. tauto. }
  rewrite !H, reorient_candidates. reflexivity.
Qed.

(** X12: rows are read as undirected: storing any of the rows the other way
    round changes neither the friend ids [loadFriends] computes, nor the
    neighbour sets, nor the ranked suggestions, their counts or their
    order. *)
Theorem orientation_does_not_matter (flags : list bool)
    (profiles : list Profile.t) (rows : list Friendship.t) (u : uuid) :
  friendIdsOf u (Query.friendships_of (reorient flags rows) u)
  = friendIdsOf u (Query.friendships_of rows u)
  /\ (forall x, In x (Graph.neighborsOf (reorient flags rows) u)
                <-> In x (Graph.neighborsOf rows u))
  /\ (forall friends allUsers,
        suggestionsWithMutual u friends allUsers (reorient flags rows)
        = suggestionsWithMutual u friends allUsers rows)
  /\ dashboardSuggestions profiles (reorient flags rows)
       (reorient flags rows) u
     = dashboardSuggestions profiles rows rows u.
Proof.
  assert (Hids : friendIdsOf u (Query.friendships_of (reorient flags rows) u)
                 = friendIdsOf u (Query.friendships_of rows u)).
  { exact (reorient_candidates u flags rows). }
  assert (Hrank : forall friends allUsers,
            suggestionsWithMutual u friends allUsers (reorient flags rows)
            = suggestionsWithMutual u friends allUsers rows).
  { intros friends allUsers. unfold suggestionsWithMutual, discovered.
    rewrite !suggestionsMap_tally. unfold hits, hitsOf.
    do 4 f_equal. apply flat_map_ext. intros f.
    rewrite reorient_candidates. reflexivity. }
  split; [exact Hids|]. split; [apply reorient_neighborsOf|].
  split; [exact Hrank|].
  rewrite !dashboardSuggestions_eq, Hids, Hrank. reflexivity.
Qed.

(** ** The buttons of a settled dashboard *)

Lemma loadData_fields (u : uuid) (db : Store) (st : State) :
  let st' := fst (loadData u db st) in
  friends st' = Query.profiles_in (profiles db) (storedFriendIds db u)
  /\ allUsers st' = Query.profiles_neq (profiles db) u
  /\ loading st' = false
  /\ suggestions st' = suggestions st
  /\ actionLoading st' = actionLoading st.
Proof.
  intros st'. split; [apply loadData_friends|].
  unfold st', loadData, loadDataWith.
  destruct (Query.profile_single (profiles db) u) as [p|e]; simpl;
    destruct (friendIdsOf u _) as [|i ids]; simpl; auto.
Qed.

Lemma settled_fields (db : Store) (u : uuid) (edgeList : list Friendship.t)
    (st : State) :
  let st' := settled db u edgeList st in
  let fs := Query.profiles_in (profiles db) (storedFriendIds db u) in
  let us := Query.profiles_neq (profiles db) u in
  friends st' = fs
  /\ allUsers st' = us
  /\ loading st' = false
  /\ (forall s, In s (suggestions st') ->
                In s (suggestionsWithMutual u fs us edgeList)).
Proof.
  intros st' fs us.
  destruct (loadData_fields u db st) as [Hf [Ha [Hl _]]].
  unfold st', settled, suggestionsEffect, calculateSuggestions. simpl.
  rewrite Hf, Ha. fold fs us.
  destruct (_ && _); simpl; rewrite ?Hf, ?Ha, ?Hl; repeat split; auto.
  intros s [].
Qed.

Lemma profiles_in_ids (ps : list Profile.t) (ids : list uuid) (x : uuid) :
  In x (map Profile.user_id (Query.profiles_in ps ids))
  <-> In x ids /\ Table.references ps x = true.
Proof.
  unfold Query.profiles_in, Table.references.
  rewrite in_map_iff, existsb_exists. split.
  - intros [p [<- Hp]]. apply filter_In in Hp. destruct Hp as [Hp Hi].
    apply includes_In in Hi. split; [exact Hi|].
    exists p. split; [exact Hp | apply String.eqb_refl].
  - intros [Hi [p [Hp He]]]. apply String.eqb_eq in He. exists p.
    split; [exact He|]. apply filter_In. split; [exact Hp|].
    apply includes_In. rewrite He. exact Hi.
Qed.

Lemma references_In (ps : list Profile.t) (p : Profile.t) :
  In p ps -> Table.references ps (Profile.user_id p) = true.
Proof.
  intros H. unfold Table.references. apply existsb_exists.
  exists p. split; [exact H | apply String.eqb_refl].
Qed.

(** A user with a profile who is neither [u] nor among the loaded friends
    can be befriended by [u]. *)
Lemma stranger_can_be_added (db : Store) (u t : uuid) (st : State) :
  Table.references (profiles db) u = true ->
  Table.references (profiles db) t = true ->
  t <> u ->
  ~ In t (map Profile.user_id
              (Query.profiles_in (profiles db) (storedFriendIds db u))) ->
  reportsSuccess (addFriend (Some u) t db st) = true.
Proof.
  intros Hu Ht Hne Hnf.
  assert (Hrows : ~ In t (storedFriendIds db u)).
  { intros H. apply Hnf. apply profiles_in_ids. auto. }
  rewrite storedFriendIds_rows in Hrows.
  assert (Hins : Table.insert (Some u) db
                   [Friendship.mk u t; Friendship.mk t u]
                 = (mkStore (profiles db)
                      (friendships db
                       ++ [Friendship.mk u t; Friendship.mk t u])%list,
                    Data tt)).
  { apply insert_pair_iff. repeat split; auto. }
  unfold addFriend. rewrite Hins.
  destruct (loadData u _ _) as [st2 ts]. reflexivity.
Qed.

(** X13: on a dashboard that [loadData] and the effect have just settled, for
    a user [u] who has a profile, every "Add Friend" button, on a suggestion
    or in the list of all users, starts an [addFriend] that the store
    accepts; it never targets [u] or a listed friend; and every "Unfriend"
    button targets a user the store holds as a friend of [u]. *)
Theorem offered_clicks_are_accepted (db : Store) (u : uuid)
    (edgeList : list Friendship.t) (st : State) :
  Table.references (profiles db) u = true ->
  let page := settled db u edgeList st in
  (forall t disabled st',
     In (View.AddFriendButton t disabled) (View.render page) ->
     t <> u
     /\ ~ In t (map Profile.user_id (friends page))
     /\ reportsSuccess (addFriend (Some u) t db st') = true)
  /\ (forall t disabled,
        In (View.UnfriendButton t disabled) (View.render page) ->
        In t (storedFriendIds db u)).
Proof.
  intros Hu page.
  destruct (settled_fields db u edgeList st) as [Hf [Ha [Hl Hs]]].
  fold page in Hf, Ha, Hl, Hs.
  assert (Hroster : forall p,
            In p (Query.profiles_neq (profiles db) u) ->
            Profile.user_id p <> u
            /\ Table.references (profiles db) (Profile.user_id p) = true).
  { intros p Hp. unfold Query.profiles_neq in Hp. apply filter_In in Hp.
    destruct Hp as [Hp Hn]. apply negb_true_iff, String.eqb_neq in Hn.
    split; [exact Hn | apply references_In; exact Hp]. }
  unfold View.render. rewrite Hl. split.
  - intros t disabled st' Hin.
    assert (Hok : t <> u
                  /\ Table.references (profiles db) t = true
                  /\ ~ In t (map Profile.user_id (friends page))).
    { apply in_app_or in Hin. destruct Hin as [Hin|Hin].
      - apply in_map_iff in Hin. destruct Hin as [s [Hb Hin]].
        unfold View.UserCard in Hb. inversion Hb; subst.
        pose proof (proj1 (Forall_forall _ _)
                      (suggestionsWithMutual_admissible u _ _ _) s
                      (Hs s Hin)) as [Hp [Hn [Hnf _]]].
        simpl in Hn, Hnf. destruct (Hroster _ Hp) as [_ Hr].
        rewrite Hf. auto.
      - apply in_app_or in Hin. destruct Hin as [Hin|Hin].
        + apply in_map_iff in Hin. destruct Hin as [f [Hb _]].
          unfold View.UserCard in Hb. discriminate.
        + apply in_map_iff in Hin. destruct Hin as [o [Hb Hin]].
          unfold View.UserCard in Hb.
          destruct (existsb _ (friends page)) eqn:E; [discriminate|].
          inversion Hb; subst. rewrite Ha in Hin.
          destruct (Hroster _ Hin) as [Hn Hr].
          repeat split; try assumption.
          intros Hc. apply in_map_iff in Hc. destruct Hc as [f [Hfe Hfi]].
          assert (K : existsb (fun f0 => String.eqb (Profile.user_id f0)
                                           (Profile.user_id o))
                              (friends page) = true).
          { apply existsb_exists. exists f. split; [exact Hfi|].
            apply String.eqb_eq. exact Hfe. }
          congruence. }
    destruct Hok as [Hn [Hr Hnf]]. repeat split; try assumption.
    apply stranger_can_be_added; try assumption.
    rewrite <- Hf. exact Hnf.
  - intros t disabled Hin.
    assert (Hfriend : In t (map Profile.user_id (friends page))).
    { apply in_app_or in Hin. destruct Hin as [Hin|Hin].
      - apply in_map_iff in Hin. destruct Hin as [s [Hb _]].
        unfold View.UserCard in Hb. discriminate.
      - apply in_app_or in Hin. destruct Hin as [Hin|Hin].
        + apply in_map_iff in Hin. destruct Hin as [f [Hb Hin]].
          unfold View.UserCard in Hb. inversion Hb; subst.
          apply in_map. exact Hin.
        + apply in_map_iff in Hin. destruct Hin as [o [Hb _]].
          unfold View.UserCard in Hb.
          destruct (existsb _ (friends page)) eqn:E; [|discriminate].
          inversion Hb; subst. apply existsb_exists in E.
          destruct E as [f [Hfi Hfe]]. apply String.eqb_eq in Hfe.
          apply in_map_iff. exists f. auto. }
    rewrite Hf in Hfriend. apply profiles_in_ids in Hfriend. tauto.
Qed.

Lemma offered_clicks_are_accepted_witness :
  let db := mkStore Scenario.roster Scenario.chain in
  let page := settled db "1" Scenario.chain initialState in
  View.render page
  = [View.AddFriendButton "3" false; View.UnfriendButton "2" false;
     View.UnfriendButton "2" false; View.AddFriendButton "3" false;
     View.AddFriendButton "4" false]
  /\ reportsSuccess (addFriend (Some "1") "3" db page) = true
  /\ In "2" (storedFriendIds db "1").
Proof.
  intros db page. split; [reflexivity|].
  destruct (offered_clicks_are_accepted db "1" Scenario.chain initialState
              eq_refl) as [Hadd Hun].
  split.
  - apply (Hadd "3" false page). left. reflexivity.
  - apply (Hun "2" false). right. left. reflexivity.
Defined.

(** ** The graph of [GraphVisualization] *)

Lemma includes_reflect (l : list uuid) (x : uuid) :
  reflect (In x l) (includes l x).
Proof.
  destruct (includes l x) eqn:E; constructor.
  - apply includes_In. exact E.
  - apply includes_false. exact E.
Qed.

Lemma setAdd_In (s : list string) (x y : string) :
  In y (setAdd s x) <-> In y s \/ y = x.
Proof.
  unfold setAdd. destruct (includes s x) eqn:E.
  - apply includes_In in E. split; [auto|]. intros [H| ->]; assumption.
  - rewrite in_app_iff. simpl. intuition.
Qed.

Lemma setAdd_NoDup (s : list string) (x : string) :
  NoDup s -> NoDup (setAdd s x).
Proof.
  intros H. unfold setAdd. destruct (includes s x) eqn:E; [exact H|].
  apply includes_false in E.
  apply NoDup_app; [exact H | constructor; [intros []|constructor] |].
  intros y Hy [<-|[]]. exact (E Hy).
Qed.

Section GraphFacts.
Variable currentUserId : uuid.
Variables friends allUsers : list Profile.t.
Variable friendships : list Friendship.t.

Let ids : list uuid := map Profile.user_id friends.

(** A row brings [x] into the set of friends of friends. *)
Definition brings (fs : Friendship.t) (x : uuid) : Prop :=
  (In (Friendship.user_id fs) ids /\ x = Friendship.friend_id fs
   \/ In (Friendship.friend_id fs) ids /\ x = Friendship.user_id fs)
  /\ x <> currentUserId /\ ~ In x ids.

Lemma collect_In (s : list string) (fs : Friendship.t) (x : uuid) :
  In x (Viz.collect currentUserId friends s fs) <-> In x s \/ brings fs x.
Proof.
  unfold Viz.collect, Viz.friendIds, brings. fold ids.
  destruct (includes_reflect ids (Friendship.user_id fs)) as [A1|A1];
    destruct (String.eqb_spec (Friendship.friend_id fs) currentUserId)
      as [B1|B1];
    destruct (includes_reflect ids (Friendship.friend_id fs)) as [C1|C1];
    destruct (String.eqb_spec (Friendship.user_id fs) currentUserId)
      as [B2|B2];
    simpl; rewrite ?setAdd_In, ?setAdd_In;
    split; intros H; intuition (subst; try congruence; auto).
Qed.

Lemma collect_fold_In (rows : list Friendship.t) (s : list string)
    (x : uuid) :
  In x (fold_left (Viz.collect currentUserId friends) rows s)
  <-> In x s \/ exists fs, In fs rows /\ brings fs x.
Proof.
  revert s. induction rows as [|r rows IH]; intros s; simpl.
  - split; [auto | intros [H|[fs [[] _]]]; exact H].
  - rewrite IH, collect_In. split.
    + intros [[H|H]|[fs [Hfs H]]]; eauto.
    + intros [H|[fs [[<-|Hfs] H]]]; eauto.
Qed.

Lemma collect_fold_NoDup (rows : list Friendship.t) (s : list string) :
  NoDup s -> NoDup (fold_left (Viz.collect currentUserId friends) rows s).
Proof.
  apply fold_left_preserves. intros a fs Ha. unfold Viz.collect.
  destruct (_ && _ && _); destruct (_ && _ && _);
    repeat apply setAdd_NoDup; exact Ha.
Qed.

(** The set of friends of friends holds the ids the traversal of
    [calculateSuggestions] counts. *)
Lemma friendsOfFriends_hits (x : uuid) :
  In x (Viz.friendsOfFriends currentUserId friends friendships)
  <-> In x (hits currentUserId ids friendships).
Proof.
  unfold Viz.friendsOfFriends. rewrite collect_fold_In, hits_In. split.
  - intros [[]|[[a b] [Hr [[[Hf ->]|[Hf ->]] [Hn Hi]]]]]; simpl in *.
    + exists a, (Friendship.mk a b).
      unfold touches, potentialFriendId. simpl.
      rewrite String.eqb_refl. repeat split; auto.
    + exists b, (Friendship.mk a b).
      unfold touches, potentialFriendId. simpl.
      rewrite String.eqb_refl, orb_true_r.
      destruct (String.eqb_spec a b) as [->|_]; [contradiction|].
      repeat split; auto.
  - intros [f [[a b] [Hf [Hr [Ht [Hp [Hn Hi]]]]]]]. right.
    exists (Friendship.mk a b). split; [exact Hr|].
    unfold touches, potentialFriendId, brings in *. simpl in *.
    destruct (String.eqb_spec a f) as [->|Na].
    + subst. repeat split; auto.
    + simpl in Ht. apply String.eqb_eq in Ht. subst. repeat split; auto.
Qed.

Lemma suggestionNodes_ids (x : uuid) :
  In x (map Node.id (Viz.suggestionNodes currentUserId friends allUsers
                       friendships))
  <-> In x (Viz.friendsOfFriends currentUserId friends friendships)
      /\ Table.references allUsers x = true.
Proof.
  unfold Viz.suggestionNodes. rewrite in_map_iff. split.
  - intros [n [<- Hn]]. apply mapNotNull_In in Hn.
    destruct Hn as [y [Hy Hf]].
    destruct (find _ allUsers) as [p|] eqn:F; [|discriminate].
    inversion Hf; subst. simpl. split; [exact Hy|].
    apply find_some in F. destruct F as [Hp He].
    unfold Table.references. apply existsb_exists. exists p. auto.
  - intros [Hx Hr]. unfold Table.references in Hr.
    destruct (find (fun u => String.eqb (Profile.user_id u) x) allUsers)
      as [p|] eqn:F.
    + exists (Node.mk x (Profile.name p) "#D6BCFA" 8).
      split; [reflexivity|]. apply mapNotNull_In. exists x.
      split; [exact Hx|]. rewrite F. reflexivity.
    + apply existsb_exists in Hr. destruct Hr as [p [Hp He]].
      rewrite (find_none _ _ F p Hp) in He. discriminate.
Qed.

Lemma suggested_ids (x : uuid) :
  In x (map suggested_id
            (suggestionsWithMutual currentUserId friends allUsers friendships))
  <-> In x (hits currentUserId ids friendships)
      /\ Table.references allUsers x = true.
Proof.
  rewrite in_map_iff. split.
  - intros [s [<- Hs]]. apply suggestion_key in Hs.
    destruct Hs as [Hp Hk]. split; [exact Hk|].
    apply references_In. exact Hp.
  - intros [Hk Hr]. unfold Table.references in Hr.
    destruct (find (fun u => String.eqb (Profile.user_id u) x) allUsers)
      as [p|] eqn:F.
    + pose proof (find_some _ _ F) as [_ He]. apply String.eqb_eq in He.
      exists (mkSuggestion p (count_occ string_dec
                                (hits currentUserId ids friendships) x)).
      split; [exact He|].
      unfold suggestionsWithMutual, discovered. apply sort_In.
      apply mapNotNull_In.
      exists (x, count_occ string_dec (hits currentUserId ids friendships) x).
      split.
      * unfold JsMap.entries. rewrite suggestionsMap_tally.
        apply tally_entries. auto.
      * unfold withProfile. simpl. rewrite F. reflexivity.
    + apply existsb_exists in Hr. destruct Hr as [p [Hp He]].
      rewrite (find_none _ _ F p Hp) in He. discriminate.
Qed.
End GraphFacts.

(** X14: the graph and the list agree: the users drawn as friends of friends
    are exactly the users the dashboard ranks as suggestions, given the same
    friends, roster and edge list. *)
Theorem graph_draws_the_suggestions (currentUserId : uuid)
    (friends allUsers : list Profile.t) (friendships : list Friendship.t)
    (x : uuid) :
  In x (map Node.id
            (Viz.suggestionNodes currentUserId friends allUsers friendships))
  <-> In x (map suggested_id
                (suggestionsWithMutual currentUserId friends allUsers
                   friendships)).
Proof.
  rewrite suggestionNodes_ids, suggested_ids, friendsOfFriends_hits.
  reflexivity.
Qed.

Lemma inGraph_In (currentUserId : uuid) (friends allUsers : list Profile.t)
    (friendships : list Friendship.t) (x : string) :
  Viz.inGraph currentUserId friends allUsers friendships x = true
  <-> In x (map Node.id
                (Viz.allNodes currentUserId friends allUsers friendships)).
Proof.
  unfold Viz.inGraph. rewrite existsb_exists, in_map_iff. split.
  - intros [n [Hn He]]. apply String.eqb_eq in He. exists n. auto.
  - intros [n [He Hn]]. exists n. split; [exact Hn|].
    apply String.eqb_eq. exact He.
Qed.

(** X15: the graph has no dangling link: every link joins two drawn nodes
    and comes from a row of the edge list, in the direction of the row; and
    every row whose two ends are drawn is a link. *)
Theorem links_join_drawn_nodes (currentUserId : uuid)
    (friends allUsers : list Profile.t) (friendships : list Friendship.t) :
  let g := Viz.buildGraph currentUserId friends allUsers friendships in
  let drawn := map Node.id (nodes g) in
  (forall l, In l (links g) ->
             In (Link.source l) drawn /\ In (Link.target l) drawn
             /\ In (Friendship.mk (Link.source l) (Link.target l))
                   friendships)
  /\ (forall r, In r friendships ->
                In (Friendship.user_id r) drawn ->
                In (Friendship.friend_id r) drawn ->
                exists l, In l (links g)
                          /\ Link.source l = Friendship.user_id r
                          /\ Link.target l = Friendship.friend_id r).
Proof.
  intros g drawn. unfold g, drawn, Viz.buildGraph. simpl. split.
  - intros l Hl. unfold Viz.allLinks in Hl. apply mapNotNull_In in Hl.
    destruct Hl as [[a b] [Hr Hl]]. simpl in Hl.
    destruct (Viz.inGraph _ _ _ _ a) eqn:Ea; [|discriminate].
    destruct (Viz.inGraph _ _ _ _ b) eqn:Eb; [|discriminate].
    simpl in Hl. inversion Hl; subst. simpl.
    apply inGraph_In in Ea, Eb. auto.
  - intros [a b] Hr Ha Hb. simpl in *.
    exists (Link.mk a b "rgba(126, 105, 171, 0.3)" 1).
    split; [|auto]. unfold Viz.allLinks. apply mapNotNull_In.
    exists (Friendship.mk a b). split; [exact Hr|]. simpl.
    apply inGraph_In in Ha, Hb. rewrite Ha, Hb. reflexivity.
Qed.

Lemma mapNotNull_NoDup {A B : Type} (f : A -> option B) (g : B -> A)
    (l : list A) :
  (forall a b, f a = Some b -> g b = a) ->
  NoDup l -> NoDup (map g (JsArray.mapNotNull f l)).
Proof.
  intros Hfg. unfold JsArray.mapNotNull.
  induction l as [|a l IH]; simpl; intros Hnd; [constructor|].
  inversion Hnd as [|? ? Ha Hl]; subst.
  destruct (f a) as [b|] eqn:E; simpl; [|apply IH; exact Hl].
  constructor; [|apply IH; exact Hl].
  rewrite (Hfg a b E). intros Hin. apply Ha.
  apply in_map_iff in Hin. destruct Hin as [b' [Hb' Hin]].
  apply in_flat_map in Hin. destruct Hin as [a' [Ha' Hin]].
  destruct (f a') as [b''|] eqn:E'; [|destruct Hin].
  destruct Hin as [<-|[]]. rewrite (Hfg a' b'' E') in Hb'. subst. exact Ha'.
Qed.

Lemma graph_node_ids (currentUserId : uuid) (friends allUsers : list Profile.t)
    (friendships : list Friendship.t) :
  map Node.id (Viz.allNodes currentUserId friends allUsers friendships)
  = (map Node.id (Viz.currentUserNodes currentUserId allUsers)
     ++ map Profile.user_id friends
     ++ map Node.id (Viz.suggestionNodes currentUserId friends allUsers
                       friendships))%list.
Proof.
  unfold Viz.allNodes, Viz.friendNodes. rewrite !map_app, map_map.
  reflexivity.
Qed.

Lemma currentUserNodes_ids (currentUserId : uuid) (allUsers : list Profile.t)
    (x : string) :
  In x (map Node.id (Viz.currentUserNodes currentUserId allUsers)) ->
  x = currentUserId.
Proof.
  unfold Viz.currentUserNodes. destruct (find _ allUsers); simpl.
  - intros [H|[]]. auto.
  - intros [].
Qed.

(** X16: when the friends passed to the graph have pairwise different ids
    and the current user is not among them, no two nodes of the graph share
    an id. *)
Theorem graph_nodes_are_distinct (currentUserId : uuid)
    (friends allUsers : list Profile.t) (friendships : list Friendship.t) :
  NoDup (map Profile.user_id friends) ->
  ~ In currentUserId (map Profile.user_id friends) ->
  NoDup (map Node.id
             (nodes (Viz.buildGraph currentUserId friends allUsers
                       friendships))).
Proof.
  intros Hnd Hcur. unfold Viz.buildGraph. simpl. rewrite graph_node_ids.
  assert (Hsug : forall x,
            In x (map Node.id (Viz.suggestionNodes currentUserId friends
                                 allUsers friendships)) ->
            x <> currentUserId /\ ~ In x (map Profile.user_id friends)).
  { intros x Hx. apply suggestionNodes_ids in Hx. destruct Hx as [Hx _].
    apply friendsOfFriends_hits, hits_In in Hx.
    destruct Hx as [f [r [_ [_ [_ [_ H]]]]]]. exact H. }
  apply NoDup_app; [|apply NoDup_app|].
  - unfold Viz.currentUserNodes. destruct (find _ allUsers); simpl;
      [constructor; [intros []|constructor] | constructor].
  - exact Hnd.
  - unfold Viz.suggestionNodes. apply mapNotNull_NoDup.
    + intros a b H. destruct (find _ allUsers); [|discriminate].
      inversion H. reflexivity.
    + apply collect_fold_NoDup. constructor.
  - intros x Hx Hs. apply Hsug in Hs. tauto.
  - intros x Hx Hin. apply currentUserNodes_ids in Hx. subst x.
    apply in_app_or in Hin. destruct Hin as [Hin|Hin]; [exact (Hcur Hin)|].
    apply Hsug in Hin. tauto.
Qed.

Lemma graph_nodes_are_distinct_witness :
  NoDup (map Node.id
             (nodes (Viz.buildGraph "1" [Scenario.person "2"]
                       [Scenario.person "1"; Scenario.person "2";
                        Scenario.person "3"]
                       Scenario.chain)))
  /\ map Node.id
         (nodes (Viz.buildGraph "1" [Scenario.person "2"]
                   [Scenario.person "1"; Scenario.person "2";
                    Scenario.person "3"]
                   Scenario.chain))
     = ["1"; "2"; "3"].
Proof.
  split; [|reflexivity].
  apply graph_nodes_are_distinct.
  - constructor; [intros []|constructor].
  - simpl. intros [H|[]]. discriminate.
Defined.

(** ** The traversal with its log *)

Section NarrationFacts.
Variable user : uuid.
Variables friends allUsers : list Profile.t.
Variable edges : list Friendship.t.

Let ids : list uuid := map Profile.user_id friends.

Lemma narrated_visitFriendship (friendId : uuid)
    (acc : JsMap.t * list string) (f : Friendship.t) :
  let acc' := Revised.visitFriendship user friends allUsers friendId acc f in
  fst acc' = visitFriendship user ids friendId (fst acc) f
  /\ List.length (snd acc')
     = List.length (snd acc)
       + (if eligible user ids (potentialFriendId friendId f) then 1 else 0).
Proof.
  destruct acc as [m logs].
  unfold Revised.visitFriendship, visitFriendship, eligible,
    Revised.friendIds, push. fold ids. simpl.
  destruct (negb _ && negb _); simpl.
  - split; [reflexivity|]. rewrite length_app. reflexivity.
  - split; [reflexivity | lia].
Qed.

Lemma narrated_rows (friendId : uuid) (rows : list Friendship.t)
    (acc : JsMap.t * list string) :
  let acc' :=
    fold_left (Revised.visitFriendship user friends allUsers friendId)
              rows acc in
  fst acc' = fold_left (visitFriendship user ids friendId) rows (fst acc)
  /\ List.length (snd acc')
     = List.length (snd acc)
       + List.length (filter (eligible user ids)
                             (map (potentialFriendId friendId) rows)).
Proof.
  revert acc. induction rows as [|r rows IH]; intros acc; simpl.
  - split; [reflexivity | lia].
  - destruct (IH (Revised.visitFriendship user friends allUsers friendId
                    acc r)) as [H1 H2].
    destruct (narrated_visitFriendship friendId acc r) as [K1 K2].
    cbv zeta in *. rewrite H1, H2, K1, K2. split; [reflexivity|].
    destruct (eligible user ids (potentialFriendId friendId r)); simpl; lia.
Qed.

Lemma narrated_visitFriend (acc : JsMap.t * list string) (friendId : uuid)
    (index : nat) :
  let acc' :=
    Revised.visitFriend user friends allUsers edges acc friendId index in
  fst acc' = visitFriend user ids edges (fst acc) friendId
  /\ List.length (snd acc')
     = List.length (snd acc) + 2
       + List.length (hitsOf user ids edges friendId).
Proof.
  destruct acc as [m logs]. unfold Revised.visitFriend, visitFriend, hitsOf.
  match goal with
  | |- context [fold_left _ ?rows (m, ?l)] =>
      destruct (narrated_rows friendId rows (m, l)) as [H1 H2]
  end.
  cbv zeta in *. simpl in *. rewrite H1, H2. split; [reflexivity|].
  unfold push. rewrite !length_app. simpl. lia.
Qed.

Lemma narrated_friends (l : list uuid) (index : nat)
    (acc : JsMap.t * list string) :
  let acc' :=
    forEachIndexed (Revised.visitFriend user friends allUsers edges)
                   l index acc in
  fst acc' = fold_left (visitFriend user ids edges) l (fst acc)
  /\ List.length (snd acc')
     = List.length (snd acc) + 2 * List.length l
       + List.length (flat_map (hitsOf user ids edges) l).
Proof.
  revert index acc. induction l as [|f l IH]; intros index acc; simpl.
  - split; [reflexivity | lia].
  - destruct (IH (S index)
                (Revised.visitFriend user friends allUsers edges acc f index))
      as [H1 H2].
    destruct (narrated_visitFriend acc f index) as [K1 K2].
    cbv zeta in *. rewrite H1, H2, K1, K2. split; [reflexivity|].
    rewrite length_app. lia.
Qed.

Lemma narrated_traverse (logs : list string) :
  let acc' := Revised.traverse user friends allUsers edges logs in
  fst acc' = suggestionsMap user ids edges
  /\ List.length (snd acc')
     = List.length logs + 2 * List.length friends
       + List.length (hits user ids edges).
Proof.
  unfold Revised.traverse, Revised.friendIds. fold ids.
  destruct (narrated_friends ids 0 (JsMap.empty, logs)) as [H1 H2].
  cbv zeta in *. simpl fst in H1. simpl snd in H2.
  rewrite H1, H2. split; [reflexivity|].
  assert (Hl : List.length ids = List.length friends)
    by (unfold ids; apply length_map).
  rewrite Hl. reflexivity.
Qed.
End NarrationFacts.

Lemma pushTopLines_length (logs : list string) (l : list FriendSuggestion) :
  List.length (Revised.pushTopLines logs l)
  = List.length logs + Nat.min 5 (List.length l).
Proof.
  unfold Revised.pushTopLines. rewrite <- length_firstn.
  generalize (firstn 5 l) as top. generalize 0 as index. intros index top.
  revert index logs. induction top as [|s top IH]; intros index logs; simpl.
  - lia.
  - rewrite IH. unfold push. rewrite length_app. simpl. lia.
Qed.

(** What the narrated computation stores, when the edge list is not empty. *)
Lemma narration_core (u : uuid) (d : Revised.Dashboard) :
  Revised.allFriendships d <> [] ->
  Revised.core (Revised.calculateSuggestions (Some u) d)
  = setSuggestions
      (suggestionsWithMutual u (friends (Revised.core d))
         (allUsers (Revised.core d)) (Revised.allFriendships d))
      (Revised.core d)
  /\ Revised.allFriendships (Revised.calculateSuggestions (Some u) d)
     = Revised.allFriendships d.
Proof.
  intros Hne. unfold Revised.calculateSuggestions.
  assert (Hz : Nat.eqb (List.length (Revised.allFriendships d)) 0 = false).
  { destruct (Revised.allFriendships d); [contradiction | reflexivity]. }
  rewrite Hz.
  match goal with
  | |- context [Revised.traverse u ?fs ?us ?es ?l] =>
      destruct (narrated_traverse u fs us es l) as [H1 _];
      destruct (Revised.traverse u fs us es l) as [m logs2] eqn:T
  end.
  simpl in H1. subst m. split; reflexivity.
Qed.

(** X17: the later revision's [calculateSuggestions], which writes the
    traversal log, ranks exactly as the first revision does on the same
    friends, roster and edge list, and touches nothing else of the earlier
    state; its log has six fixed lines, two lines per friend, one line per
    increment of a counter and at most five ranking lines.  With an empty
    edge list in the state it returns without any update, so the suggestions
    shown before stay. *)
Theorem narration_keeps_ranking (u : uuid) (d : Revised.Dashboard) :
  let st := Revised.core d in
  let edges := Revised.allFriendships d in
  let ranked := suggestionsWithMutual u (friends st) (allUsers st) edges in
  let d' := Revised.calculateSuggestions (Some u) d in
  (edges = [] -> d' = d)
  /\ (edges <> [] ->
      Revised.core d' = setSuggestions ranked st
      /\ Revised.allFriendships d' = edges
      /\ List.length (Revised.traversalLogs d')
         = 6 + 2 * List.length (friends st)
           + List.length (hits u (map Profile.user_id (friends st)) edges)
           + Nat.min 5 (List.length ranked)).
Proof.
  cbv zeta. unfold Revised.calculateSuggestions. split.
  - intros H. rewrite H. reflexivity.
  - intros Hne.
    assert (Hz : Nat.eqb (List.length (Revised.allFriendships d)) 0 = false).
    { destruct (Revised.allFriendships d); [contradiction | reflexivity]. }
    rewrite Hz.
    match goal with
    | |- context [Revised.traverse u ?fs ?us ?es ?l] =>
        destruct (narrated_traverse u fs us es l) as [H1 H2];
        destruct (Revised.traverse u fs us es l) as [m logs2] eqn:T
    end.
    simpl in H1, H2. subst m.
    unfold Revised.setTraversalLogs, Revised.withCore. simpl.
    split; [reflexivity|]. split; [reflexivity|].
    rewrite pushTopLines_length. unfold push. rewrite !length_app. simpl.
    rewrite H2. unfold suggestionsWithMutual, discovered. simpl. lia.
Qed.

(** ** The later revision against the store *)

Lemma revised_loadData_fields (u : uuid) (db : Store) (d : Revised.Dashboard) :
  let d' := fst (Revised.loadData u db d) in
  friends (Revised.core d')
  = Query.profiles_in (profiles db) (storedFriendIds db u)
  /\ allUsers (Revised.core d') = Query.profiles_neq (profiles db) u
  /\ Revised.allFriendships d' = Table.select (Some u) db.
Proof.
  unfold Revised.loadData, Revised.loadDataWith, storedFriendIds.
  destruct (loadProfile _ _ _) as [c1 t1].
  pose proof (loaded_friends (profiles db) (Table.select (Some u) db) u c1)
    as Hf.
  destruct (loadFriends _ _ _ c1) as [c2 t2]. simpl in Hf. simpl. auto.
Qed.

Lemma fold_left_fixed {A B : Type} (f : A -> B -> A) (l : list B) (a : A) :
  (forall x, In x l -> f a x = a) -> fold_left f l a = a.
Proof.
  induction l as [|x l IH]; simpl; intros H; [reflexivity|].
  rewrite (H x (or_introl eq_refl)). apply IH.
  intros y Hy. apply H. right. exact Hy.
Qed.

Lemma mapNotNull_none {A B : Type} (f : A -> option B) (l : list A) :
  (forall a, In a l -> f a = None) -> JsArray.mapNotNull f l = [].
Proof.
  unfold JsArray.mapNotNull. induction l as [|a l IH]; simpl; intros H;
    [reflexivity|].
  rewrite (H a (or_introl eq_refl)). simpl. apply IH.
  intros b Hb. apply H. right. exact Hb.
Qed.

(** Rows that all touch the current user give the graph nothing to draw
    beyond the friends, when the roster and the friends leave the user out. *)
Lemma own_rows_draw_friends_only (u : uuid) (friends allUsers : list Profile.t)
    (rows : list Friendship.t) :
  ~ In u (map Profile.user_id friends) ->
  Table.references allUsers u = false ->
  (forall r, In r rows -> touches u r = true) ->
  Viz.buildGraph u friends allUsers rows
  = mkGraph (Viz.friendNodes friends) [].
Proof.
  intros Hu Hroster Hrows.
  assert (Hcur : Viz.currentUserNodes u allUsers = []).
  { unfold Viz.currentUserNodes.
    destruct (find _ allUsers) as [p|] eqn:F; [|reflexivity].
    apply find_some in F. destruct F as [Hp He].
    unfold Table.references in Hroster.
    assert (K : existsb (fun p0 => String.eqb (Profile.user_id p0) u) allUsers
                = true) by (apply existsb_exists; exists p; auto).
    congruence. }
  assert (Hinc : includes (map Profile.user_id friends) u = false)
    by (apply includes_false; exact Hu).
  assert (Hfof : Viz.friendsOfFriends u friends rows = []).
  { unfold Viz.friendsOfFriends. apply fold_left_fixed. intros r Hr.
    pose proof (Hrows r Hr) as Ht. unfold touches in Ht.
    unfold Viz.collect, Viz.friendIds.
    destruct (String.eqb_spec (Friendship.user_id r) u) as [E1|N1];
      destruct (String.eqb_spec (Friendship.friend_id r) u) as [E2|N2];
      try discriminate; rewrite ?E1, ?E2, ?Hinc; simpl;
      rewrite ?andb_false_r; reflexivity. }
  assert (Hnodes : Viz.allNodes u friends allUsers rows
                   = Viz.friendNodes friends).
  { unfold Viz.allNodes, Viz.suggestionNodes. rewrite Hcur, Hfof. simpl.
    apply app_nil_r. }
  unfold Viz.buildGraph. rewrite Hnodes. f_equal.
  unfold Viz.allLinks. apply mapNotNull_none. intros r Hr.
  assert (Hno : Viz.inGraph u friends allUsers rows u = false).
  { apply not_true_iff_false. rewrite inGraph_In, Hnodes.
    unfold Viz.friendNodes. rewrite map_map. exact Hu. }
  pose proof (Hrows r Hr) as Ht. unfold touches in Ht.
  destruct (String.eqb_spec (Friendship.user_id r) u) as [E1|N1].
  - rewrite E1, Hno. reflexivity.
  - simpl in Ht. apply String.eqb_eq in Ht. rewrite Ht, Hno.
    rewrite andb_false_r. reflexivity.
Qed.

(** X18: against the store, with the select policy in force, the later
    revision shows no suggestion either; and when the table holds no row
    from [u] to [u], the graph it draws for [u] consists of the friends
    alone: no node for [u], no friend of a friend, and not a single link. *)
Theorem deployed_graph_is_bare (db : Store) (u : uuid)
    (d : Revised.Dashboard) :
  ~ In (Friendship.mk u u) (friendships db) ->
  let d' :=
    Revised.suggestionsEffect (Some u) (fst (Revised.loadData u db d)) in
  suggestions (Revised.core d') = []
  /\ Revised.graph u d'
     = mkGraph (Viz.friendNodes (friends (Revised.core d'))) [].
Proof.
  intros Hself d'.
  destruct (revised_loadData_fields u db d) as [Hf [Ha Hr]].
  set (d1 := fst (Revised.loadData u db d)) in *.
  assert (Hsame : friends (Revised.core d') = friends (Revised.core d1)
                  /\ allUsers (Revised.core d') = allUsers (Revised.core d1)
                  /\ Revised.allFriendships d' = Revised.allFriendships d1
                  /\ suggestions (Revised.core d') = []).
  { unfold d', Revised.suggestionsEffect.
    destruct (Nat.ltb 0 (List.length (friends (Revised.core d1)))) eqn:G;
      cbn [andb]; [|simpl; auto].
    destruct (Nat.ltb 0 (List.length (allUsers (Revised.core d1))));
      [|simpl; auto].
    assert (Hne : Revised.allFriendships d1 <> []).
    { rewrite Hr. intros Hnil.
      rewrite Hf in G. unfold storedFriendIds in G. rewrite Hnil in G.
      simpl in G.
      assert (E : Query.profiles_in (profiles db) [] = [])
        by (unfold Query.profiles_in; apply filter_none; reflexivity).
      rewrite E in G. discriminate. }
    destruct (narration_core u d1 Hne) as [Hc Hfr]. rewrite Hc, Hfr.
    simpl. repeat split; try reflexivity.
    rewrite Hf, Ha, Hr. apply visible_rows_suggest_nobody. }
  destruct Hsame as [S1 [S2 [S3 S4]]]. split; [exact S4|].
  unfold Revised.graph. rewrite S2, S3, Ha, Hr.
  apply own_rows_draw_friends_only.
  - rewrite S1, Hf. intros Hin. apply profiles_in_ids in Hin.
    destruct Hin as [Hin _]. apply storedFriendIds_rows in Hin. tauto.
  - apply not_true_iff_false. intros H. unfold Table.references in H.
    apply existsb_exists in H. destruct H as [p [Hp He]].
    unfold Query.profiles_neq in Hp. apply filter_In in Hp.
    destruct Hp as [_ Hp]. rewrite He in Hp. discriminate.
  - intros r Hin. apply select_touches in Hin. tauto.
Qed.

Lemma deployed_graph_is_bare_witness :
  let db := mkStore Scenario.roster Scenario.chain in
  let d' :=
    Revised.suggestionsEffect (Some "2")
      (fst (Revised.loadData "2" db Revised.initialDashboard)) in
  map Profile.user_id (friends (Revised.core d')) = ["1"; "3"]
  /\ suggestions (Revised.core d') = []
  /\ Revised.graph "2" d'
     = mkGraph (Viz.friendNodes (friends (Revised.core d'))) [].
Proof.
  intros db d'. split; [reflexivity|].
  apply (deployed_graph_is_bare db "2" Revised.initialDashboard).
  simpl. intuition discriminate.
Defined.

(** ** What [loadData] leaves in the state *)

Lemma filter_unique {A : Type} (g : A -> string) (l : list A) (p : A) :
  NoDup (map g l) -> In p l ->
  filter (fun q => String.eqb (g q) (g p)) l = [p].
Proof.
  induction l as [|a l IH]; simpl; intros Hnd Hin; [destruct Hin|].
  destruct Hin as [Hin|Hin].
  - subst a. rewrite String.eqb_refl. f_equal.
    apply filter_none. intros q Hq.
    inversion Hnd as [|? ? Ha _]; subst.
    apply String.eqb_neq. intros E. apply Ha. rewrite <- E.
    apply in_map. exact Hq.
  - inversion Hnd as [|? ? Ha Hl]; subst.
    destruct (String.eqb_spec (g a) (g p)) as [E|_].
    + exfalso. apply Ha. rewrite E. apply in_map. exact Hin.
    + apply IH; assumption.
Qed.

(** X19: after [loadData] against the store, the friends in the state are
    the profiles of the users a row joins to [u], the roster is every profile
    but those of [u], and loading is over; with one profile per user, the
    profile of [u] is the one in the state, and a user without a profile
    keeps the profile state they had. *)
Theorem loadData_reflects_store (u : uuid) (db : Store) (st : State) :
  NoDup (map Profile.user_id (profiles db)) ->
  let st' := fst (loadData u db st) in
  (forall p, In p (friends st') <->
             In p (profiles db)
             /\ (In (Friendship.mk u (Profile.user_id p)) (friendships db)
                 \/ In (Friendship.mk (Profile.user_id p) u)
                       (friendships db)))
  /\ (forall p, In p (allUsers st') <->
                In p (profiles db) /\ Profile.user_id p <> u)
  /\ (forall p, In p (profiles db) -> Profile.user_id p = u ->
                profile st' = Some p)
  /\ (Table.references (profiles db) u = false -> profile st' = profile st)
  /\ loading st' = false.
Proof.
  intros Hnd st'.
  destruct (loadData_fields u db st) as [Hf [Ha [Hl _]]].
  fold st' in Hf, Ha, Hl.
  assert (Hprof : profile st'
                  = match Query.profile_single (profiles db) u with
                    | Data p => Some p
                    | Error _ => profile st
                    end).
  { unfold st', loadData, loadDataWith.
    destruct (Query.profile_single (profiles db) u) as [p|e]; simpl;
      destruct (friendIdsOf u _) as [|i ids]; reflexivity. }
  split; [|split; [|split; [|split; [|exact Hl]]]].
  - intros p. rewrite Hf. unfold Query.profiles_in.
    rewrite filter_In, includes_In, storedFriendIds_rows. reflexivity.
  - intros p. rewrite Ha. unfold Query.profiles_neq.
    rewrite filter_In, negb_true_iff, String.eqb_neq. reflexivity.
  - intros p Hp Hu. rewrite Hprof. unfold Query.profile_single.
    rewrite <- Hu. rewrite (filter_unique Profile.user_id _ p Hnd Hp).
    reflexivity.
  - intros Hno. rewrite Hprof. unfold Query.profile_single.
    rewrite filter_none; [reflexivity|].
    intros q Hq. apply not_true_iff_false. intros E.
    unfold Table.references in Hno.
    assert (K : existsb (fun p => String.eqb (Profile.user_id p) u)
                        (profiles db) = true)
      by (apply existsb_exists; exists q; auto).
    congruence.
Qed.

Lemma loadData_reflects_store_witness :
  let db := mkStore Scenario.roster Scenario.chain in
  let st' := fst (loadData "2" db initialState) in
  friends st' = [Scenario.person "1"; Scenario.person "3"]
  /\ profile st' = Some (Scenario.person "2")
  /\ (forall p, In p (allUsers st') <->
                In p (profiles db) /\ Profile.user_id p <> "2").
Proof.
  intros db st'.
  destruct (loadData_reflects_store "2" db initialState roster_unique)
    as [_ [Ha [Hp _]]].
  split; [reflexivity|]. split; [|exact Ha].
  apply Hp; [right; left|]; reflexivity.
Defined.

(** ** Friends marked as knowing each other *)

Section MarkingFacts.
Variable friendIds : list uuid.
Variable friendships : list Friendship.t.

Lemma areFriends_rows (a b : uuid) :
  Marking.areFriends friendships a b = true
  <-> In (Friendship.mk a b) friendships \/ In (Friendship.mk b a) friendships.
Proof.
  unfold Marking.areFriends. rewrite existsb_exists. split.
  - intros [r [Hr H]]. apply (eitherOrientation_rows a b) in H.
    destruct H as [->| ->]; auto.
  - intros [H|H]; eexists; (split; [exact H|]).
    + apply eitherOrientation_same.
    + apply eitherOrientation_flipped.
Qed.

(** [x] is one of two different friends that a row joins. *)
Definition paired (a b x : uuid) : Prop :=
  a <> b /\ Marking.areFriends friendships a b = true /\ (x = a \/ x = b).

Lemma pair_In (a : uuid) (s : list string) (b x : uuid) :
  In x (Marking.pair friendships a s b) <-> In x s \/ paired a b x.
Proof.
  unfold Marking.pair, paired.
  destruct (String.eqb_spec a b) as [E|N]; simpl.
  - split; [auto | intros [H|[H _]]; [exact H | contradiction]].
  - destruct (Marking.areFriends friendships a b).
    + rewrite !setAdd_In. intuition.
    + split; [auto | intros [H|[_ [H _]]]; [exact H | discriminate]].
Qed.

Lemma pair_fold_In (a : uuid) (l : list uuid) (s : list string) (x : uuid) :
  In x (fold_left (Marking.pair friendships a) l s)
  <-> In x s \/ exists b, In b l /\ paired a b x.
Proof.
  revert s. induction l as [|b l IH]; intros s; simpl.
  - split; [auto | intros [H|[b [[] _]]]; exact H].
  - rewrite IH, pair_In. split.
    + intros [[H|H]|[c [Hc H]]]; eauto.
    + intros [H|[c [[<-|Hc] H]]]; eauto.
Qed.

Lemma mutual_fold_In (l : list uuid) (s : list string) (x : uuid) :
  In x (fold_left (fun s a => fold_left (Marking.pair friendships a)
                                        friendIds s) l s)
  <-> In x s \/ exists a b, In a l /\ In b friendIds /\ paired a b x.
Proof.
  revert s. induction l as [|a l IH]; intros s; simpl.
  - split; [auto | intros [H|[a [b [[] _]]]]; exact H].
  - rewrite IH, pair_fold_In. split.
    + intros [[H|[b [Hb H]]]|[c [b [Hc [Hb H]]]]].
      * left. exact H.
      * right. exists a, b. auto.
      * right. exists c, b. auto.
    + intros [H|[c [b [[<-|Hc] [Hb H]]]]].
      * left. left. exact H.
      * left. right. exists b. auto.
      * right. exists c, b. auto.
Qed.
End MarkingFacts.

(** X20: the later graph view marks a friend as 'mutual' exactly when a row
    of the edge list joins it to another, different friend; so when every
    row touches the current user, who is not a friend of themself, as in
    what the select policy returns, no friend is marked. *)
Theorem mutual_marks (friendIds : list uuid) (friendships : list Friendship.t) :
  (forall x,
     Marking.isMutual friendIds friendships x = true
     <-> In x friendIds
         /\ exists y, In y friendIds /\ y <> x
                      /\ (In (Friendship.mk x y) friendships
                          \/ In (Friendship.mk y x) friendships))
  /\ (forall u,
        ~ In u friendIds ->
        (forall r, In r friendships -> touches u r = true) ->
        Marking.mutualFriendIds friendIds friendships = []).
Proof.
  assert (Hchar : forall x,
            In x (Marking.mutualFriendIds friendIds friendships)
            <-> In x friendIds
                /\ exists y, In y friendIds /\ y <> x
                             /\ (In (Friendship.mk x y) friendships
                                 \/ In (Friendship.mk y x) friendships)).
  { intros x. unfold Marking.mutualFriendIds. rewrite mutual_fold_In.
    unfold paired. split.
    - intros [[]|[a [b [Ha [Hb [Hab [Hf Hx]]]]]]].
      apply areFriends_rows in Hf.
      destruct Hx as [->| ->].
      + split; [exact Ha|]. exists b. repeat split; auto.
      + split; [exact Hb|]. exists a. repeat split; auto. tauto.
    - intros [Hx [y [Hy [Hne Hr]]]]. right. exists x, y.
      repeat split; auto. apply areFriends_rows. exact Hr. }
  split.
  - intros x. unfold Marking.isMutual. rewrite includes_In. apply Hchar.
  - intros u Hu Hrows.
    destruct (Marking.mutualFriendIds friendIds friendships) as [|x l] eqn:E;
      [reflexivity|]. exfalso.
    assert (Hx : In x (x :: l)) by (left; reflexivity).
    apply Hchar in Hx. destruct Hx as [Hx [y [Hy [Hne Hr]]]].
    assert (Ht : touches u (Friendship.mk x y) = true
                 \/ touches u (Friendship.mk y x) = true).
    { destruct Hr as [Hr|Hr]; [left | right]; apply Hrows; exact Hr. }
    unfold touches in Ht. simpl in Ht.
    destruct (String.eqb_spec x u) as [->|_]; [contradiction|].
    destruct (String.eqb_spec y u) as [->|_]; [contradiction|].
    simpl in Ht. destruct Ht; discriminate.
Qed.
